(** * wasabi/src/run.ts: the funding-and-run control loop

    A shallow embedding of [getAgentRequiredFunding] and [run] of
    [src/wasabi/src/run.ts].

    The program is asynchronous JavaScript that talks to a ledger through the
    SDK.  Every awaited call is a call into the outside world: it can resolve
    with a value or reject with an error, and the world can change while the
    call is in flight (sibling processes fund and spend concurrently).  The
    embedding therefore runs the program in a small monad that threads an
    arbitrary world [W], records every call together with its result in a
    trace, propagates thrown errors, and cuts unbounded loops with fuel
    ([Pending]: the promise has not settled yet).

    Numbers.  [bigint] values are [Z].  A JavaScript [number] argument is
    either an integer or a value on which [BigInt(..)] throws a [RangeError]
    and which is never [===] to the integer loop counter ([NonInt]: a fraction,
    [NaN], an infinity; it carries the text the number prints as, which the
    error message quotes).  The loop counter [runNumber] is a [Z]; the model
    covers the range in which [++runNumber] is exact (below 2^53).

    Errors.  A rejected call rejects with an [Error], identified here with its
    [message].  The clock ([new Date()]) only feeds a log line and is left
    out, and so are the constructors of the providers and agent managers,
    which make no call. *)

From Stdlib Require Import ZArith List String Bool Lia.
Import ListNotations.
Open Scope string_scope.
Open Scope list_scope.
Open Scope Z_scope.

(** ** Data *)

Inductive number : Type :=
| Int (z : Z)
| NonInt (text : string).

Definition Error : Type := string.
Definition Buffer : Type := list Byte.byte.
Definition TxHash : Type := N.

Inductive EthAddress : Type :=
| Address (a : N)
| AddressUndefined.

Record Receipt : Type := { status : bool }.

(** The object returned by [getAgentRequiredFunding]. *)
Record FundingSpec : Type := { fundingThreshold : Z; toFund : Z }.

(** [agentType != 'element' ? new AgentManager(..) : new ElementAgentManager(..)] *)
Inductive Manager : Type :=
| AgentManager (agentType : string)
| ElementAgentManager.

(** The lines written with [console.log], with the values they interpolate. *)
Inductive LogLine : Type :=
| LogPrimaryFundingAccount (fundingAddress : EthAddress) (balance : Z)
| LogStartingRun (runNumber : Z)
| LogFundingProcessAddress (processAddress : EthAddress) (toFund : Z)
| LogFailedToFund (message : string)
| LogRunCompleted (runNumber : Z)
| LogRefunding (fundingAddress : EthAddress) (value : Z).

(** One entry per call that leaves the program, with the result it got. *)
Inductive Event : Type :=
| EvLog (l : LogLine)
| EvCreateAztecSdk (serverUrl : string) (minConfirmation : number) (r : Error + unit)
| EvSdkRun (r : Error + unit)
| EvAwaitSynchronised (r : Error + unit)
| EvAddAccount (key : Buffer) (r : Error + EthAddress)
| EvGetAccounts (r : Error + list EthAddress)
| EvGetPublicBalanceAv (assetId : Z) (a : EthAddress) (r : Error + Z)
| EvRandomBytes (size : Z) (r : Error + Buffer)
| EvUniswapRequiredFunding (numTransfers : number) (r : Error + Z)
| EvPaymentRequiredFunding (assetId : option number) (numTransfers : number) (r : Error + Z)
| EvGetPublicBalance (assetId : Z) (a : EthAddress) (r : Error + Z)
| EvTransfer (value : Z) (from to : EthAddress) (r : Error + TxHash)
| EvGetTransactionReceipt (txHash : TxHash) (r : Error + Receipt)
| EvSetTimeout (ms : Z)
| EvAgentManagerRun (m : Manager) (r : Error + unit)
| EvDestroy (r : Error + unit).

(** ** The outside world

    Everything [run.ts] imports and calls.  Each call maps a world to a result
    (resolved or rejected) and the next world.  [ElementAgent.getRequiredFunding()]
    and [ManualPaymentAgent.getRequiredFunding()] are synchronous statics
    without arguments, hence constants. *)

Class Ledger (W : Type) : Type := {
  createAztecSdk : string -> number -> W -> (Error + unit) * W;
  sdk_run : W -> (Error + unit) * W;
  sdk_awaitSynchronised : W -> (Error + unit) * W;
  sdk_getPublicBalanceAv : Z -> EthAddress -> W -> (Error + Z) * W;
  sdk_getPublicBalance : Z -> EthAddress -> W -> (Error + Z) * W;
  sdk_getTransactionReceipt : TxHash -> W -> (Error + Receipt) * W;
  sdk_destroy : W -> (Error + unit) * W;
  provider_addAccount : Buffer -> W -> (Error + EthAddress) * W;
  ethereumRpc_getAccounts : W -> (Error + list EthAddress) * W;
  randomBytes : Z -> W -> (Error + Buffer) * W;
  asset_transfer : Z -> EthAddress -> EthAddress -> W -> (Error + TxHash) * W;
  setTimeout : Z -> W -> W;
  agentManager_run : Manager -> W -> (Error + unit) * W;
  UniswapAgent_getRequiredFunding : number -> W -> (Error + Z) * W;
  PaymentAgent_getRequiredFunding : option number -> number -> W -> (Error + Z) * W;
  ElementAgent_getRequiredFunding : Z;
  ManualPaymentAgent_getRequiredFunding : Z
}.

(** ** The monad: world, trace, thrown errors, fuel *)

Inductive Outcome (A : Type) : Type :=
| Ret (a : A)
| Thrown (e : Error)
| Pending.
Arguments Ret {A} a.
Arguments Thrown {A} e.
Arguments Pending {A}.

Definition M (W A : Type) : Type := W -> list Event * W * Outcome A.

Definition ret {W A} (a : A) : M W A := fun w => ([], w, Ret a).
Definition throw {W A} (e : Error) : M W A := fun w => ([], w, Thrown e).
Definition pending {W A} : M W A := fun w => ([], w, Pending).

Definition bind {W A B} (m : M W A) (k : A -> M W B) : M W B :=
  fun w =>
    match m w with
    | (t1, w1, Ret a) => let '(t2, w2, o) := k a w1 in (t1 ++ t2, w2, o)
    | (t1, w1, Thrown e) => (t1, w1, Thrown e)
    | (t1, w1, Pending) => (t1, w1, Pending)
    end.

(** [try { m } catch (err) { .. }], with the caught error made a value. *)
Definition tryCatch {W A} (m : M W A) : M W (Error + A) :=
  fun w =>
    match m w with
    | (t, w1, Ret a) => (t, w1, Ret (inr a))
    | (t, w1, Thrown e) => (t, w1, Ret (inl e))
    | (t, w1, Pending) => (t, w1, Pending)
    end.

(** An awaited call: run it in the world, record it, settle. *)
Definition call {W A} (f : W -> (Error + A) * W) (ev : Error + A -> Event) : M W A :=
  fun w =>
    let '(r, w1) := f w in
    ([ev r], w1, match r with inl e => Thrown e | inr a => Ret a end).

Definition emit {W} (e : Event) : M W unit := fun w => ([e], w, Ret tt).
Definition console_log {W} (l : LogLine) : M W unit := emit (EvLog l).

Declare Scope js_scope.
Delimit Scope js_scope with js.
Notation "x <- m ;; k" := (bind m (fun x => k))
  (at level 61, m at next level, right associativity) : js_scope.
Notation "m ;; k" := (bind m (fun _ => k))
  (at level 61, right associativity) : js_scope.
Open Scope js_scope.

Definition trace {W A} (r : list Event * W * Outcome A) : list Event := fst (fst r).
Definition world {W A} (r : list Event * W * Outcome A) : W := snd (fst r).
Definition outcome {W A} (r : list Event * W * Outcome A) : Outcome A := snd r.

(** ** Pure helpers of the language and the SDK *)

(** The message of the [RangeError] of [BigInt(n)] for an [n] that prints as
    [text]. *)
Definition notAnInteger (text : string) : Error :=
  String.append "The number "
    (String.append text " cannot be converted to a BigInt because it is not an integer").

(** [BigInt(n)]: a [RangeError] unless [n] is an integer. *)
Definition BigInt {W} (n : number) : M W Z :=
  match n with
  | Int z => ret z
  | NonInt text => throw (notAnInteger text)
  end.

(** [runNumber !== loops], with [loops?: number]. *)
Definition strict_neq (runNumber : Z) (loops : option number) : bool :=
  match loops with
  | Some (Int n) => negb (runNumber =? n)
  | Some (NonInt _) => true
  | None => true
  end.

Definition digit_of (c : Ascii.ascii) : Z := Z.of_nat (Ascii.nat_of_ascii c) - 48.

Fixpoint parse_digits (acc : Z) (s : string) : Z :=
  match s with
  | EmptyString => acc
  | String c s' => parse_digits (10 * acc + digit_of c) s'
  end.

(** Modelled from the spec: [toBaseUnits] of the SDK is not among the sources.
    The spec fixes the reserve at 420 units of 10^12 wei each, so
    [toBaseUnits(value, decimals)] scales the decimal numeral [value] (without
    a fractional part, as here) by [10^decimals]. *)
Definition toBaseUnits (value : string) (decimals : Z) : Z :=
  parse_digits 0 value * 10 ^ decimals.

Section Wasabi.
Context {W : Type} `{Ledger W}.

(** [initSdk] *)
Definition initSdk (serverUrl : string) (minConfirmation : number) : M W unit :=
  call (createAztecSdk serverUrl minConfirmation) (EvCreateAztecSdk serverUrl minConfirmation) ;;
  call sdk_run EvSdkRun ;;
  call sdk_awaitSynchronised EvAwaitSynchronised.

(** ** [getAgentRequiredFunding] *)

Definition ethTransferEstimate : Z := 21000 * (4 * 10 ^ 9).

(** The value of the immediately invoked [async () => { switch (agentType) .. }]. *)
Definition requiredValue (agentType : string) (numAgents numTransfers : number)
    (assetIds : list number) : M W Z :=
  if String.eqb agentType "uniswap" then
    c <- call (UniswapAgent_getRequiredFunding numTransfers)
              (EvUniswapRequiredFunding numTransfers) ;;
    n <- BigInt numAgents ;;
    ret ((ethTransferEstimate + c) * n)
  else if String.eqb agentType "element" then
    n <- BigInt numAgents ;;
    ret ((ethTransferEstimate + ElementAgent_getRequiredFunding) * n
         + ManualPaymentAgent_getRequiredFunding)
  else if String.eqb agentType "payment" then
    c <- call (PaymentAgent_getRequiredFunding (hd_error assetIds) numTransfers)
              (EvPaymentRequiredFunding (hd_error assetIds) numTransfers) ;;
    n <- BigInt numAgents ;;
    ret ((ethTransferEstimate + c) * n)
  else
    throw (String.append "Unknown agent type: " agentType).

Definition getAgentRequiredFunding (agentType : string) (numAgents numTransfers : number)
    (assetIds : list number) (loops : option number) : M W FundingSpec :=
  let loops := match loops with Some l => l | None => Int 10 end in
  value <- requiredValue agentType numAgents numTransfers assetIds ;;
  l <- BigInt loops ;;
  let fundingBufferPercent := 5 * l in
  let fundingThreshold := value in
  let toFund := Z.quot (value * (100 + fundingBufferPercent)) 100 in
  ret {| fundingThreshold := fundingThreshold; toFund := toFund |}.

(** ** [run] *)

(** [await new Promise(resolve => setTimeout(resolve, ms))] *)
Definition sleep (ms : Z) : M W unit :=
  fun w => ([EvSetTimeout ms], setTimeout ms w, Ret tt).

(** The body of the [try] block of the funding loop, up to its [break]. *)
Definition fundAttempt (fundingAddress processAddress : EthAddress) (toFund : Z) : M W unit :=
  console_log (LogFundingProcessAddress processAddress toFund) ;;
  txHash <- call (asset_transfer toFund fundingAddress processAddress)
                 (EvTransfer toFund fundingAddress processAddress) ;;
  receipt <- call (sdk_getTransactionReceipt txHash) (EvGetTransactionReceipt txHash) ;;
  if negb (status receipt) then throw "receipt status is false." else ret tt.

(** [while ((await sdk.getPublicBalance(0, processAddress)) < fundingThreshold) { try .. catch .. }] *)
Fixpoint fundingLoop (fuel : nat) (fundingAddress processAddress : EthAddress)
    (toFund fundingThreshold : Z) : M W unit :=
  match fuel with
  | O => pending
  | S fuel' =>
    balance <- call (sdk_getPublicBalance 0 processAddress)
                    (EvGetPublicBalance 0 processAddress) ;;
    if balance <? fundingThreshold then
      r <- tryCatch (fundAttempt fundingAddress processAddress toFund) ;;
      match r with
      | inr _ => ret tt
      | inl err =>
        console_log (LogFailedToFund err) ;;
        sleep 5000 ;;
        fundingLoop fuel' fundingAddress processAddress toFund fundingThreshold
      end
    else ret tt
  end.

Definition newAgentManager (agentType : string) : Manager :=
  if negb (String.eqb agentType "element") then AgentManager agentType
  else ElementAgentManager.

(** The body of the [for] loop. *)
Definition iteration (fuel : nat) (agentType : string) (numAgents numTxsPerAgent : number)
    (assets : list number) (loops : option number)
    (fundingAddress processAddress : EthAddress) (runNumber : Z) : M W unit :=
  console_log (LogStartingRun runNumber) ;;
  spec <- getAgentRequiredFunding agentType numAgents numTxsPerAgent assets loops ;;
  fundingLoop fuel fundingAddress processAddress (toFund spec) (fundingThreshold spec) ;;
  let agentManager := newAgentManager agentType in
  console_log (LogStartingRun runNumber) ;;
  call (agentManager_run agentManager) (EvAgentManagerRun agentManager) ;;
  console_log (LogRunCompleted runNumber).

(** [for (let runNumber = 0; runNumber !== loops; ++runNumber) { .. }], from
    [runNumber] on.  [gas] bounds each inner funding loop, [fuel] this one. *)
Fixpoint runLoop (gas fuel : nat) (agentType : string) (numAgents numTxsPerAgent : number)
    (assets : list number) (loops : option number)
    (fundingAddress processAddress : EthAddress) (runNumber : Z) : M W unit :=
  match fuel with
  | O => pending
  | S fuel' =>
    if strict_neq runNumber loops then
      iteration gas agentType numAgents numTxsPerAgent assets loops
                fundingAddress processAddress runNumber ;;
      runLoop gas fuel' agentType numAgents numTxsPerAgent assets loops
              fundingAddress processAddress (runNumber + 1)
    else ret tt
  end.

Definition fee : Z := toBaseUnits "420" 12.

(** The refund after the loop, up to [sdk.destroy()]. *)
Definition refund (fundingAddress processAddress : EthAddress) : M W unit :=
  balance <- call (sdk_getPublicBalance 0 processAddress)
                  (EvGetPublicBalance 0 processAddress) ;;
  let value := balance - fee in
  if 0 <? value then
    console_log (LogRefunding fundingAddress value) ;;
    txHash <- call (asset_transfer value processAddress fundingAddress)
                   (EvTransfer value processAddress fundingAddress) ;;
    _ <- call (sdk_getTransactionReceipt txHash) (EvGetTransactionReceipt txHash) ;;
    ret tt
  else ret tt.

(** Everything of [run] before its [for] loop: the two addresses. *)
Definition setup (fundingPrivateKey : Buffer) (rollupHost : string) (confs : number)
    : M W (EthAddress * EthAddress) :=
  initSdk rollupHost confs ;;
  fundingAddress <-
    (if negb (Nat.eqb (List.length fundingPrivateKey) 0) then
       call (provider_addAccount fundingPrivateKey) (EvAddAccount fundingPrivateKey)
     else
       accounts <- call ethereumRpc_getAccounts EvGetAccounts ;;
       ret (hd AddressUndefined accounts)) ;;
  fundingAddressBalance <- call (sdk_getPublicBalanceAv 0 fundingAddress)
                                (EvGetPublicBalanceAv 0 fundingAddress) ;;
  console_log (LogPrimaryFundingAccount fundingAddress fundingAddressBalance) ;;
  processPrivateKey <- call (randomBytes 32) (EvRandomBytes 32) ;;
  processAddress <- call (provider_addAccount processPrivateKey)
                         (EvAddAccount processPrivateKey) ;;
  ret (fundingAddress, processAddress).

Definition run (fuel : nat) (fundingPrivateKey : Buffer) (agentType : string)
    (numAgents numTxsPerAgent numConcurrentTransfers : number) (assets : list number)
    (rollupHost host : string) (confs : number) (loops : option number) : M W unit :=
  addrs <- setup fundingPrivateKey rollupHost confs ;;
  let '(fundingAddress, processAddress) := addrs in
  runLoop fuel fuel agentType numAgents numTxsPerAgent assets loops
          fundingAddress processAddress 0 ;;
  refund fundingAddress processAddress ;;
  call sdk_destroy EvDestroy.

(** [run] cut off where its [for] loop ends: no refund, no [sdk.destroy()]. *)
Definition runBeforeRefund (fuel : nat) (fundingPrivateKey : Buffer) (agentType : string)
    (numAgents numTxsPerAgent numConcurrentTransfers : number) (assets : list number)
    (rollupHost host : string) (confs : number) (loops : option number) : M W unit :=
  addrs <- setup fundingPrivateKey rollupHost confs ;;
  let '(fundingAddress, processAddress) := addrs in
  runLoop fuel fuel agentType numAgents numTxsPerAgent assets loops
          fundingAddress processAddress 0.

End Wasabi.

(** ** Observations on traces *)

Definition is_transfer (e : Event) : bool :=
  match e with EvTransfer _ _ _ _ => true | _ => false end.

Definition is_backoff (e : Event) : bool :=
  match e with EvSetTimeout _ => true | _ => false end.

Definition is_batch (e : Event) : bool :=
  match e with EvAgentManagerRun _ _ => true | _ => false end.

Definition is_destroy (e : Event) : bool :=
  match e with EvDestroy _ => true | _ => false end.

(** The balance the most recent resolved poll returned. *)
Fixpoint last_polled (last : option Z) (tr : list Event) : option Z :=
  match tr with
  | [] => last
  | EvGetPublicBalance _ _ (inr b) :: tr' => last_polled (Some b) tr'
  | _ :: tr' => last_polled last tr'
  end.

(** Every transfer comes after a poll of its own that returned less than
    [threshold]: [last] is the balance polled since the previous transfer. *)
Fixpoint transfers_guarded (threshold : Z) (last : option Z) (tr : list Event) : bool :=
  match tr with
  | [] => true
  | EvGetPublicBalance _ _ (inr b) :: tr' => transfers_guarded threshold (Some b) tr'
  | EvGetPublicBalance _ _ (inl _) :: tr' => transfers_guarded threshold None tr'
  | EvTransfer _ _ _ _ :: tr' =>
    match last with
    | Some b => (b <? threshold) && transfers_guarded threshold None tr'
    | None => false
    end
  | _ :: tr' => transfers_guarded threshold last tr'
  end.

(** Between two transfers there is exactly one [setTimeout], of 5000 ms;
    [since] counts the timeouts since the previous transfer, if any. *)
Fixpoint one_backoff_between (since : option nat) (tr : list Event) : bool :=
  match tr with
  | [] => true
  | EvTransfer _ _ _ _ :: tr' =>
    match since with
    | None | Some 1%nat => one_backoff_between (Some 0%nat) tr'
    | Some _ => false
    end
  | EvSetTimeout ms :: tr' =>
    (ms =? 5000) && one_backoff_between (option_map S since) tr'
  | _ :: tr' => one_backoff_between since tr'
  end.

(** The indices of the iterations that ran to their end, in order. *)
Fixpoint completed_runs (tr : list Event) : list Z :=
  match tr with
  | [] => []
  | EvLog (LogRunCompleted k) :: tr' => k :: completed_runs tr'
  | _ :: tr' => completed_runs tr'
  end.

(** Every batch execution comes after a resolved balance poll made since the
    previous batch execution. *)
Fixpoint batches_funded (checked : bool) (tr : list Event) : bool :=
  match tr with
  | [] => true
  | EvGetPublicBalance _ _ (inr _) :: tr' => batches_funded true tr'
  | EvAgentManagerRun _ _ :: tr' => checked && batches_funded false tr'
  | _ :: tr' => batches_funded checked tr'
  end.

(** [n] consecutive indices from [k] on; the indices of [n] iterations. *)
Fixpoint count_from (k : Z) (n : nat) : list Z :=
  match n with
  | O => []
  | S n' => k :: count_from (k + 1) n'
  end.

Definition indices (n : nat) : list Z := count_from 0 n.

(** ** The estimate in the words of the specification *)

Definition baseTransferCost : Z := 21000 * 4000000000.

Inductive WorkloadKind : Type := payment | uniswapSwap | elementVault.

(** The [agentType] string the program uses for each kind. *)
Definition agentTypeOf (k : WorkloadKind) : string :=
  match k with
  | payment => "payment"
  | uniswapSwap => "uniswap"
  | elementVault => "element"
  end.

(** Per-kind raw value; [cost] is the per-transfer cost ([payment], [uniswapSwap])
    or the fixed vault cost ([elementVault]). *)
Definition spec_rawValue (k : WorkloadKind) (cost fixedManualPaymentCost agentCount : Z) : Z :=
  match k with
  | payment => (baseTransferCost + cost) * agentCount
  | uniswapSwap => (baseTransferCost + cost) * agentCount
  | elementVault => (baseTransferCost + cost) * agentCount + fixedManualPaymentCost
  end.

(** [rawValue * (100 + 5 * loopCount) / 100], rounding down. *)
Definition spec_topUpAmount (rawValue loopCount : Z) : Z :=
  (rawValue * (100 + 5 * loopCount)) / 100.

(** ** Worlds *)

(** The cost a world reports for a kind, when it is asked in [w]. *)
Definition reportedCost {W} `{Ledger W} (k : WorkloadKind) (numTransfers : number)
    (assetIds : list number) (w : W) : Error + Z :=
  match k with
  | payment => fst (PaymentAgent_getRequiredFunding (hd_error assetIds) numTransfers w)
  | uniswapSwap => fst (UniswapAgent_getRequiredFunding numTransfers w)
  | elementVault => inr ElementAgent_getRequiredFunding
  end.

(** A world whose cost estimates are never negative. *)
Record NonNegativeCosts (W : Type) `{Ledger W} : Prop := {
  nn_uniswap : forall n w c, fst (UniswapAgent_getRequiredFunding n w) = inr c -> 0 <= c;
  nn_payment : forall a n w c, fst (PaymentAgent_getRequiredFunding a n w) = inr c -> 0 <= c;
  nn_element : 0 <= ElementAgent_getRequiredFunding;
  nn_manual : 0 <= ManualPaymentAgent_getRequiredFunding
}.

(** A world in which no call rejects and every receipt reports success. *)
Record Reliable (W : Type) `{Ledger W} : Prop := {
  rel_create : forall u c w, fst (createAztecSdk u c w) = inr tt;
  rel_sdk_run : forall w, fst (sdk_run w) = inr tt;
  rel_synchronised : forall w, fst (sdk_awaitSynchronised w) = inr tt;
  rel_balanceAv : forall i a w, exists b, fst (sdk_getPublicBalanceAv i a w) = inr b;
  rel_balance : forall i a w, exists b, fst (sdk_getPublicBalance i a w) = inr b;
  rel_receipt : forall t w, fst (sdk_getTransactionReceipt t w) = inr {| status := true |};
  rel_destroy : forall w, fst (sdk_destroy w) = inr tt;
  rel_addAccount : forall k w, exists a, fst (provider_addAccount k w) = inr a;
  rel_getAccounts : forall w, exists l, fst (ethereumRpc_getAccounts w) = inr l;
  rel_randomBytes : forall n w, exists b, fst (randomBytes n w) = inr b;
  rel_transfer : forall v a b w, exists t, fst (asset_transfer v a b w) = inr t;
  rel_batch : forall m w, fst (agentManager_run m w) = inr tt;
  rel_uniswap : forall n w, exists c, fst (UniswapAgent_getRequiredFunding n w) = inr c;
  rel_payment : forall a n w, exists c, fst (PaymentAgent_getRequiredFunding a n w) = inr c
}.

(** A scripted world: the answers the ledger will give, call by call.  When a
    script is used up the call resolves: balance 0, transaction 0, a receipt
    with status [true], a batch that completes. *)
Record Script : Type := {
  balances : list (Error + Z);
  transfers : list (Error + TxHash);
  receipts : list (Error + Receipt);
  batches : list (Error + unit)
}.

Definition next {A} (default : A) (l : list (Error + A)) : (Error + A) * list (Error + A) :=
  match l with
  | [] => (inr default, [])
  | r :: l' => (r, l')
  end.

Definition script_balance (s : Script) : (Error + Z) * Script :=
  let '(r, l) := next 0 (balances s) in
  (r, {| balances := l; transfers := transfers s; receipts := receipts s; batches := batches s |}).

Definition script_transfer (s : Script) : (Error + TxHash) * Script :=
  let '(r, l) := next 0%N (transfers s) in
  (r, {| balances := balances s; transfers := l; receipts := receipts s; batches := batches s |}).

Definition script_receipt (s : Script) : (Error + Receipt) * Script :=
  let '(r, l) := next {| status := true |} (receipts s) in
  (r, {| balances := balances s; transfers := transfers s; receipts := l; batches := batches s |}).

Definition script_batch (s : Script) : (Error + unit) * Script :=
  let '(r, l) := next tt (batches s) in
  (r, {| balances := balances s; transfers := transfers s; receipts := receipts s; batches := l |}).

(** The scripted ledger; [cost] is what the payment and uniswap agents ask for,
    [vault] and [manual] what the element and manual payment agents ask for. *)
Definition scripted (cost vault manual : Z) : Ledger Script := {|
  createAztecSdk := fun _ _ s => (inr tt, s);
  sdk_run := fun s => (inr tt, s);
  sdk_awaitSynchronised := fun s => (inr tt, s);
  sdk_getPublicBalanceAv := fun _ _ s => (inr 0, s);
  sdk_getPublicBalance := fun _ _ s => script_balance s;
  sdk_getTransactionReceipt := fun _ s => script_receipt s;
  sdk_destroy := fun s => (inr tt, s);
  provider_addAccount := fun key s => (inr (Address (N.of_nat (List.length key))), s);
  ethereumRpc_getAccounts := fun s => (inr [Address 7], s);
  randomBytes := fun n s => (inr (repeat Byte.x00 (Z.to_nat n)), s);
  asset_transfer := fun _ _ _ s => script_transfer s;
  setTimeout := fun _ s => s;
  agentManager_run := fun _ s => script_batch s;
  UniswapAgent_getRequiredFunding := fun _ s => (inr cost, s);
  PaymentAgent_getRequiredFunding := fun _ _ s => (inr cost, s);
  ElementAgent_getRequiredFunding := vault;
  ManualPaymentAgent_getRequiredFunding := manual
|}.

Definition script (bs : list (Error + Z)) (ts : list (Error + TxHash))
    (rs : list (Error + Receipt)) (ms : list (Error + unit)) : Script :=
  {| balances := bs; transfers := ts; receipts := rs; batches := ms |}.

(** A world without state in which every call resolves and the process
    account always shows the balance [b]. *)
Definition steady (b cost vault manual : Z) : Ledger unit := {|
  createAztecSdk := fun _ _ w => (inr tt, w);
  sdk_run := fun w => (inr tt, w);
  sdk_awaitSynchronised := fun w => (inr tt, w);
  sdk_getPublicBalanceAv := fun _ _ w => (inr b, w);
  sdk_getPublicBalance := fun _ _ w => (inr b, w);
  sdk_getTransactionReceipt := fun _ w => (inr {| status := true |}, w);
  sdk_destroy := fun w => (inr tt, w);
  provider_addAccount := fun key w => (inr (Address (N.of_nat (List.length key))), w);
  ethereumRpc_getAccounts := fun w => (inr [Address 7], w);
  randomBytes := fun n w => (inr (repeat Byte.x00 (Z.to_nat n)), w);
  asset_transfer := fun _ _ _ w => (inr 0%N, w);
  setTimeout := fun _ w => w;
  agentManager_run := fun _ w => (inr tt, w);
  UniswapAgent_getRequiredFunding := fun _ w => (inr cost, w);
  PaymentAgent_getRequiredFunding := fun _ _ w => (inr cost, w);
  ElementAgent_getRequiredFunding := vault;
  ManualPaymentAgent_getRequiredFunding := manual
|}.

(** A world without state in which the process account always shows the
    balance [b] and every transfer is rejected with [reason]. *)
Definition refusing (b : Z) (reason : Error) : Ledger unit := {|
  createAztecSdk := fun _ _ w => (inr tt, w);
  sdk_run := fun w => (inr tt, w);
  sdk_awaitSynchronised := fun w => (inr tt, w);
  sdk_getPublicBalanceAv := fun _ _ w => (inr b, w);
  sdk_getPublicBalance := fun _ _ w => (inr b, w);
  sdk_getTransactionReceipt := fun _ w => (inr {| status := true |}, w);
  sdk_destroy := fun w => (inr tt, w);
  provider_addAccount := fun key w => (inr (Address (N.of_nat (List.length key))), w);
  ethereumRpc_getAccounts := fun w => (inr [Address 7], w);
  randomBytes := fun n w => (inr (repeat Byte.x00 (Z.to_nat n)), w);
  asset_transfer := fun _ _ _ w => (inl reason, w);
  setTimeout := fun _ w => w;
  agentManager_run := fun _ w => (inr tt, w);
  UniswapAgent_getRequiredFunding := fun _ w => (inr 0, w);
  PaymentAgent_getRequiredFunding := fun _ _ w => (inr 0, w);
  ElementAgent_getRequiredFunding := 0;
  ManualPaymentAgent_getRequiredFunding := 0
|}.

(** How one funding attempt can go: the transfer and its receipt succeed, or
    the transfer is rejected, or the receipt cannot be had, or the receipt
    reports failure. *)
Inductive AttemptShape (fundingAddress processAddress : EthAddress) (toFund : Z)
  : list Event -> Outcome unit -> Prop :=
| AttemptFunded tx :
    AttemptShape fundingAddress processAddress toFund
      [EvLog (LogFundingProcessAddress processAddress toFund);
       EvTransfer toFund fundingAddress processAddress (inr tx);
       EvGetTransactionReceipt tx (inr {| status := true |})]
      (Ret tt)
| AttemptTransferRejected e :
    AttemptShape fundingAddress processAddress toFund
      [EvLog (LogFundingProcessAddress processAddress toFund);
       EvTransfer toFund fundingAddress processAddress (inl e)]
      (Thrown e)
| AttemptReceiptRejected tx e :
    AttemptShape fundingAddress processAddress toFund
      [EvLog (LogFundingProcessAddress processAddress toFund);
       EvTransfer toFund fundingAddress processAddress (inr tx);
       EvGetTransactionReceipt tx (inl e)]
      (Thrown e)
| AttemptReceiptFailed tx :
    AttemptShape fundingAddress processAddress toFund
      [EvLog (LogFundingProcessAddress processAddress toFund);
       EvTransfer toFund fundingAddress processAddress (inr tx);
       EvGetTransactionReceipt tx (inr {| status := false |})]
      (Thrown "receipt status is false.").

(** Events that belong to no batch execution, end no iteration and do not
    tear the session down. *)
Definition quiet (e : Event) : bool :=
  match e with
  | EvAgentManagerRun _ _ | EvLog (LogRunCompleted _) | EvDestroy _ => false
  | _ => true
  end.

(** ** Further observations on traces *)

Definition is_poll (e : Event) : bool :=
  match e with EvGetPublicBalance _ _ _ => true | _ => false end.

Definition is_getAccounts (e : Event) : bool :=
  match e with EvGetAccounts _ => true | _ => false end.

(** The calls by which the agents estimate their own cost. *)
Definition is_cost (e : Event) : bool :=
  match e with
  | EvUniswapRequiredFunding _ _ | EvPaymentRequiredFunding _ _ _ => true
  | _ => false
  end.

(** What [run] does before its loop. *)
Definition is_setup (e : Event) : bool :=
  match e with
  | EvCreateAztecSdk _ _ _ | EvSdkRun _ | EvAwaitSynchronised _ | EvAddAccount _ _
  | EvGetAccounts _ | EvGetPublicBalanceAv _ _ _ | EvRandomBytes _ _
  | EvLog (LogPrimaryFundingAccount _ _) => true
  | _ => false
  end.



(** Every receipt is asked for right after a transfer that resolved, and for
    the transaction hash that transfer returned. *)
Fixpoint receipts_follow (sent : option TxHash) (tr : list Event) : bool :=
  match tr with
  | [] => true
  | EvTransfer _ _ _ (inr tx) :: tr' => receipts_follow (Some tx) tr'
  | EvGetTransactionReceipt tx _ :: tr' =>
    match sent with
    | Some tx' => N.eqb tx tx' && receipts_follow None tr'
    | None => false
    end
  | _ :: tr' => receipts_follow None tr'
  end.

(** A scripted ledger with a given answer to [createAztecSdk] and given
    accounts of the node. *)
Definition configured (created : Error + unit) (accounts : list EthAddress)
  : Ledger Script := {|
  createAztecSdk := fun _ _ s => (created, s);
  sdk_run := fun s => (inr tt, s);
  sdk_awaitSynchronised := fun s => (inr tt, s);
  sdk_getPublicBalanceAv := fun _ _ s => (inr 0, s);
  sdk_getPublicBalance := fun _ _ s => script_balance s;
  sdk_getTransactionReceipt := fun _ s => script_receipt s;
  sdk_destroy := fun s => (inr tt, s);
  provider_addAccount := fun key s => (inr (Address (N.of_nat (List.length key))), s);
  ethereumRpc_getAccounts := fun s => (inr accounts, s);
  randomBytes := fun n s => (inr (repeat Byte.x00 (Z.to_nat n)), s);
  asset_transfer := fun _ _ _ s => script_transfer s;
  setTimeout := fun _ s => s;
  agentManager_run := fun _ s => script_batch s;
  UniswapAgent_getRequiredFunding := fun _ s => (inr 0, s);
  PaymentAgent_getRequiredFunding := fun _ _ s => (inr 0, s);
  ElementAgent_getRequiredFunding := 0;
  ManualPaymentAgent_getRequiredFunding := 0
|}.

(** ** Laws of the monad *)

(** Equal lists of events, up to the bracketing of [++]. *)
Ltac list_eq :=
  repeat (progress (cbn [app]; rewrite <- ?app_assoc)); reflexivity.

Ltac msimpl :=
  cbn [bind ret throw pending tryCatch call emit console_log BigInt
       trace world outcome fst snd app].

Lemma bind_Ret {W A B} (m : M W A) (k : A -> M W B) w t1 w1 a :
  m w = (t1, w1, Ret a) ->
  bind m k w = (t1 ++ trace (k a w1), world (k a w1), outcome (k a w1)).
Proof.
  intros E. unfold bind, trace, world, outcome. rewrite E.
  destruct (k a w1) as [[t2 w2] o]. reflexivity.
Qed.

Lemma Ret_inj {A} (a b : A) : Ret a = Ret b -> a = b.
Proof. intros E. injection E as E. exact E. Qed.

Lemma call_run {W A} (f : W -> (Error + A) * W) (ev : Error + A -> Event) w :
  call f ev w =
  ([ev (fst (f w))], snd (f w),
   match fst (f w) with inl e => Thrown e | inr a => Ret a end).
Proof. unfold call. destruct (f w) as [r w1]. reflexivity. Qed.

(** ** The estimate *)

Section Estimate.
Context {W : Type} `{Ledger W}.

Lemma baseTransferCost_value : baseTransferCost = ethTransferEstimate.
Proof. reflexivity. Qed.

(** The switch, kind by kind, once the agent's cost estimate has resolved. *)
Lemma requiredValue_supported (k : WorkloadKind) (agentCount cost : Z)
    (numTransfers : number) (assetIds : list number) (w : W) :
  reportedCost k numTransfers assetIds w = inr cost ->
  exists t w',
    requiredValue (agentTypeOf k) (Int agentCount) numTransfers assetIds w
    = (t, w', Ret (spec_rawValue k cost ManualPaymentAgent_getRequiredFunding agentCount)).
Proof.
  intros E. destruct k; cbn [agentTypeOf reportedCost spec_rawValue] in *;
    unfold requiredValue; cbn [String.eqb Ascii.eqb Bool.eqb andb].
  - rewrite (bind_Ret _ _ _ _ _ cost)
      by (rewrite call_run, E; reflexivity).
    msimpl. rewrite baseTransferCost_value. eauto.
  - rewrite (bind_Ret _ _ _ _ _ cost)
      by (rewrite call_run, E; reflexivity).
    msimpl. rewrite baseTransferCost_value. eauto.
  - injection E as <-. msimpl. rewrite baseTransferCost_value. eauto.
Qed.

(** What the program computes from the switch's value: the threshold is the
    value, the amount to fund is the buffered value, truncated. *)
Lemma getAgentRequiredFunding_value agentType numAgents numTransfers assetIds loops
    (l : Z) (w : W) t w' value :
  match loops with Some n => n | None => Int 10 end = Int l ->
  requiredValue agentType numAgents numTransfers assetIds w = (t, w', Ret value) ->
  getAgentRequiredFunding agentType numAgents numTransfers assetIds loops w
  = (t, w', Ret {| fundingThreshold := value;
                   toFund := Z.quot (value * (100 + 5 * l)) 100 |}).
Proof.
  intros El Ev. unfold getAgentRequiredFunding. rewrite El.
  rewrite (bind_Ret _ _ _ _ _ _ Ev). msimpl. rewrite app_nil_r. reflexivity.
Qed.

Lemma unknown_agentType (agentType : string) :
  agentType <> "payment" -> agentType <> "uniswap" -> agentType <> "element" ->
  String.eqb agentType "uniswap" = false /\
  String.eqb agentType "element" = false /\
  String.eqb agentType "payment" = false.
Proof. intros. repeat split; apply String.eqb_neq; assumption. Qed.

End Estimate.

(** ** The funding loop *)

Section Funding.
Context {W : Type} `{Ledger W}.
Variables (fundingAddress processAddress : EthAddress) (toFund fundingThreshold : Z).

Local Abbreviation poll := (EvGetPublicBalance 0 processAddress).
Local Abbreviation announce := (EvLog (LogFundingProcessAddress processAddress toFund)).
Local Abbreviation transfer := (EvTransfer toFund fundingAddress processAddress).
Local Abbreviation attempt := (fundAttempt fundingAddress processAddress toFund).
Local Abbreviation loop fuel :=
  (fundingLoop fuel fundingAddress processAddress toFund fundingThreshold).
Local Abbreviation backoff msg := [EvLog (LogFailedToFund msg); EvSetTimeout 5000].

(** One attempt, by what the ledger answers. *)
Lemma fundAttempt_run (w : W) :
  attempt w =
  let '(r, w1) := asset_transfer toFund fundingAddress processAddress w in
  match r with
  | inl e => ([announce; transfer (inl e)], w1, Thrown e)
  | inr tx =>
    let '(r2, w2) := sdk_getTransactionReceipt tx w1 in
    match r2 with
    | inl e =>
      ([announce; transfer (inr tx); EvGetTransactionReceipt tx (inl e)], w2, Thrown e)
    | inr rc =>
      ([announce; transfer (inr tx); EvGetTransactionReceipt tx (inr rc)], w2,
       if status rc then Ret tt else Thrown "receipt status is false.")
    end
  end.
Proof.
  unfold fundAttempt, bind, console_log, emit, call, ret, throw.
  destruct (asset_transfer toFund fundingAddress processAddress w) as [[e | tx] w1];
    [reflexivity |].
  destruct (sdk_getTransactionReceipt tx w1) as [[e | rc] w2]; [reflexivity |].
  destruct (status rc); reflexivity.
Qed.

Lemma fundAttempt_shape (w : W) :
  AttemptShape fundingAddress processAddress toFund
    (trace (attempt w)) (outcome (attempt w)).
Proof.
  rewrite fundAttempt_run.
  destruct (asset_transfer _ _ _ w) as [[e | tx] w1]; [constructor |].
  destruct (sdk_getTransactionReceipt tx w1) as [[e | [[]]] w2]; constructor.
Qed.

(** One turn of the loop, by what the ledger answers. *)
Lemma fundingLoop_step (fuel : nat) (w : W) :
  loop (S fuel) w =
  let '(r, w1) := sdk_getPublicBalance 0 processAddress w in
  match r with
  | inl e => ([poll (inl e)], w1, Thrown e)
  | inr b =>
    if b <? fundingThreshold then
      match attempt w1 with
      | (t, w2, Ret _) => (poll (inr b) :: t, w2, Ret tt)
      | (t, w2, Thrown msg) =>
        let r := loop fuel (setTimeout 5000 w2) in
        (poll (inr b) :: t ++ backoff msg ++ trace r, world r, outcome r)
      | (t, w2, Pending) => (poll (inr b) :: t, w2, Pending)
      end
    else ([poll (inr b)], w1, Ret tt)
  end.
Proof.
  cbn [fundingLoop].
  unfold bind at 1. unfold call at 1.
  destruct (sdk_getPublicBalance 0 processAddress w) as [[e | b] w1]; [reflexivity |].
  destruct (b <? fundingThreshold); [| reflexivity].
  unfold bind at 1, tryCatch.
  destruct (attempt w1) as [[t w2] [[] | msg |]].
  - cbn. rewrite app_nil_r. reflexivity.
  - unfold bind, console_log, emit, sleep, trace, world, outcome.
    destruct (loop fuel (setTimeout 5000 w2)) as [[t3 w3] o3].
    cbn. reflexivity.
  - reflexivity.
Qed.

(** The ways through one turn of the loop. *)
Lemma fundingLoop_satisfied (fuel : nat) (w w1 : W) b :
  sdk_getPublicBalance 0 processAddress w = (inr b, w1) ->
  fundingThreshold <= b ->
  loop (S fuel) w = ([poll (inr b)], w1, Ret tt).
Proof.
  intros E Hb. rewrite fundingLoop_step, E.
  apply Z.ltb_ge in Hb. rewrite Hb. reflexivity.
Qed.

Lemma fundingLoop_retry (fuel : nat) (w w1 w2 : W) b t msg :
  sdk_getPublicBalance 0 processAddress w = (inr b, w1) ->
  b < fundingThreshold ->
  attempt w1 = (t, w2, Thrown msg) ->
  loop (S fuel) w =
  (poll (inr b) :: t ++ backoff msg ++ trace (loop fuel (setTimeout 5000 w2)),
   world (loop fuel (setTimeout 5000 w2)),
   outcome (loop fuel (setTimeout 5000 w2))).
Proof.
  intros E Hb Ea. rewrite fundingLoop_step, E.
  apply Z.ltb_lt in Hb. rewrite Hb, Ea. reflexivity.
Qed.

(** Induction over the turns of the loop: a property of its results that
    holds when the loop is cut, when the poll rejects, when the condition
    fails, when an attempt succeeds, and that survives a failed attempt. *)
Lemma fundingLoop_ind (P : list Event -> Outcome unit -> Prop) :
  P [] Pending ->
  (forall e, P [poll (inl e)] (Thrown e)) ->
  (forall b, fundingThreshold <= b -> P [poll (inr b)] (Ret tt)) ->
  (forall b t, b < fundingThreshold ->
               AttemptShape fundingAddress processAddress toFund t (Ret tt) ->
               P (poll (inr b) :: t) (Ret tt)) ->
  (forall b t msg rest o,
      b < fundingThreshold ->
      AttemptShape fundingAddress processAddress toFund t (Thrown msg) ->
      P rest o ->
      P (poll (inr b) :: t ++ backoff msg ++ rest) o) ->
  forall fuel w, P (trace (loop fuel w)) (outcome (loop fuel w)).
Proof.
  intros Hcut Hrej Hsat Hfund Hretry.
  induction fuel as [| fuel IH]; intros w; [exact Hcut |].
  rewrite fundingLoop_step.
  destruct (sdk_getPublicBalance 0 processAddress w) as [[e | b] w1]; [apply Hrej |].
  destruct (b <? fundingThreshold) eqn:Eb.
  - apply Z.ltb_lt in Eb.
    pose proof (fundAttempt_shape w1) as S.
    destruct (attempt w1) as [[t w2] [[] | msg |]]; cbn [trace outcome fst snd] in *.
    + apply Hfund; assumption.
    + apply Hretry; auto.
    + inversion S.
  - apply Z.ltb_ge in Eb. apply Hsat; assumption.
Qed.

End Funding.

Section FundingProperties.
Context {W : Type} `{Ledger W}.
Variables (fundingAddress processAddress : EthAddress) (toFund fundingThreshold : Z).

Local Abbreviation poll := (EvGetPublicBalance 0 processAddress).
Local Abbreviation announce := (EvLog (LogFundingProcessAddress processAddress toFund)).
Local Abbreviation transfer := (EvTransfer toFund fundingAddress processAddress).
Local Abbreviation loop fuel :=
  (fundingLoop fuel fundingAddress processAddress toFund fundingThreshold).
Local Abbreviation Shape := (AttemptShape fundingAddress processAddress toFund).

(** The loop returns through its condition or through its [break]. *)
Lemma fundingLoop_exit (fuel : nat) (w : W) :
  outcome (loop fuel w) = Ret tt ->
  (exists pre b, trace (loop fuel w) = pre ++ [poll (inr b)] /\ fundingThreshold <= b) \/
  (exists pre b tx,
      trace (loop fuel w)
      = pre ++ [poll (inr b); announce; transfer (inr tx);
                EvGetTransactionReceipt tx (inr {| status := true |})]
      /\ b < fundingThreshold).
Proof.
  apply (fundingLoop_ind fundingAddress processAddress toFund fundingThreshold
           (fun t o => o = Ret tt ->
              (exists pre b, t = pre ++ [poll (inr b)] /\ fundingThreshold <= b) \/
              (exists pre b tx,
                  t = pre ++ [poll (inr b); announce; transfer (inr tx);
                              EvGetTransactionReceipt tx (inr {| status := true |})]
                  /\ b < fundingThreshold))); clear fuel w.
  - discriminate.
  - discriminate.
  - intros b Hb _. left. exists [], b. auto.
  - intros b t Hb S _. right. inversion S; subst. exists [], b, tx. auto.
  - intros b t msg rest o Hb S IH Ho.
    destruct (IH Ho) as [(pre & b' & -> & Hb') | (pre & b' & tx & -> & Hb')];
      [left; exists (poll (inr b) :: t ++ [EvLog (LogFailedToFund msg); EvSetTimeout 5000]
                       ++ pre), b'
      | right; exists (poll (inr b) :: t ++ [EvLog (LogFailedToFund msg); EvSetTimeout 5000]
                         ++ pre), b', tx];
      (split; [| assumption]);
      list_eq.
Qed.

(** Only a rejected balance poll makes the loop throw. *)
Lemma fundingLoop_thrown (fuel : nat) (w : W) e :
  outcome (loop fuel w) = Thrown e ->
  exists pre, trace (loop fuel w) = pre ++ [poll (inl e)].
Proof.
  revert e.
  apply (fundingLoop_ind fundingAddress processAddress toFund fundingThreshold
           (fun t o => forall e, o = Thrown e -> exists pre, t = pre ++ [poll (inl e)]));
    clear fuel w.
  - discriminate.
  - intros e e' [= <-]. exists []. reflexivity.
  - discriminate.
  - discriminate.
  - intros b t msg rest o Hb S IH e Ho.
    destruct (IH e Ho) as (pre & ->).
    exists (poll (inr b) :: t ++ [EvLog (LogFailedToFund msg); EvSetTimeout 5000] ++ pre).
    list_eq.
Qed.

(** Every transfer follows a poll of its own that was below the threshold. *)
Lemma fundingLoop_guarded (fuel : nat) (w : W) last :
  transfers_guarded fundingThreshold last (trace (loop fuel w)) = true.
Proof.
  revert last.
  apply (fundingLoop_ind fundingAddress processAddress toFund fundingThreshold
           (fun t o => forall last, transfers_guarded fundingThreshold last t = true));
    clear fuel w; try reflexivity.
  - intros b t Hb S last. apply Z.ltb_lt in Hb.
    inversion S; subst; cbn; rewrite Hb; reflexivity.
  - intros b t msg rest o Hb S IH last. apply Z.ltb_lt in Hb.
    inversion S; subst; cbn; rewrite Hb; apply IH.
Qed.

(** Consecutive transfers are one 5-second timeout apart. *)
Lemma fundingLoop_backoff (fuel : nat) (w : W) :
  one_backoff_between None (trace (loop fuel w)) = true /\
  one_backoff_between (Some 1%nat) (trace (loop fuel w)) = true.
Proof.
  apply (fundingLoop_ind fundingAddress processAddress toFund fundingThreshold
           (fun t o => one_backoff_between None t = true /\
                       one_backoff_between (Some 1%nat) t = true));
    clear fuel w; try (split; reflexivity).
  - intros b t Hb S. inversion S; subst; split; reflexivity.
  - intros b t msg rest o Hb S [_ IH]. inversion S; subst; split; cbn; exact IH.
Qed.

(** The loop runs no batch, ends no iteration, and leaves the session up. *)
Lemma fundingLoop_quiet (fuel : nat) (w : W) :
  forallb quiet (trace (loop fuel w)) = true.
Proof.
  apply (fundingLoop_ind fundingAddress processAddress toFund fundingThreshold
           (fun t o => forallb quiet t = true)); clear fuel w; try reflexivity.
  - intros b t Hb S. inversion S; subst; reflexivity.
  - intros b t msg rest o Hb S IH. inversion S; subst; cbn; exact IH.
Qed.

(** A loop that returned has polled the balance, first of all. *)
Lemma fundingLoop_polls (fuel : nat) (w : W) :
  outcome (loop fuel w) = Ret tt ->
  exists b rest, trace (loop fuel w) = poll (inr b) :: rest.
Proof.
  apply (fundingLoop_ind fundingAddress processAddress toFund fundingThreshold
           (fun t o => o = Ret tt -> exists b rest, t = poll (inr b) :: rest));
    clear fuel w; try discriminate; eauto.
Qed.

(** While the loop has not settled, it has spent every turn on an attempt
    and a timeout: nothing else bounds the number of attempts. *)
Lemma fundingLoop_unsettled (fuel : nat) (w : W) :
  outcome (loop fuel w) = Pending ->
  List.length (filter is_transfer (trace (loop fuel w))) = fuel /\
  List.length (filter is_backoff (trace (loop fuel w))) = fuel.
Proof.
  revert w. induction fuel as [| fuel IH]; intros w; [split; reflexivity |].
  rewrite fundingLoop_step.
  destruct (sdk_getPublicBalance 0 processAddress w) as [[e | b] w1]; [discriminate |].
  destruct (b <? fundingThreshold); [| discriminate].
  pose proof (fundAttempt_shape fundingAddress processAddress toFund w1) as S.
  destruct (fundAttempt _ _ _ w1) as [[t w2] [[] | msg |]];
    cbn [trace world outcome fst snd] in *; try discriminate.
  - intros Ho. destruct (IH _ Ho) as [IH1 IH2].
    inversion S; subst; cbn; rewrite IH1, IH2; split; reflexivity.
  - inversion S.
Qed.

End FundingProperties.

(** ** What the observations see of quiet traces *)

Lemma completed_runs_app (t1 t2 : list Event) :
  completed_runs (t1 ++ t2) = completed_runs t1 ++ completed_runs t2.
Proof.
  induction t1 as [| e t1 IH]; [reflexivity |].
  destruct e as [[] | | | | | | | | | | | | | | |]; cbn; rewrite ?IH; reflexivity.
Qed.

Lemma completed_runs_quiet (t : list Event) :
  forallb quiet t = true -> completed_runs t = [].
Proof.
  induction t as [| e t IH]; [reflexivity |].
  destruct e as [[] | | | | | | | | | | | | | | |]; cbn; try discriminate; exact IH.
Qed.

Lemma batches_quiet (t : list Event) :
  forallb quiet t = true -> filter is_batch t = [].
Proof.
  induction t as [| e t IH]; [reflexivity |].
  destruct e as [[] | | | | | | | | | | | | | | |]; cbn; try discriminate; exact IH.
Qed.

Lemma destroy_quiet (t : list Event) :
  forallb quiet t = true -> filter is_destroy t = [].
Proof.
  induction t as [| e t IH]; [reflexivity |].
  destruct e as [[] | | | | | | | | | | | | | | |]; cbn; try discriminate; exact IH.
Qed.

Lemma batches_funded_quiet (t : list Event) (c : bool) :
  forallb quiet t = true -> batches_funded c t = true.
Proof.
  revert c. induction t as [| e t IH]; intros c; [reflexivity |].
  destruct e as [[] | | | | | | | | | | ? ? [] | | | | |]; cbn; try discriminate; apply IH.
Qed.

(** Once the balance has been polled, quiet events keep it polled. *)
Lemma batches_funded_checked (t rest : list Event) :
  forallb quiet t = true ->
  batches_funded true (t ++ rest) = batches_funded true rest.
Proof.
  induction t as [| e t IH]; [reflexivity |].
  destruct e as [[] | | | | | | | | | | ? ? [] | | | | |]; cbn; try discriminate; exact IH.
Qed.

(** Quiet events, then a resolved poll: the balance has been polled. *)
Lemma batches_funded_poll (t rest : list Event) (c : bool) i a b :
  forallb quiet t = true ->
  batches_funded c (t ++ EvGetPublicBalance i a (inr b) :: rest) = batches_funded true rest.
Proof.
  revert c. induction t as [| e t IH]; intros c; [reflexivity |].
  destruct e as [[] | | | | | | | | | | ? ? [] | | | | |]; cbn; try discriminate; apply IH.
Qed.

Lemma forallb_quiet_app (t1 t2 : list Event) :
  forallb quiet t1 = true -> forallb quiet t2 = true -> forallb quiet (t1 ++ t2) = true.
Proof. intros H1 H2. rewrite forallb_app, H1, H2. reflexivity. Qed.

(** ** The iterations *)

Section Iterations.
Context {W : Type} `{Ledger W}.
Variables (gas : nat) (agentType : string) (numAgents numTxsPerAgent : number)
          (assets : list number) (loops : option number)
          (fundingAddress processAddress : EthAddress).

Local Abbreviation estimate :=
  (getAgentRequiredFunding agentType numAgents numTxsPerAgent assets loops).
Local Abbreviation funding spec :=
  (fundingLoop gas fundingAddress processAddress (toFund spec) (fundingThreshold spec)).
Local Abbreviation body :=
  (iteration gas agentType numAgents numTxsPerAgent assets loops
             fundingAddress processAddress).
Local Abbreviation driver fuel :=
  (runLoop gas fuel agentType numAgents numTxsPerAgent assets loops
           fundingAddress processAddress).
Local Abbreviation manager := (newAgentManager agentType).

Lemma estimate_quiet (w : W) : forallb quiet (trace (estimate w)) = true.
Proof.
  unfold getAgentRequiredFunding, requiredValue.
  destruct (String.eqb agentType "uniswap");
    [| destruct (String.eqb agentType "element");
       [| destruct (String.eqb agentType "payment")]];
    unfold bind, call, BigInt, ret, throw;
    repeat match goal with
           | |- context [UniswapAgent_getRequiredFunding ?n ?w] =>
             destruct (UniswapAgent_getRequiredFunding n w) as [[? | ?] ?]
           | |- context [PaymentAgent_getRequiredFunding ?a ?n ?w] =>
             destruct (PaymentAgent_getRequiredFunding a n w) as [[? | ?] ?]
           end;
    destruct numAgents; destruct loops as [[] |]; reflexivity.
Qed.

(** One iteration, by how its three awaited steps go. *)
Lemma iteration_run (k : Z) (w : W) :
  body k w =
  match estimate w with
  | (t1, w1, Ret spec) =>
    match funding spec w1 with
    | (t2, w2, Ret _) =>
      let '(r, w3) := agentManager_run manager w2 in
      (EvLog (LogStartingRun k) :: t1 ++ t2
         ++ EvLog (LogStartingRun k) :: EvAgentManagerRun manager r
         :: match r with inl _ => [] | inr _ => [EvLog (LogRunCompleted k)] end,
       w3, match r with inl e => Thrown e | inr _ => Ret tt end)
    | (t2, w2, Thrown e) => (EvLog (LogStartingRun k) :: t1 ++ t2, w2, Thrown e)
    | (t2, w2, Pending) => (EvLog (LogStartingRun k) :: t1 ++ t2, w2, Pending)
    end
  | (t1, w1, Thrown e) => (EvLog (LogStartingRun k) :: t1, w1, Thrown e)
  | (t1, w1, Pending) => (EvLog (LogStartingRun k) :: t1, w1, Pending)
  end.
Proof.
  unfold iteration, bind, console_log, emit, call.
  destruct (estimate w) as [[t1 w1] [spec | e |]]; try reflexivity.
  destruct (funding spec w1) as [[t2 w2] [[] | e |]]; try reflexivity.
  destruct (agentManager_run manager w2) as [[e | []] w3]; reflexivity.
Qed.

(** An iteration that ran to its end: one batch, after a funding check. *)
Lemma iteration_complete (k : Z) (w : W) :
  outcome (body k w) = Ret tt ->
  completed_runs (trace (body k w)) = [k] /\
  List.length (filter is_batch (trace (body k w))) = 1%nat /\
  filter is_destroy (trace (body k w)) = [] /\
  forall c rest,
    batches_funded c (trace (body k w) ++ rest) = batches_funded false rest.
Proof.
  rewrite iteration_run.
  pose proof (estimate_quiet w) as Q1.
  destruct (estimate w) as [[t1 w1] [spec | e |]]; try discriminate.
  pose proof (fundingLoop_quiet fundingAddress processAddress (toFund spec)
                (fundingThreshold spec) gas w1) as Q2.
  pose proof (fundingLoop_polls fundingAddress processAddress (toFund spec)
                (fundingThreshold spec) gas w1) as P2.
  destruct (funding spec w1) as [[t2 w2] [[] | e |]]; try discriminate.
  destruct (agentManager_run manager w2) as [[e | []] w3]; try discriminate.
  cbn [trace world outcome fst snd] in *. intros _.
  destruct (P2 eq_refl) as (b & t2' & ->).
  cbn [forallb quiet] in Q2.
  repeat split.
  - repeat (progress cbn [app completed_runs] || rewrite completed_runs_app
            || rewrite (completed_runs_quiet t1 Q1)
            || rewrite (completed_runs_quiet t2' Q2)).
    reflexivity.
  - repeat (progress cbn [app filter is_batch] || rewrite filter_app
            || rewrite (batches_quiet t1 Q1) || rewrite (batches_quiet t2' Q2)).
    reflexivity.
  - repeat (progress cbn [app filter is_destroy] || rewrite filter_app
            || rewrite (destroy_quiet t1 Q1) || rewrite (destroy_quiet t2' Q2)).
    reflexivity.
  - intros c rest. cbn [app batches_funded]. rewrite <- !app_assoc. cbn [app].
    rewrite (batches_funded_poll t1 _ c _ _ b Q1).
    rewrite <- app_assoc, (batches_funded_checked t2' _ Q2). reflexivity.
Qed.

(** An iteration that was cut short or threw: not counted, and still no
    batch without a funding check. *)
Lemma iteration_partial (k : Z) (w : W) :
  outcome (body k w) <> Ret tt ->
  completed_runs (trace (body k w)) = [] /\
  filter is_destroy (trace (body k w)) = [] /\
  forall c, batches_funded c (trace (body k w)) = true.
Proof.
  rewrite iteration_run.
  pose proof (estimate_quiet w) as Q1.
  destruct (estimate w) as [[t1 w1] [spec | e |]];
    cbn [trace world outcome fst snd] in *.
  2, 3: intros _; repeat split; intros;
    [apply (completed_runs_quiet (_ :: _)) | apply (destroy_quiet (_ :: _))
     | apply (batches_funded_quiet (_ :: _))]; exact Q1.
  pose proof (fundingLoop_quiet fundingAddress processAddress (toFund spec)
                (fundingThreshold spec) gas w1) as Q2.
  pose proof (fundingLoop_polls fundingAddress processAddress (toFund spec)
                (fundingThreshold spec) gas w1) as P2.
  destruct (funding spec w1) as [[t2 w2] [[] | e |]];
    cbn [trace world outcome fst snd] in *.
  2, 3: intros _; repeat split; intros;
    [apply (completed_runs_quiet (_ :: _)) | apply (destroy_quiet (_ :: _))
     | apply (batches_funded_quiet (_ :: _))];
    apply (forallb_quiet_app (_ :: _)); assumption.
  destruct (agentManager_run manager w2) as [[e | []] w3];
    cbn [trace world outcome fst snd]; [intros _ | intros Ho; now elim Ho].
  destruct (P2 eq_refl) as (b & t2' & ->).
  cbn [forallb quiet] in Q2.
  repeat split.
  - repeat (progress cbn [app completed_runs] || rewrite completed_runs_app
            || rewrite (completed_runs_quiet t1 Q1)
            || rewrite (completed_runs_quiet t2' Q2)).
    reflexivity.
  - repeat (progress cbn [app filter is_destroy] || rewrite filter_app
            || rewrite (destroy_quiet t1 Q1) || rewrite (destroy_quiet t2' Q2)).
    reflexivity.
  - intros c. cbn [app batches_funded].
    rewrite (batches_funded_poll t1 _ c _ _ b Q1).
    rewrite (batches_funded_checked t2' _ Q2). reflexivity.
Qed.

End Iterations.

(** ** The driver loop *)

Section Driver.
Context {W : Type} `{Ledger W}.
Variables (gas : nat) (agentType : string) (numAgents numTxsPerAgent : number)
          (assets : list number) (loops : option number)
          (fundingAddress processAddress : EthAddress).

Local Abbreviation body :=
  (iteration gas agentType numAgents numTxsPerAgent assets loops
             fundingAddress processAddress).
Local Abbreviation driver fuel :=
  (runLoop gas fuel agentType numAgents numTxsPerAgent assets loops
           fundingAddress processAddress).

Lemma runLoop_step (fuel : nat) (k : Z) (w : W) :
  driver (S fuel) k w =
  if strict_neq k loops then
    match body k w with
    | (t1, w1, Ret _) =>
      let r := driver fuel (k + 1) w1 in (t1 ++ trace r, world r, outcome r)
    | (t1, w1, Thrown e) => (t1, w1, Thrown e)
    | (t1, w1, Pending) => (t1, w1, Pending)
    end
  else ([], w, Ret tt).
Proof.
  cbn [runLoop]. destruct (strict_neq k loops); [| reflexivity].
  unfold bind at 1. destruct (body k w) as [[t1 w1] [[] | e |]]; try reflexivity.
  unfold trace, world, outcome. destruct (driver fuel (k + 1) w1) as [[t2 w2] o].
  reflexivity.
Qed.

Lemma strict_neq_false (k : Z) : strict_neq k loops = false -> loops = Some (Int k).
Proof.
  unfold strict_neq. destruct loops as [[n |] |]; try discriminate.
  intros E. apply negb_false_iff, Z.eqb_eq in E. congruence.
Qed.

Lemma strict_neq_below (k N : Z) :
  loops = Some (Int N) -> strict_neq k loops = true -> k <= N -> k + 1 <= N.
Proof.
  intros -> E Hk. cbn in E. apply negb_true_iff, Z.eqb_neq in E. lia.
Qed.

(** What the loop has done when it stops, for whatever reason: [m]
    iterations ran to their end, with consecutive indices from [k] on; none
    ran its batch without a funding check; and if the loop returned, it is
    because the counter reached [loops]. *)
Lemma runLoop_observed (fuel : nat) (k : Z) (w : W) :
  exists m : nat,
    (m <= fuel)%nat /\
    completed_runs (trace (driver fuel k w)) = count_from k m /\
    (forall c, batches_funded c (trace (driver fuel k w)) = true) /\
    filter is_destroy (trace (driver fuel k w)) = [] /\
    (forall N, loops = Some (Int N) -> k <= N -> k + Z.of_nat m <= N) /\
    (outcome (driver fuel k w) = Ret tt ->
     loops = Some (Int (k + Z.of_nat m)) /\
     List.length (filter is_batch (trace (driver fuel k w))) = m).
Proof.
  revert k w. induction fuel as [| fuel IH]; intros k w.
  - exists 0%nat. cbn. repeat split; try discriminate.
    + apply Nat.le_0_l.
    + intros N _ Hk. rewrite Z.add_0_r. exact Hk.
  - rewrite runLoop_step. destruct (strict_neq k loops) eqn:En.
    + pose proof (iteration_complete gas agentType numAgents numTxsPerAgent assets loops
                    fundingAddress processAddress k w) as C.
      pose proof (iteration_partial gas agentType numAgents numTxsPerAgent assets loops
                    fundingAddress processAddress k w) as P.
      destruct (body k w) as [[t1 w1] [[] | e |]]; cbn [trace world outcome fst snd] in *.
      * destruct (C eq_refl) as (C1 & C2 & C3 & C4).
        destruct (IH (k + 1) w1) as (m & Hm & I1 & I2 & I3 & I4 & I5).
        exists (S m). repeat split.
        -- lia.
        -- rewrite completed_runs_app, C1, I1. reflexivity.
        -- intros c. rewrite C4. apply I2.
        -- rewrite filter_app, C3, I3. reflexivity.
        -- intros N EN Hk. pose proof (strict_neq_below _ _ EN En Hk).
           specialize (I4 N EN). lia.
        -- destruct (I5 H0) as [-> _]. do 2 f_equal. lia.
        -- destruct (I5 H0) as [_ I6].
           rewrite filter_app, length_app, C2, I6. reflexivity.
      * destruct P as (P1 & P2 & P3); [discriminate |]. clear C IH.
        exists 0%nat. repeat split; try discriminate; auto.
        -- apply Nat.le_0_l.
        -- intros N _ Hk. rewrite Z.add_0_r. exact Hk.
      * destruct P as (P1 & P2 & P3); [discriminate |]. clear C IH.
        exists 0%nat. repeat split; try discriminate; auto.
        -- apply Nat.le_0_l.
        -- intros N _ Hk. rewrite Z.add_0_r. exact Hk.
    + exists 0%nat. cbn [trace world outcome fst snd]. repeat split; auto.
      * apply Nat.le_0_l.
      * intros N _ Hk. rewrite Z.add_0_r. exact Hk.
      * rewrite (strict_neq_false _ En), Z.add_0_r. reflexivity.
Qed.

End Driver.

(** ** The refund and the whole of [run] *)

Section Run.
Context {W : Type} `{Ledger W}.

Lemma refund_run (fundingAddress processAddress : EthAddress) (w : W) :
  refund fundingAddress processAddress w =
  let '(r, w1) := sdk_getPublicBalance 0 processAddress w in
  match r with
  | inl e => ([EvGetPublicBalance 0 processAddress (inl e)], w1, Thrown e)
  | inr b =>
    if 0 <? b - fee then
      let '(r2, w2) := asset_transfer (b - fee) processAddress fundingAddress w1 in
      match r2 with
      | inl e =>
        ([EvGetPublicBalance 0 processAddress (inr b);
          EvLog (LogRefunding fundingAddress (b - fee));
          EvTransfer (b - fee) processAddress fundingAddress (inl e)], w2, Thrown e)
      | inr tx =>
        let '(r3, w3) := sdk_getTransactionReceipt tx w2 in
        ([EvGetPublicBalance 0 processAddress (inr b);
          EvLog (LogRefunding fundingAddress (b - fee));
          EvTransfer (b - fee) processAddress fundingAddress (inr tx);
          EvGetTransactionReceipt tx r3], w3,
         match r3 with inl e => Thrown e | inr _ => Ret tt end)
      end
    else ([EvGetPublicBalance 0 processAddress (inr b)], w1, Ret tt)
  end.
Proof.
  unfold refund, bind, call, console_log, emit, ret.
  destruct (sdk_getPublicBalance 0 processAddress w) as [[e | b] w1]; [reflexivity |].
  destruct (0 <? b - fee); [| reflexivity].
  destruct (asset_transfer _ _ _ w1) as [[e | tx] w2]; [reflexivity |].
  destruct (sdk_getTransactionReceipt tx w2) as [[e | rc] w3]; reflexivity.
Qed.

Lemma refund_quiet (fundingAddress processAddress : EthAddress) (w : W) :
  forallb quiet (trace (refund fundingAddress processAddress w)) = true.
Proof.
  rewrite refund_run.
  destruct (sdk_getPublicBalance 0 processAddress w) as [[e | b] w1]; [reflexivity |].
  destruct (0 <? b - fee); [| reflexivity].
  destruct (asset_transfer _ _ _ w1) as [[e | tx] w2]; [reflexivity |].
  destruct (sdk_getTransactionReceipt tx w2) as [[e | rc] w3]; reflexivity.
Qed.

Lemma setup_quiet (fundingPrivateKey : Buffer) (rollupHost : string) (confs : number)
    (w : W) :
  forallb quiet (trace (setup fundingPrivateKey rollupHost confs w)) = true.
Proof.
  unfold setup, initSdk, bind, call, console_log, emit, ret.
  destruct (createAztecSdk rollupHost confs w) as [[? | ?] w1]; [reflexivity |].
  destruct (sdk_run w1) as [[? | ?] w2]; [reflexivity |].
  destruct (sdk_awaitSynchronised w2) as [[? | ?] w3]; [reflexivity |].
  destruct (negb (Nat.eqb (List.length fundingPrivateKey) 0)).
  - destruct (provider_addAccount fundingPrivateKey w3) as [[? | fA] w4]; [reflexivity |].
    destruct (sdk_getPublicBalanceAv 0 fA w4) as [[? | ?] w5]; [reflexivity |].
    destruct (randomBytes 32 w5) as [[? | key] w6]; [reflexivity |].
    destruct (provider_addAccount key w6) as [[? | ?] w7]; reflexivity.
  - destruct (ethereumRpc_getAccounts w3) as [[? | l] w4]; [reflexivity |].
    destruct (sdk_getPublicBalanceAv 0 (hd AddressUndefined l) w4) as [[? | ?] w5];
      [reflexivity |].
    destruct (randomBytes 32 w5) as [[? | key] w6]; [reflexivity |].
    destruct (provider_addAccount key w6) as [[? | ?] w7]; reflexivity.
Qed.

Variables (fuel : nat) (fundingPrivateKey : Buffer) (agentType : string)
          (numAgents numTxsPerAgent numConcurrentTransfers : number)
          (assets : list number) (rollupHost host : string) (confs : number)
          (loops : option number).

Local Abbreviation driver fA pA :=
  (runLoop fuel fuel agentType numAgents numTxsPerAgent assets loops fA pA 0).
Local Abbreviation main :=
  (run fuel fundingPrivateKey agentType numAgents numTxsPerAgent numConcurrentTransfers
       assets rollupHost host confs loops).

(** [run], by how its four parts go. *)
Lemma run_run (w : W) :
  main w =
  match setup fundingPrivateKey rollupHost confs w with
  | (t0, w0, Ret (fA, pA)) =>
    match driver fA pA w0 with
    | (t1, w1, Ret _) =>
      match refund fA pA w1 with
      | (t2, w2, Ret _) =>
        let '(r, w3) := sdk_destroy w2 in
        (t0 ++ t1 ++ t2 ++ [EvDestroy r], w3,
         match r with inl e => Thrown e | inr _ => Ret tt end)
      | (t2, w2, Thrown e) => (t0 ++ t1 ++ t2, w2, Thrown e)
      | (t2, w2, Pending) => (t0 ++ t1 ++ t2, w2, Pending)
      end
    | (t1, w1, Thrown e) => (t0 ++ t1, w1, Thrown e)
    | (t1, w1, Pending) => (t0 ++ t1, w1, Pending)
    end
  | (t0, w0, Thrown e) => (t0, w0, Thrown e)
  | (t0, w0, Pending) => (t0, w0, Pending)
  end.
Proof.
  unfold run. unfold bind at 1.
  destruct (setup fundingPrivateKey rollupHost confs w) as [[t0 w0] [[fA pA] | e |]];
    try reflexivity.
  unfold bind, call.
  destruct (driver fA pA w0) as [[t1 w1] [[] | e |]]; try reflexivity.
  destruct (refund fA pA w1) as [[t2 w2] [[] | e |]]; try reflexivity.
  destruct (sdk_destroy w2) as [[e | []] w3]; reflexivity.
Qed.

End Run.

(** ** Reliable worlds: everything returns *)

Section Liveness.
Context {W : Type} `{Ledger W}.
Hypothesis reliable : Reliable W.

Lemma reliable_cost (k : WorkloadKind) numTransfers assetIds (w : W) :
  exists cost, reportedCost k numTransfers assetIds w = inr cost.
Proof.
  destruct k; cbn [reportedCost].
  - apply (rel_payment W reliable).
  - apply (rel_uniswap W reliable).
  - eauto.
Qed.

Lemma estimate_returns (k : WorkloadKind) (n : Z) numTransfers assetIds loops (w : W) :
  (exists l, match loops with Some x => x | None => Int 10 end = Int l) ->
  exists spec,
    outcome (getAgentRequiredFunding (agentTypeOf k) (Int n) numTransfers assetIds loops w)
    = Ret spec.
Proof.
  intros [l El].
  destruct (reliable_cost k numTransfers assetIds w) as [cost Ec].
  destruct (requiredValue_supported k n cost numTransfers assetIds w Ec) as (t & w' & Ev).
  rewrite (getAgentRequiredFunding_value _ _ _ _ _ l _ _ _ _ El Ev).
  cbn [outcome snd]. eauto.
Qed.

Lemma fundingLoop_returns gas fA pA toFund threshold (w : W) :
  outcome (fundingLoop (S gas) fA pA toFund threshold w) = Ret tt.
Proof.
  rewrite fundingLoop_step.
  destruct (rel_balance W reliable 0 pA w) as [b Eb].
  destruct (sdk_getPublicBalance 0 pA w) as [r w1]. cbn in Eb. subst r.
  destruct (b <? threshold); [| reflexivity].
  rewrite fundAttempt_run.
  destruct (rel_transfer W reliable toFund fA pA w1) as [tx Et].
  destruct (asset_transfer toFund fA pA w1) as [r w2]. cbn in Et. subst r.
  pose proof (rel_receipt W reliable tx w2) as Er.
  destruct (sdk_getTransactionReceipt tx w2) as [r w3]. cbn in Er. subst r.
  reflexivity.
Qed.

Lemma iteration_returns gas (k : WorkloadKind) (n : Z) numTransfers assetIds loops
    fA pA (i : Z) (w : W) :
  (exists l, match loops with Some x => x | None => Int 10 end = Int l) ->
  outcome (iteration (S gas) (agentTypeOf k) (Int n) numTransfers assetIds loops fA pA i w)
  = Ret tt.
Proof.
  intros El. rewrite iteration_run.
  destruct (estimate_returns k n numTransfers assetIds loops w El) as [spec Es].
  destruct (getAgentRequiredFunding _ _ _ _ _ w) as [[t1 w1] o]. cbn in Es. subst o.
  pose proof (fundingLoop_returns gas fA pA (toFund spec) (fundingThreshold spec) w1) as Ef.
  destruct (fundingLoop _ _ _ _ _ w1) as [[t2 w2] o]. cbn in Ef. subst o.
  pose proof (rel_batch W reliable (newAgentManager (agentTypeOf k)) w2) as Eb.
  destruct (agentManager_run _ w2) as [r w3]. cbn in Eb. subst r. reflexivity.
Qed.

(** With loop count [k + n] the loop returns from index [k] within [n + 1]
    turns. *)
Lemma runLoop_returns gas (kind : WorkloadKind) (a : Z) numTransfers assetIds fA pA
    (n : nat) :
  forall (fuel : nat) (k : Z) (w : W),
    (n < fuel)%nat ->
    outcome (runLoop (S gas) fuel (agentTypeOf kind) (Int a) numTransfers assetIds
                     (Some (Int (k + Z.of_nat n))) fA pA k w) = Ret tt.
Proof.
  induction n as [| n IH]; intros fuel k w Hf;
    (destruct fuel as [| fuel]; [inversion Hf |]); rewrite runLoop_step.
  - cbn [strict_neq]. rewrite Z.add_0_r, Z.eqb_refl. reflexivity.
  - replace (strict_neq k (Some (Int (k + Z.of_nat (S n))))) with true
      by (cbn [strict_neq]; symmetry; apply negb_true_iff, Z.eqb_neq;
          rewrite Nat2Z.inj_succ; clear; lia).
    pose proof (iteration_returns gas kind a numTransfers assetIds
                  (Some (Int (k + Z.of_nat (S n)))) fA pA k w
                  (ex_intro _ _ eq_refl)) as Ei.
    destruct (iteration _ _ _ _ _ _ _ _ k w) as [[t1 w1] o]. cbn in Ei. subst o.
    cbn [outcome snd].
    replace (k + Z.of_nat (S n)) with ((k + 1) + Z.of_nat n)
      by (rewrite Nat2Z.inj_succ; clear; lia).
    apply IH. apply PeanoNat.lt_S_n. exact Hf.
Qed.

Lemma setup_returns key rollupHost confs (w : W) :
  exists addrs, outcome (setup key rollupHost confs w) = Ret addrs.
Proof.
  assert (tail : forall fA w4,
             exists addrs t w',
               (fundingAddressBalance <- call (sdk_getPublicBalanceAv 0 fA)
                                              (EvGetPublicBalanceAv 0 fA) ;;
                console_log (LogPrimaryFundingAccount fA fundingAddressBalance) ;;
                processPrivateKey <- call (randomBytes 32) (EvRandomBytes 32) ;;
                processAddress <- call (provider_addAccount processPrivateKey)
                                       (EvAddAccount processPrivateKey) ;;
                ret (fA, processAddress)) w4 = (t, w', Ret addrs)).
  { intros fA w4. unfold bind, call, console_log, emit, ret.
    destruct (rel_balanceAv W reliable 0 fA w4) as [b Eb].
    destruct (sdk_getPublicBalanceAv 0 fA w4) as [r w5]. cbn in Eb. subst r.
    destruct (rel_randomBytes W reliable 32 w5) as [pk Ep].
    destruct (randomBytes 32 w5) as [r w6]. cbn in Ep. subst r.
    destruct (rel_addAccount W reliable pk w6) as [pA Ea].
    destruct (provider_addAccount pk w6) as [r w7]. cbn in Ea. subst r.
    eauto. }
  unfold setup, initSdk. unfold bind at 1 2 3, call at 1 2 3.
  pose proof (rel_create W reliable rollupHost confs w) as E1.
  destruct (createAztecSdk rollupHost confs w) as [r w1]. cbn in E1. subst r.
  pose proof (rel_sdk_run W reliable w1) as E2.
  destruct (sdk_run w1) as [r w2]. cbn in E2. subst r.
  pose proof (rel_synchronised W reliable w2) as E3.
  destruct (sdk_awaitSynchronised w2) as [r w3]. cbn in E3. subst r.
  unfold bind at 1.
  destruct (negb (Nat.eqb (List.length key) 0)).
  - unfold call at 1.
    destruct (rel_addAccount W reliable key w3) as [fA Ea].
    destruct (provider_addAccount key w3) as [r w4]. cbn in Ea. subst r.
    destruct (tail fA w4) as (addrs & t & w' & E). rewrite E.
    cbn [outcome snd]. eauto.
  - unfold bind at 1, call at 1, ret at 1.
    destruct (rel_getAccounts W reliable w3) as [l El].
    destruct (ethereumRpc_getAccounts w3) as [r w4]. cbn in El. subst r.
    destruct (tail (hd AddressUndefined l) w4) as (addrs & t & w' & E). rewrite E.
    cbn [outcome snd]. eauto.
Qed.

Lemma refund_returns fA pA (w : W) : outcome (refund fA pA w) = Ret tt.
Proof.
  rewrite refund_run.
  destruct (rel_balance W reliable 0 pA w) as [b Eb].
  destruct (sdk_getPublicBalance 0 pA w) as [r w1]. cbn in Eb. subst r.
  destruct (0 <? b - fee); [| reflexivity].
  destruct (rel_transfer W reliable (b - fee) pA fA w1) as [tx Et].
  destruct (asset_transfer (b - fee) pA fA w1) as [r w2]. cbn in Et. subst r.
  pose proof (rel_receipt W reliable tx w2) as Er.
  destruct (sdk_getTransactionReceipt tx w2) as [r w3]. cbn in Er. subst r.
  reflexivity.
Qed.

(** In a reliable world, [run] with loop count [n] returns, given fuel for
    [n] iterations and the final test. *)
Lemma run_returns (fuel : nat) key (kind : WorkloadKind) (a : Z) numTxsPerAgent
    numConcurrentTransfers assets rollupHost host confs (n : nat) (w : W) :
  (n < fuel)%nat ->
  outcome (run fuel key (agentTypeOf kind) (Int a) numTxsPerAgent numConcurrentTransfers
               assets rollupHost host confs (Some (Int (Z.of_nat n))) w) = Ret tt.
Proof.
  intros Hf. rewrite run_run.
  destruct (setup_returns key rollupHost confs w) as [[fA pA] Es].
  destruct (setup key rollupHost confs w) as [[t0 w0] o]. cbn in Es. subst o.
  destruct fuel as [| gas]; [inversion Hf |].
  pose proof (runLoop_returns gas kind a numTxsPerAgent assets fA pA n (S gas) 0 w0 Hf)
    as Ed.
  rewrite Z.add_0_l in Ed.
  destruct (runLoop _ _ _ _ _ _ _ fA pA 0 w0) as [[t1 w1] o]. cbn in Ed. subst o.
  pose proof (refund_returns fA pA w1) as Er.
  destruct (refund fA pA w1) as [[t2 w2] o]. cbn in Er. subst o.
  pose proof (rel_destroy W reliable w2) as Ex.
  destruct (sdk_destroy w2) as [r w3]. cbn in Ex. subst r. reflexivity.
Qed.

End Liveness.

(** ** The estimate, inverted *)

Section EstimateInversion.
Context {W : Type} `{Ledger W}.

(** Whenever the estimate returns, the agent type is one of the three kinds,
    the agent count and the loop count are integers, the agent's own cost
    estimate has resolved, and the result is what the formulas give. *)
Lemma getAgentRequiredFunding_inv agentType numAgents numTransfers assetIds loops
    (w : W) spec :
  outcome (getAgentRequiredFunding agentType numAgents numTransfers assetIds loops w)
  = Ret spec ->
  exists k n cost l,
    agentType = agentTypeOf k /\ numAgents = Int n /\
    reportedCost k numTransfers assetIds w = inr cost /\
    match loops with Some x => x | None => Int 10 end = Int l /\
    spec = {| fundingThreshold :=
                spec_rawValue k cost ManualPaymentAgent_getRequiredFunding n;
              toFund :=
                Z.quot (spec_rawValue k cost ManualPaymentAgent_getRequiredFunding n
                        * (100 + 5 * l)) 100 |}.
Proof.
  unfold getAgentRequiredFunding, requiredValue.
  destruct (String.eqb agentType "uniswap") eqn:Eu;
    [apply String.eqb_eq in Eu
    | destruct (String.eqb agentType "element") eqn:Ee;
      [apply String.eqb_eq in Ee
      | destruct (String.eqb agentType "payment") eqn:Ep;
        [apply String.eqb_eq in Ep |]]];
    unfold bind, call, BigInt, ret, throw.
  - destruct (UniswapAgent_getRequiredFunding numTransfers w) as [[e | c] w1] eqn:Ec;
      [discriminate |].
    destruct numAgents as [n |]; [| discriminate].
    destruct (match loops with Some x => x | None => Int 10 end) as [l |];
      [| discriminate].
    cbn [outcome snd]. intros E. apply Ret_inj in E. subst spec. exists uniswapSwap, n, c, l.
    cbn [reportedCost spec_rawValue]. rewrite Ec, baseTransferCost_value.
    repeat split; first [assumption | reflexivity].
  - destruct numAgents as [n |]; [| discriminate].
    destruct (match loops with Some x => x | None => Int 10 end) as [l |];
      [| discriminate].
    cbn [outcome snd]. intros E. apply Ret_inj in E. subst spec.
    exists elementVault, n, ElementAgent_getRequiredFunding, l.
    cbn [reportedCost spec_rawValue]. rewrite baseTransferCost_value.
    repeat split; first [assumption | reflexivity].
  - destruct (PaymentAgent_getRequiredFunding (hd_error assetIds) numTransfers w)
      as [[e | c] w1] eqn:Ec; [discriminate |].
    destruct numAgents as [n |]; [| discriminate].
    destruct (match loops with Some x => x | None => Int 10 end) as [l |];
      [| discriminate].
    cbn [outcome snd]. intros E. apply Ret_inj in E. subst spec. exists payment, n, c, l.
    cbn [reportedCost spec_rawValue]. rewrite Ec, baseTransferCost_value.
    repeat split; first [assumption | reflexivity].
  - discriminate.
Qed.

Lemma rawValue_nonneg (k : WorkloadKind) numTransfers assetIds (w : W) cost n :
  NonNegativeCosts W ->
  reportedCost k numTransfers assetIds w = inr cost ->
  0 <= n ->
  0 <= spec_rawValue k cost ManualPaymentAgent_getRequiredFunding n.
Proof.
  intros NN Ec Hn.
  assert (0 <= cost) as Hc.
  { destruct k; cbn [reportedCost] in Ec.
    - exact (nn_payment W NN _ _ _ _ Ec).
    - exact (nn_uniswap W NN _ _ _ Ec).
    - injection Ec as <-. exact (nn_element W NN). }
  pose proof (nn_manual W NN) as Hm.
  assert (0 <= baseTransferCost) as Hb by (vm_compute; discriminate).
  clear Ec NN.
  destruct k; cbn [spec_rawValue]; nia.
Qed.

(** Truncation and rounding down agree on what is not negative, and the
    buffer only adds. *)
Lemma buffered_value (value l : Z) :
  0 <= value -> 0 <= l ->
  Z.quot (value * (100 + 5 * l)) 100 = spec_topUpAmount value l /\
  value <= spec_topUpAmount value l.
Proof.
  intros Hv Hl. unfold spec_topUpAmount. split.
  - apply Z.quot_div_nonneg; nia.
  - apply Z.div_le_lower_bound; nia.
Qed.

End EstimateInversion.

Lemma steady_reliable (b cost vault manual : Z) :
  @Reliable unit (steady b cost vault manual).
Proof. constructor; intros; cbn; eauto. Qed.

Lemma scripted_nonneg (cost vault manual : Z) :
  0 <= cost -> 0 <= vault -> 0 <= manual ->
  @NonNegativeCosts Script (scripted cost vault manual).
Proof.
  intros Hc Hv Hm. constructor; cbn; try assumption.
  - intros _ _ c [= <-]. exact Hc.
  - intros _ _ _ c [= <-]. exact Hc.
Qed.

(** * Main results *)

(** ** Budget estimation *)

(** C2, which fails as stated: one payment agent, a cost estimate of 1 and a
    loop count of -21 give the raw value 84000000000001 and the product
    -420000000000005; the program's amount to fund is -4200000000000, the
    quotient rounded toward zero, where rounding down gives -4200000000001. *)
Lemma C2_estimate_formula_counterexample :
  let r := @getAgentRequiredFunding Script (scripted 1 0 0)
             "payment" (Int 1) (Int 5) [Int 0] (Some (Int (-21))) (script [] [] [] []) in
  outcome r = Ret {| fundingThreshold := 84000000000001; toFund := -4200000000000 |} /\
  spec_topUpAmount 84000000000001 (-21) = -4200000000001 /\
  ~ (forall spec,
        outcome r = Ret spec ->
        fundingThreshold spec = spec_rawValue payment 1 0 1 /\
        toFund spec = spec_topUpAmount (spec_rawValue payment 1 0 1) (-21)).
Proof.
  split; [reflexivity |]. split; [reflexivity |].
  intros C. destruct (C _ eq_refl) as [_ C2]. vm_compute in C2. discriminate.
Qed.

(** C2, amended: for each of the three workload kinds, once the agent's own
    cost estimate has resolved, [getAgentRequiredFunding] returns; its
    threshold is the per-kind raw value (for the element kind
    [(baseTransferCost + fixedVaultCost) * agentCount + fixedManualPaymentCost],
    with [baseTransferCost = 21000 * 4e9]); its amount to fund is
    [rawValue * (100 + 5 * loopCount)] divided by 100 as [bigint] division
    does it, toward zero, which is rounding down whenever that product is not
    negative. *)
Theorem C2_estimate_formula :
  forall (W : Type) (L : Ledger W) (k : WorkloadKind) (agentCount loopCount cost : Z)
         (numTransfers : number) (assetIds : list number) (w : W),
    reportedCost k numTransfers assetIds w = inr cost ->
    let rawValue :=
      spec_rawValue k cost ManualPaymentAgent_getRequiredFunding agentCount in
    baseTransferCost = ethTransferEstimate /\
    exists t w' spec,
      getAgentRequiredFunding (agentTypeOf k) (Int agentCount) numTransfers assetIds
                              (Some (Int loopCount)) w
      = (t, w', Ret spec) /\
      fundingThreshold spec = rawValue /\
      toFund spec = Z.quot (rawValue * (100 + 5 * loopCount)) 100 /\
      (0 <= rawValue * (100 + 5 * loopCount) ->
       toFund spec = spec_topUpAmount rawValue loopCount).
Proof.
  intros W L k agentCount loopCount cost numTransfers assetIds w Ec rawValue.
  split; [reflexivity |].
  destruct (requiredValue_supported k agentCount cost numTransfers assetIds w Ec)
    as (t & w' & Ev).
  exists t, w'. eexists. split.
  - apply (getAgentRequiredFunding_value _ _ _ _ (Some (Int loopCount)) loopCount
             _ _ _ _ eq_refl Ev).
  - cbn [fundingThreshold toFund]. fold rawValue. repeat split.
    intros Hv. unfold spec_topUpAmount. apply Z.quot_div_nonneg; [exact Hv | reflexivity].
Qed.

(** The element kind with 3 agents, vault cost 10^16, manual payment cost
    10^15 and 2 loops. *)
Lemma C2_estimate_formula_witness :
  exists t w' spec,
    @getAgentRequiredFunding Script (scripted 0 (10 ^ 16) (10 ^ 15))
      "element" (Int 3) (Int 5) [Int 0] (Some (Int 2)) (script [] [] [] [])
    = (t, w', Ret spec) /\
    fundingThreshold spec = 31252000000000000 /\
    toFund spec = 34377200000000000.
Proof.
  destruct (C2_estimate_formula Script (scripted 0 (10 ^ 16) (10 ^ 15)) elementVault
              3 2 (10 ^ 16) (Int 5) [Int 0] (script [] [] [] []) eq_refl)
    as (_ & t & w' & spec & E & Et & _ & Ef).
  exists t, w', spec. split; [exact E |]. split; [exact Et |].
  apply Ef. discriminate.
Defined.

(** C3, which fails as stated: with loop count -1 the amount to fund is below
    the threshold, and with agent count -1 the threshold is negative. *)
Lemma C3_estimate_invariant_counterexample :
  ~ (forall spec,
        outcome (@getAgentRequiredFunding Script (scripted 0 0 0)
                   "payment" (Int 1) (Int 5) [Int 0] (Some (Int (-1)))
                   (script [] [] [] [])) = Ret spec ->
        fundingThreshold spec <= toFund spec /\
        0 <= fundingThreshold spec /\ 0 <= toFund spec) /\
  ~ (forall spec,
        outcome (@getAgentRequiredFunding Script (scripted 0 0 0)
                   "payment" (Int (-1)) (Int 5) [Int 0] (Some (Int 1))
                   (script [] [] [] [])) = Ret spec ->
        fundingThreshold spec <= toFund spec /\
        0 <= fundingThreshold spec /\ 0 <= toFund spec).
Proof.
  split; intros C.
  - destruct (C _ eq_refl) as [C1 _]. vm_compute in C1. apply C1. reflexivity.
  - destruct (C _ eq_refl) as (_ & C2 & _). vm_compute in C2. apply C2. reflexivity.
Qed.

(** C3, amended: in a world whose cost estimates are not negative, with an
    agent count that is not negative and a loop count that is omitted or not
    negative, every [FundingSpec] the estimate returns has
    [0 <= fundingThreshold <= toFund]. *)
Theorem C3_estimate_invariant :
  forall (W : Type) (L : Ledger W) (agentType : string) (numAgents numTransfers : number)
         (assetIds : list number) (loops : option number) (w : W) (spec : FundingSpec),
    NonNegativeCosts W ->
    (forall n, numAgents = Int n -> 0 <= n) ->
    (forall l, loops = Some (Int l) -> 0 <= l) ->
    outcome (getAgentRequiredFunding agentType numAgents numTransfers assetIds loops w)
    = Ret spec ->
    fundingThreshold spec <= toFund spec /\
    0 <= fundingThreshold spec /\ 0 <= toFund spec.
Proof.
  intros W L agentType numAgents numTransfers assetIds loops w spec NN Hn Hl E.
  destruct (getAgentRequiredFunding_inv _ _ _ _ _ _ _ E)
    as (k & n & cost & l & -> & -> & Ec & El & ->).
  cbn [fundingThreshold toFund].
  pose proof (rawValue_nonneg k numTransfers assetIds w cost n NN Ec (Hn n eq_refl)) as Hv.
  assert (0 <= l) as Hl'.
  { destruct loops as [[x |] |]; try discriminate.
    - injection El as <-. apply Hl. reflexivity.
    - injection El as <-. discriminate. }
  destruct (buffered_value _ l Hv Hl') as [-> Hb].
  repeat split; [exact Hb | exact Hv | ].
  apply Z.le_trans with (1 := Hv). exact Hb.
Qed.

(** The scenario of the specification: payment, 2 agents, 5 transfers each,
    asset 0, one loop. *)
Lemma C3_estimate_invariant_witness :
  fundingThreshold {| fundingThreshold := 168000000000000; toFund := 176400000000000 |}
  <= toFund {| fundingThreshold := 168000000000000; toFund := 176400000000000 |} /\
  0 <= fundingThreshold {| fundingThreshold := 168000000000000; toFund := 176400000000000 |} /\
  0 <= toFund {| fundingThreshold := 168000000000000; toFund := 176400000000000 |}.
Proof.
  apply (C3_estimate_invariant Script (scripted 0 0 0) "payment" (Int 2) (Int 5) [Int 0]
           (Some (Int 1)) (script [] [] [] [])).
  - apply scripted_nonneg; discriminate.
  - intros n [= <-]. discriminate.
  - intros l [= <-]. discriminate.
  - reflexivity.
Defined.

(** C9: an agent type other than ['payment'], ['uniswap'] and ['element'] makes
    [getAgentRequiredFunding] throw [Unknown agent type] at once, with no call
    made and the world untouched; the iteration passes the error on after its
    first log line, and the driver and [run] pass it on too: nothing is tried
    again. *)
Theorem C9_unknown_agent_type :
  forall (W : Type) (L : Ledger W) (agentType : string) (numAgents numTransfers : number)
         (assetIds : list number) (loops : option number),
    agentType <> "payment" -> agentType <> "uniswap" -> agentType <> "element" ->
    (forall w : W,
        getAgentRequiredFunding agentType numAgents numTransfers assetIds loops w
        = ([], w, Thrown (String.append "Unknown agent type: " agentType))) /\
    (forall gas fA pA k (w : W),
        iteration gas agentType numAgents numTransfers assetIds loops fA pA k w
        = ([EvLog (LogStartingRun k)], w,
           Thrown (String.append "Unknown agent type: " agentType))) /\
    (forall gas fuel fA pA k (w : W),
        strict_neq k loops = true ->
        runLoop gas (S fuel) agentType numAgents numTransfers assetIds loops fA pA k w
        = ([EvLog (LogStartingRun k)], w,
           Thrown (String.append "Unknown agent type: " agentType))) /\
    (forall fuel key numConcurrentTransfers rollupHost host confs (w w0 : W) t0 addrs,
        strict_neq 0 loops = true ->
        setup key rollupHost confs w = (t0, w0, Ret addrs) ->
        run (S fuel) key agentType numAgents numTransfers numConcurrentTransfers assetIds
            rollupHost host confs loops w
        = (t0 ++ [EvLog (LogStartingRun 0)], w0,
           Thrown (String.append "Unknown agent type: " agentType))).
Proof.
  intros W L agentType numAgents numTransfers assetIds loops Hp Hu He.
  destruct (unknown_agentType agentType Hp Hu He) as (Eu & Ee & Ep).
  assert (forall w : W,
             getAgentRequiredFunding agentType numAgents numTransfers assetIds loops w
             = ([], w, Thrown (String.append "Unknown agent type: " agentType))) as E1.
  { intros w. unfold getAgentRequiredFunding, requiredValue.
    rewrite Eu, Ee, Ep. reflexivity. }
  assert (forall gas fA pA k (w : W),
             iteration gas agentType numAgents numTransfers assetIds loops fA pA k w
             = ([EvLog (LogStartingRun k)], w,
                Thrown (String.append "Unknown agent type: " agentType))) as E2.
  { intros. rewrite iteration_run, E1. reflexivity. }
  assert (forall gas fuel fA pA k (w : W),
             strict_neq k loops = true ->
             runLoop gas (S fuel) agentType numAgents numTransfers assetIds loops
                     fA pA k w
             = ([EvLog (LogStartingRun k)], w,
                Thrown (String.append "Unknown agent type: " agentType))) as E3.
  { intros gas fuel fA pA k w En. rewrite runLoop_step, En, E2. reflexivity. }
  repeat split; auto.
  intros fuel key nc rollupHost host confs w w0 t0 [fA pA] En Es.
  rewrite run_run, Es, (E3 _ _ _ _ _ _ En). reflexivity.
Qed.

(** The kind name of the specification, [uniswapSwap], is itself not an agent
    type of the program. *)
Lemma C9_unknown_agent_type_witness :
  @getAgentRequiredFunding Script (scripted 0 0 0)
    "uniswapSwap" (Int 2) (Int 5) [Int 0] (Some (Int 1)) (script [] [] [] [])
  = ([], script [] [] [] [], Thrown "Unknown agent type: uniswapSwap").
Proof.
  apply (C9_unknown_agent_type Script (scripted 0 0 0) "uniswapSwap" (Int 2) (Int 5)
           [Int 0] (Some (Int 1))); discriminate.
Defined.

(** ** The funding loop *)

(** C1, which fails as stated: the balance polls 0, below the threshold 100;
    the transfer and its receipt succeed; the loop leaves through [break]
    without polling again, and the balance this world reports next is still 0. *)
Lemma C1_funding_exit_counterexample :
  let r := @fundingLoop Script (scripted 0 0 0) 3 (Address 1) (Address 2) 150 100
             (script [inr 0; inr 0] [] [] []) in
  ~ (outcome r = Ret tt ->
     exists b, last_polled None (trace r) = Some b /\ 100 <= b) /\
  fst (@sdk_getPublicBalance Script (scripted 0 0 0) 0 (Address 2) (world r)) = inr 0.
Proof.
  split; [| reflexivity].
  intros C. destruct (C eq_refl) as (b & Eb & Hb).
  vm_compute in Eb. injection Eb as <-. apply Hb. reflexivity.
Qed.

(** While every balance poll is below the threshold and every attempt
    fails, the loop goes on: after [n] turns it has made [n] attempts and has
    not settled. *)
Lemma fundingLoop_uncapped {W : Type} `{Ledger W} fA pA toFund threshold :
  (forall w : W, exists b,
        fst (sdk_getPublicBalance 0 pA w) = inr b /\ b < threshold) ->
  (forall w : W, exists e, outcome (fundAttempt fA pA toFund w) = Thrown e) ->
  forall (n : nat) (w : W),
    outcome (fundingLoop n fA pA toFund threshold w) = Pending /\
    List.length (filter is_transfer (trace (fundingLoop n fA pA toFund threshold w))) = n /\
    List.length (filter is_backoff (trace (fundingLoop n fA pA toFund threshold w))) = n.
Proof.
  intros Hlow Hfail. induction n as [| n IH]; intros w; [repeat split |].
  rewrite fundingLoop_step.
  destruct (Hlow w) as (b & Eb & Hb).
  destruct (sdk_getPublicBalance 0 pA w) as [r w1]. cbn [fst] in Eb. subst r.
  apply Z.ltb_lt in Hb. rewrite Hb.
  destruct (Hfail w1) as [e Ee].
  pose proof (fundAttempt_shape fA pA toFund w1) as S.
  destruct (fundAttempt fA pA toFund w1) as [[t w2] o].
  cbn [trace outcome fst snd] in *. subst o.
  destruct (IH (setTimeout 5000 w2)) as (I1 & I2 & I3).
  cbn [trace world outcome fst snd]. split; [exact I1 |].
  inversion S; subst; cbn; rewrite I2, I3; split; reflexivity.
Qed.

(** C1, amended: the funding loop returns only right after a balance poll that
    met the threshold, or right after a top-up transfer whose receipt reported
    success (the balance, polled below the threshold before that transfer, is
    not polled again).  Otherwise it retries: an attempt that fails after a
    poll below the threshold is followed by the log line, a timeout of 5000 ms
    and the loop starting over; and there is no cap on the retries: while it
    has not settled the loop has spent every turn it was given on one more
    attempt and one more timeout, and in a world where every poll is below the
    threshold and every attempt fails it never settles, however many turns it
    is given. *)
Theorem C1_funding_exit :
  forall (W : Type) (L : Ledger W) (fuel : nat) (fundingAddress processAddress : EthAddress)
         (toFund fundingThreshold : Z) (w : W),
    let r := fundingLoop fuel fundingAddress processAddress toFund fundingThreshold w in
    (outcome r = Ret tt ->
     (exists pre b,
         trace r = pre ++ [EvGetPublicBalance 0 processAddress (inr b)]
         /\ fundingThreshold <= b) \/
     (exists pre b tx,
         trace r = pre ++ [EvGetPublicBalance 0 processAddress (inr b);
                           EvLog (LogFundingProcessAddress processAddress toFund);
                           EvTransfer toFund fundingAddress processAddress (inr tx);
                           EvGetTransactionReceipt tx (inr {| status := true |})]
         /\ b < fundingThreshold)) /\
    (outcome r = Pending ->
     List.length (filter is_transfer (trace r)) = fuel /\
     List.length (filter is_backoff (trace r)) = fuel) /\
    (forall (w1 w2 : W) b t msg,
        sdk_getPublicBalance 0 processAddress w = (inr b, w1) ->
        b < fundingThreshold ->
        fundAttempt fundingAddress processAddress toFund w1 = (t, w2, Thrown msg) ->
        let again :=
          fundingLoop fuel fundingAddress processAddress toFund fundingThreshold
                      (setTimeout 5000 w2) in
        fundingLoop (S fuel) fundingAddress processAddress toFund fundingThreshold w
        = (EvGetPublicBalance 0 processAddress (inr b) :: t
             ++ [EvLog (LogFailedToFund msg); EvSetTimeout 5000] ++ trace again,
           world again, outcome again)) /\
    ((forall w' : W, exists b,
           fst (sdk_getPublicBalance 0 processAddress w') = inr b /\ b < fundingThreshold) ->
     (forall w' : W, exists e,
           outcome (fundAttempt fundingAddress processAddress toFund w') = Thrown e) ->
     outcome r = Pending /\
     List.length (filter is_transfer (trace r)) = fuel /\
     List.length (filter is_backoff (trace r)) = fuel).
Proof.
  intros W L fuel fA pA toFund thr w r. split; [| split; [| split]].
  - apply fundingLoop_exit.
  - apply fundingLoop_unsettled.
  - intros w1 w2 b t msg Eb Hb Ea again. apply fundingLoop_retry with (w1 := w1);
      assumption.
  - intros Hlow Hfail. apply fundingLoop_uncapped; assumption.
Qed.

(** A first attempt rejected, a second poll that meets the threshold; and a
    world that rejects every transfer: seven turns, seven attempts, nothing
    settled. *)
Lemma C1_funding_exit_witness :
  ((exists pre b,
       trace (@fundingLoop Script (scripted 0 0 0) 3 (Address 1) (Address 2) 150 100
                (script [inr 0; inr 120] [inl "nonce too low"] [] []))
       = pre ++ [EvGetPublicBalance 0 (Address 2) (inr b)] /\ 100 <= b) \/
   (exists pre b tx,
       trace (@fundingLoop Script (scripted 0 0 0) 3 (Address 1) (Address 2) 150 100
                (script [inr 0; inr 120] [inl "nonce too low"] [] []))
       = pre ++ [EvGetPublicBalance 0 (Address 2) (inr b);
                 EvLog (LogFundingProcessAddress (Address 2) 150);
                 EvTransfer 150 (Address 1) (Address 2) (inr tx);
                 EvGetTransactionReceipt tx (inr {| status := true |})]
       /\ b < 100)) /\
  (outcome (@fundingLoop unit (refusing 0 "nonce too low") 7 (Address 1) (Address 2)
              150 100 tt) = Pending /\
   List.length
     (filter is_transfer
        (trace (@fundingLoop unit (refusing 0 "nonce too low") 7 (Address 1) (Address 2)
                  150 100 tt))) = 7%nat /\
   List.length
     (filter is_backoff
        (trace (@fundingLoop unit (refusing 0 "nonce too low") 7 (Address 1) (Address 2)
                  150 100 tt))) = 7%nat).
Proof.
  split.
  - apply (C1_funding_exit Script (scripted 0 0 0) 3 (Address 1) (Address 2) 150 100
             (script [inr 0; inr 120] [inl "nonce too low"] [] [])).
    reflexivity.
  - apply (proj2 (proj2 (proj2
             (C1_funding_exit unit (refusing 0 "nonce too low") 7 (Address 1) (Address 2)
                150 100 tt)))).
    + intros w'. exists 0. split; reflexivity.
    + intros w'. exists "nonce too low". reflexivity.
Defined.

(** C7: a transfer that is rejected, a receipt that cannot be had and a
    receipt with status [false] each make the attempt throw; the loop catches
    the error, logs it, sets a timeout of 5000 ms and starts over with a
    balance poll, attempting again in full if that poll is below the
    threshold.  The loop itself throws only the error of a rejected balance
    poll, and consecutive transfers are exactly one timeout apart. *)
Theorem C7_transient_errors_retried :
  forall (W : Type) (L : Ledger W) (fundingAddress processAddress : EthAddress)
         (toFund fundingThreshold : Z),
    (forall (w w1 : W) e,
        asset_transfer toFund fundingAddress processAddress w = (inl e, w1) ->
        outcome (fundAttempt fundingAddress processAddress toFund w) = Thrown e) /\
    (forall (w w1 w2 : W) tx e,
        asset_transfer toFund fundingAddress processAddress w = (inr tx, w1) ->
        sdk_getTransactionReceipt tx w1 = (inl e, w2) ->
        outcome (fundAttempt fundingAddress processAddress toFund w) = Thrown e) /\
    (forall (w w1 w2 : W) tx,
        asset_transfer toFund fundingAddress processAddress w = (inr tx, w1) ->
        sdk_getTransactionReceipt tx w1 = (inr {| status := false |}, w2) ->
        outcome (fundAttempt fundingAddress processAddress toFund w)
        = Thrown "receipt status is false.") /\
    (forall fuel (w w1 w2 : W) b t msg,
        sdk_getPublicBalance 0 processAddress w = (inr b, w1) ->
        b < fundingThreshold ->
        fundAttempt fundingAddress processAddress toFund w1 = (t, w2, Thrown msg) ->
        let again :=
          fundingLoop fuel fundingAddress processAddress toFund fundingThreshold
                      (setTimeout 5000 w2) in
        fundingLoop (S fuel) fundingAddress processAddress toFund fundingThreshold w
        = (EvGetPublicBalance 0 processAddress (inr b) :: t
             ++ [EvLog (LogFailedToFund msg); EvSetTimeout 5000] ++ trace again,
           world again, outcome again)) /\
    (forall fuel (w w1 w2 w3 : W) b t msg b2,
        sdk_getPublicBalance 0 processAddress w = (inr b, w1) ->
        b < fundingThreshold ->
        fundAttempt fundingAddress processAddress toFund w1 = (t, w2, Thrown msg) ->
        sdk_getPublicBalance 0 processAddress (setTimeout 5000 w2) = (inr b2, w3) ->
        b2 < fundingThreshold ->
        exists rest,
          trace (fundingLoop (S (S fuel)) fundingAddress processAddress toFund
                             fundingThreshold w)
          = EvGetPublicBalance 0 processAddress (inr b) :: t
              ++ [EvLog (LogFailedToFund msg); EvSetTimeout 5000;
                  EvGetPublicBalance 0 processAddress (inr b2)]
              ++ trace (fundAttempt fundingAddress processAddress toFund w3) ++ rest) /\
    (forall fuel (w : W) e,
        outcome (fundingLoop fuel fundingAddress processAddress toFund fundingThreshold w)
        = Thrown e ->
        exists pre,
          trace (fundingLoop fuel fundingAddress processAddress toFund fundingThreshold w)
          = pre ++ [EvGetPublicBalance 0 processAddress (inl e)]) /\
    (forall fuel (w : W),
        one_backoff_between None
          (trace (fundingLoop fuel fundingAddress processAddress toFund fundingThreshold w))
        = true).
Proof.
  intros W L fA pA toFund thr.
  split; [| split; [| split; [| split; [| split; [| split]]]]].
  - intros w w1 e Et. rewrite fundAttempt_run, Et. reflexivity.
  - intros w w1 w2 tx e Et Er. rewrite fundAttempt_run, Et, Er. reflexivity.
  - intros w w1 w2 tx Et Er. rewrite fundAttempt_run, Et, Er. reflexivity.
  - intros fuel w w1 w2 b t msg Eb Hb Ea again. apply fundingLoop_retry with (w1 := w1);
      assumption.
  - intros fuel w w1 w2 w3 b t msg b2 Eb Hb Ea Eb2 Hb2.
    rewrite (fundingLoop_retry fA pA toFund thr (S fuel) w w1 w2 b t msg Eb Hb Ea).
    cbn [trace fst]. rewrite fundingLoop_step, Eb2.
    apply Z.ltb_lt in Hb2. rewrite Hb2.
    destruct (fundAttempt fA pA toFund w3) as [[t3 w4] [[] | msg3 |]]; cbn [trace fst].
    + exists []. rewrite app_nil_r. reflexivity.
    + eexists. cbn [app]. reflexivity.
    + exists []. rewrite app_nil_r. reflexivity.
  - intros fuel w e. apply fundingLoop_thrown.
  - intros fuel w. apply fundingLoop_backoff.
Qed.

(** The first receipt reports failure, the second attempt succeeds. *)
Lemma C7_transient_errors_retried_witness :
  @fundingLoop Script (scripted 0 0 0) 2 (Address 1) (Address 2) 150 100
    (script [inr 0; inr 0] [inr 5%N; inr 6%N] [inr {| status := false |}] [])
  = ([EvGetPublicBalance 0 (Address 2) (inr 0);
      EvLog (LogFundingProcessAddress (Address 2) 150);
      EvTransfer 150 (Address 1) (Address 2) (inr 5%N);
      EvGetTransactionReceipt 5%N (inr {| status := false |});
      EvLog (LogFailedToFund "receipt status is false.");
      EvSetTimeout 5000;
      EvGetPublicBalance 0 (Address 2) (inr 0);
      EvLog (LogFundingProcessAddress (Address 2) 150);
      EvTransfer 150 (Address 1) (Address 2) (inr 6%N);
      EvGetTransactionReceipt 6%N (inr {| status := true |})],
     script [] [] [] [], Ret tt).
Proof.
  apply (proj1 (proj2 (proj2 (proj2
           (C7_transient_errors_retried Script (scripted 0 0 0)
              (Address 1) (Address 2) 150 100))))
           1%nat (script [inr 0; inr 0] [inr 5%N; inr 6%N] [inr {| status := false |}] [])
           (script [inr 0] [inr 5%N; inr 6%N] [inr {| status := false |}] [])
           (script [inr 0] [inr 6%N] [] [])
           0 [EvLog (LogFundingProcessAddress (Address 2) 150);
              EvTransfer 150 (Address 1) (Address 2) (inr 5%N);
              EvGetTransactionReceipt 5%N (inr {| status := false |})]
           "receipt status is false.");
    reflexivity.
Defined.

(** C8: in every run of the funding loop each transfer follows a balance poll
    of its own that returned less than the threshold; a first poll that meets
    the threshold ends the loop with no transfer at all; and when the poll
    after a failed attempt and its timeout meets the threshold, the loop ends
    there, the failed attempt's transfer being the only one. *)
Theorem C8_transfers_guarded :
  forall (W : Type) (L : Ledger W) (fundingAddress processAddress : EthAddress)
         (toFund fundingThreshold : Z),
    (forall fuel (w : W),
        transfers_guarded fundingThreshold None
          (trace (fundingLoop fuel fundingAddress processAddress toFund fundingThreshold w))
        = true) /\
    (forall fuel (w w1 : W) b,
        sdk_getPublicBalance 0 processAddress w = (inr b, w1) ->
        fundingThreshold <= b ->
        fundingLoop (S fuel) fundingAddress processAddress toFund fundingThreshold w
        = ([EvGetPublicBalance 0 processAddress (inr b)], w1, Ret tt)) /\
    (forall fuel (w w1 w2 w3 : W) b t msg b2,
        sdk_getPublicBalance 0 processAddress w = (inr b, w1) ->
        b < fundingThreshold ->
        fundAttempt fundingAddress processAddress toFund w1 = (t, w2, Thrown msg) ->
        sdk_getPublicBalance 0 processAddress (setTimeout 5000 w2) = (inr b2, w3) ->
        fundingThreshold <= b2 ->
        fundingLoop (S (S fuel)) fundingAddress processAddress toFund fundingThreshold w
        = (EvGetPublicBalance 0 processAddress (inr b) :: t
             ++ [EvLog (LogFailedToFund msg); EvSetTimeout 5000;
                 EvGetPublicBalance 0 processAddress (inr b2)],
           w3, Ret tt) /\
        List.length
          (filter is_transfer
             (trace (fundingLoop (S (S fuel)) fundingAddress processAddress toFund
                                 fundingThreshold w))) = 1%nat).
Proof.
  intros W L fA pA toFund thr. split; [| split].
  - intros fuel w. apply fundingLoop_guarded.
  - intros fuel w w1 b Eb Hb. apply fundingLoop_satisfied; assumption.
  - intros fuel w w1 w2 w3 b t msg b2 Eb Hb Ea Eb2 Hb2.
    rewrite (fundingLoop_retry fA pA toFund thr (S fuel) w w1 w2 b t msg Eb Hb Ea).
    rewrite (fundingLoop_satisfied fA pA toFund thr fuel _ w3 b2 Eb2 Hb2).
    cbn [trace world outcome fst snd app]. split; [reflexivity |].
    pose proof (fundAttempt_shape fA pA toFund w1) as S. rewrite Ea in S.
    cbn [trace outcome fst snd] in S. inversion S; subst; reflexivity.
Qed.

(** A balance that already meets the threshold; and a top-up by somebody else
    during the timeout. *)
Lemma C8_transfers_guarded_witness :
  @fundingLoop Script (scripted 0 0 0) 1 (Address 1) (Address 2) 150 100
    (script [inr 100] [] [] [])
  = ([EvGetPublicBalance 0 (Address 2) (inr 100)], script [] [] [] [], Ret tt) /\
  @fundingLoop Script (scripted 0 0 0) 2 (Address 1) (Address 2) 150 100
    (script [inr 0; inr 150] [inl "nonce too low"] [] [])
  = ([EvGetPublicBalance 0 (Address 2) (inr 0);
      EvLog (LogFundingProcessAddress (Address 2) 150);
      EvTransfer 150 (Address 1) (Address 2) (inl "nonce too low");
      EvLog (LogFailedToFund "nonce too low");
      EvSetTimeout 5000;
      EvGetPublicBalance 0 (Address 2) (inr 150)],
     script [] [] [] [], Ret tt).
Proof.
  split.
  - apply (proj1 (proj2 (C8_transfers_guarded Script (scripted 0 0 0)
                           (Address 1) (Address 2) 150 100))
             0%nat (script [inr 100] [] [] []) (script [] [] [] []) 100);
      [reflexivity | discriminate].
  - apply (proj2 (proj2 (C8_transfers_guarded Script (scripted 0 0 0)
                           (Address 1) (Address 2) 150 100))
             0%nat (script [inr 0; inr 150] [inl "nonce too low"] [] [])
             (script [inr 150] [inl "nonce too low"] [] [])
             (script [inr 150] [] [] []) (script [] [] [] [])
             0 [EvLog (LogFundingProcessAddress (Address 2) 150);
                EvTransfer 150 (Address 1) (Address 2) (inl "nonce too low")]
             "nonce too low" 150);
      first [reflexivity | discriminate].
Defined.

(** ** The run driver and the teardown *)

Lemma batches_funded_tail (t q : list Event) (c : bool) :
  filter is_batch q = [] -> batches_funded c (t ++ q) = batches_funded c t.
Proof.
  intros Hq. revert c. induction t as [| e t IH]; intros c.
  - cbn [app batches_funded]. revert c.
    induction q as [| e q IHq]; intros c; [reflexivity |].
    destruct e as [[] | | | | | | | | | | ? ? [] | | | | |]; cbn in Hq |- *;
      try discriminate; apply IHq; assumption.
  - destruct e as [[] | | | | | | | | | | ? ? [] | | | | |]; cbn; rewrite ?IH; reflexivity.
Qed.

Lemma batches_funded_prefix (t rest : list Event) (c : bool) :
  forallb quiet t = true ->
  exists c', batches_funded c (t ++ rest) = batches_funded c' rest.
Proof.
  revert c. induction t as [| e t IH]; intros c Hq; [exists c; reflexivity |].
  destruct e as [[] | | | | | | | | | | ? ? [] | | | | |]; cbn in Hq |- *;
    try discriminate; apply IH; assumption.
Qed.

Section RunObserved.
Context {W : Type} `{Ledger W}.
Variables (fuel : nat) (fundingPrivateKey : Buffer) (agentType : string)
          (numAgents numTxsPerAgent numConcurrentTransfers : number)
          (assets : list number) (rollupHost host : string) (confs : number)
          (loops : option number).

Local Abbreviation main :=
  (run fuel fundingPrivateKey agentType numAgents numTxsPerAgent numConcurrentTransfers
       assets rollupHost host confs loops).
Local Abbreviation prefix :=
  (runBeforeRefund fuel fundingPrivateKey agentType numAgents numTxsPerAgent
                   numConcurrentTransfers assets rollupHost host confs loops).

Lemma runBeforeRefund_run (w : W) :
  prefix w =
  match setup fundingPrivateKey rollupHost confs w with
  | (t0, w0, Ret (fA, pA)) =>
    match runLoop fuel fuel agentType numAgents numTxsPerAgent assets loops fA pA 0 w0 with
    | (t1, w1, o) => (t0 ++ t1, w1, o)
    end
  | (t0, w0, Thrown e) => (t0, w0, Thrown e)
  | (t0, w0, Pending) => (t0, w0, Pending)
  end.
Proof.
  unfold runBeforeRefund, bind.
  destruct (setup fundingPrivateKey rollupHost confs w) as [[t0 w0] [[fA pA] | e |]];
    reflexivity.
Qed.

(** The trace of [run]: a quiet setup, the iterations, and a tail without
    batches or completed iterations; the tail of a run that returned is the
    refund and the teardown. *)
Lemma run_shape (w : W) :
  exists t0 t1 tail (m : nat),
    trace (main w) = t0 ++ t1 ++ tail /\
    trace (prefix w) = t0 ++ t1 /\
    forallb quiet t0 = true /\
    completed_runs t1 = indices m /\
    (forall c, batches_funded c t1 = true) /\
    filter is_destroy t1 = [] /\
    (forall N, loops = Some (Int N) -> 0 <= N -> Z.of_nat m <= N) /\
    completed_runs tail = [] /\
    filter is_batch tail = [] /\
    (outcome (main w) = Ret tt ->
     loops = Some (Int (Z.of_nat m)) /\
     List.length (filter is_batch t1) = m /\
     exists fA pA w1,
       tail = trace (refund fA pA w1) ++ [EvDestroy (inr tt)]) /\
    (outcome (main w) <> Ret tt -> filter is_destroy tail = [] \/
                                   loops = Some (Int (Z.of_nat m))).
Proof.
  rewrite run_run, runBeforeRefund_run.
  pose proof (setup_quiet fundingPrivateKey rollupHost confs w) as Q0.
  destruct (setup fundingPrivateKey rollupHost confs w) as [[t0 w0] [[fA pA] | e |]];
    cbn [trace world outcome fst snd] in *.
  2, 3: exists t0, [], [], 0%nat; rewrite !app_nil_r;
    repeat split; auto; try discriminate; intros; cbn; assumption.
  destruct (runLoop_observed fuel agentType numAgents numTxsPerAgent assets loops
              fA pA fuel 0 w0) as (m & _ & I1 & I2 & I3 & I4 & I5).
  assert (forall N, loops = Some (Int N) -> 0 <= N -> Z.of_nat m <= N) as I4'
    by (intros N EN HN; rewrite <- (Z.add_0_l (Z.of_nat m)); auto).
  clear I4.
  destruct (runLoop fuel fuel agentType numAgents numTxsPerAgent assets loops fA pA 0 w0)
    as [[t1 w1] [[] | e |]]; cbn [trace world outcome fst snd] in *.
  2, 3: exists t0, t1, [], m; rewrite !app_nil_r;
    repeat split; auto; try discriminate.
  destruct (I5 eq_refl) as [I6 I7]. rewrite Z.add_0_l in I6. clear I5.
  pose proof (refund_quiet fA pA w1) as Q2.
  destruct (refund fA pA w1) as [[t2 w2] [[] | e |]] eqn:Er;
    cbn [trace world outcome fst snd] in *.
  - destruct (sdk_destroy w2) as [[e | []] w3]; cbn [trace world outcome fst snd].
    + exists t0, t1, (t2 ++ [EvDestroy (inl e)]), m.
      repeat split; auto; try discriminate.
      * rewrite completed_runs_app, (completed_runs_quiet t2 Q2). reflexivity.
      * rewrite filter_app, (batches_quiet t2 Q2). reflexivity.
    + exists t0, t1, (t2 ++ [EvDestroy (inr tt)]), m.
      repeat split; auto; try discriminate.
      * rewrite completed_runs_app, (completed_runs_quiet t2 Q2). reflexivity.
      * rewrite filter_app, (batches_quiet t2 Q2). reflexivity.
      * exists fA, pA, w1. rewrite Er. reflexivity.
  - exists t0, t1, t2, m. repeat split; auto; try discriminate.
    + apply completed_runs_quiet; assumption.
    + apply batches_quiet; assumption.
  - exists t0, t1, t2, m. repeat split; auto; try discriminate.
    + apply completed_runs_quiet; assumption.
    + apply batches_quiet; assumption.
Qed.

End RunObserved.

(** In a reliable world with a negative loop count, the loop is still going
    after any number of turns, each turn one more completed iteration. *)
Lemma runLoop_diverges {W : Type} `{Ledger W} (reliable : Reliable W)
    gas (kind : WorkloadKind) (a : Z) numTransfers assetIds (n : Z) fA pA :
  n < 0 ->
  forall (fuel : nat) (k : Z) (w : W),
    0 <= k ->
    outcome (runLoop (S gas) fuel (agentTypeOf kind) (Int a) numTransfers assetIds
                     (Some (Int n)) fA pA k w) = Pending /\
    completed_runs (trace (runLoop (S gas) fuel (agentTypeOf kind) (Int a) numTransfers
                                   assetIds (Some (Int n)) fA pA k w))
    = count_from k fuel.
Proof.
  intros Hn. induction fuel as [| fuel IH]; intros k w Hk; [split; reflexivity |].
  rewrite runLoop_step.
  replace (strict_neq k (Some (Int n))) with true
    by (cbn [strict_neq]; symmetry; apply negb_true_iff, Z.eqb_neq; clear - Hn Hk; lia).
  pose proof (iteration_returns reliable gas kind a numTransfers assetIds (Some (Int n))
                fA pA k w (ex_intro _ _ eq_refl)) as Ei.
  pose proof (iteration_complete (S gas) (agentTypeOf kind) (Int a) numTransfers assetIds
                (Some (Int n)) fA pA k w Ei) as (C1 & _).
  destruct (iteration _ _ _ _ _ _ _ _ k w) as [[t1 w1] o].
  cbn [trace world outcome fst snd] in *. subst o.
  assert (0 <= k + 1) as Hk' by (clear - Hk; lia).
  destruct (IH (k + 1) w1 Hk') as [IH1 IH2].
  cbn [trace world outcome fst snd]. split; [exact IH1 |].
  rewrite completed_runs_app, C1, IH2. reflexivity.
Qed.

Lemma refund_head {W : Type} `{Ledger W} fA pA (w : W) :
  exists rest,
    trace (refund fA pA w)
    = EvGetPublicBalance 0 pA (fst (sdk_getPublicBalance 0 pA w)) :: rest.
Proof.
  rewrite refund_run.
  destruct (sdk_getPublicBalance 0 pA w) as [[e | b] w1]; [eexists; reflexivity |].
  destruct (0 <? b - fee); [| eexists; reflexivity].
  destruct (asset_transfer _ _ _ w1) as [[e | tx] w2]; [eexists; reflexivity |].
  destruct (sdk_getTransactionReceipt tx w2) as [r w3]. eexists; reflexivity.
Qed.

(** C4: with loop count [N], whatever happens, the iterations that ran to
    their end carry the indices [0, 1, ..] up to at most [N - 1], in this
    order, and no batch was executed without a balance poll of its own
    iteration before it.  A run that returns has completed exactly the [N]
    iterations [0 .. N-1] with [N] batch executions, all of them before the
    refund, which starts with its balance poll and is followed by the
    teardown.  And in a reliable world the run does return, given fuel for [N]
    iterations. *)
Theorem C4_iterations :
  forall (W : Type) (L : Ledger W) (fuel : nat) (fundingPrivateKey : Buffer)
         (agentType : string) (numAgents numTxsPerAgent numConcurrentTransfers : number)
         (assets : list number) (rollupHost host : string) (confs : number)
         (N : nat) (w : W),
    let r := run fuel fundingPrivateKey agentType numAgents numTxsPerAgent
                 numConcurrentTransfers assets rollupHost host confs
                 (Some (Int (Z.of_nat N))) w in
    (exists m : nat, (m <= N)%nat /\ completed_runs (trace r) = indices m) /\
    batches_funded false (trace r) = true /\
    (outcome r = Ret tt ->
     completed_runs (trace r) = indices N /\
     List.length (filter is_batch (trace r)) = N /\
     exists pre fA pA w1 rest,
       trace r = pre ++ trace (refund fA pA w1) ++ [EvDestroy (inr tt)] /\
       trace (refund fA pA w1)
       = EvGetPublicBalance 0 pA (fst (sdk_getPublicBalance 0 pA w1)) :: rest /\
       completed_runs pre = indices N /\
       List.length (filter is_batch pre) = N) /\
    (Reliable W ->
     forall kind a, agentType = agentTypeOf kind -> numAgents = Int a ->
                    (N < fuel)%nat -> outcome r = Ret tt).
Proof.
  intros W L fuel key agentType numAgents numTxs numConc assets rollupHost host confs N w r.
  destruct (run_shape fuel key agentType numAgents numTxs numConc assets rollupHost host
              confs (Some (Int (Z.of_nat N))) w)
    as (t0 & t1 & tail & m & Et & _ & Q0 & C1 & B1 & _ & Hm & C2 & B2 & HR & _).
  fold r in Et, HR. rewrite Et.
  assert (completed_runs (t0 ++ t1 ++ tail) = indices m) as Ec.
  { rewrite !completed_runs_app, (completed_runs_quiet t0 Q0), C1, C2.
    cbn [app]. apply app_nil_r. }
  assert (completed_runs (t0 ++ t1) = indices m) as Ec'.
  { rewrite completed_runs_app, (completed_runs_quiet t0 Q0), C1. reflexivity. }
  assert (forall q, filter is_batch (t0 ++ q) = filter is_batch q) as Eb.
  { intros q. rewrite filter_app, (batches_quiet t0 Q0). reflexivity. }
  repeat split.
  - exists m. split; [| exact Ec].
    specialize (Hm (Z.of_nat N) eq_refl (Nat2Z.is_nonneg N)).
    apply Nat2Z.inj_le. exact Hm.
  - destruct (batches_funded_prefix t0 (t1 ++ tail) false Q0) as [c' ->].
    rewrite (batches_funded_tail t1 tail c' B2). apply B1.
  - destruct (HR H) as (EN & _). injection EN as EN. apply Nat2Z.inj in EN.
    subst m. exact Ec.
  - destruct (HR H) as (EN & Hb & _). injection EN as EN. apply Nat2Z.inj in EN.
    subst m. rewrite Eb, filter_app, B2, app_nil_r. exact Hb.
  - destruct (HR H) as (EN & Hb & fA & pA & w1 & ->).
    injection EN as EN. apply Nat2Z.inj in EN. subst m.
    destruct (refund_head fA pA w1) as [rest Eh].
    exists (t0 ++ t1), fA, pA, w1, rest. repeat split.
    + rewrite <- app_assoc. reflexivity.
    + exact Eh.
    + exact Ec'.
    + rewrite Eb. exact Hb.
  - intros reliable kind a -> -> Hf. apply run_returns; assumption.
Qed.

(** Three iterations of the payment workload in a world where all goes well. *)
Lemma C4_iterations_witness :
  completed_runs
    (trace (@run unit (steady 0 0 0 0) 4 [] "payment" (Int 2) (Int 5) (Int 1) [Int 0]
              "rollup" "host" (Int 1) (Some (Int (Z.of_nat 3))) tt))
  = [0; 1; 2] /\
  outcome (@run unit (steady 0 0 0 0) 4 [] "payment" (Int 2) (Int 5) (Int 1) [Int 0]
             "rollup" "host" (Int 1) (Some (Int (Z.of_nat 3))) tt)
  = Ret tt.
Proof.
  pose proof (C4_iterations unit (steady 0 0 0 0) 4 [] "payment" (Int 2) (Int 5) (Int 1)
                [Int 0] "rollup" "host" (Int 1) 3 tt) as (_ & _ & HR & HL).
  assert (outcome (@run unit (steady 0 0 0 0) 4 [] "payment" (Int 2) (Int 5) (Int 1)
                     [Int 0] "rollup" "host" (Int 1) (Some (Int (Z.of_nat 3))) tt)
          = Ret tt) as Ho.
  { apply (HL (steady_reliable 0 0 0 0) payment 2); [reflexivity | reflexivity |].
    apply le_n. }
  split; [exact (proj1 (HR Ho)) | exact Ho].
Defined.

(** C5: the reserve is 420 * 10^12; the refund polls the balance of the process
    account and sends [balance - fee] from the process account to the funding
    account if and only if that value is positive, and nothing otherwise; in
    [run] it comes right after the loop has returned.  With a balance of
    1000 * 10^12 the transfer is of 580 * 10^12; with 300 * 10^12 there is none. *)
Theorem C5_refund :
  forall (W : Type) (L : Ledger W) (fundingAddress processAddress : EthAddress) (w : W),
    fee = 420 * 10 ^ 12 /\
    filter is_transfer (trace (refund fundingAddress processAddress w))
    = match sdk_getPublicBalance 0 processAddress w with
      | (inr balance, w1) =>
        if 0 <? balance - fee then
          [EvTransfer (balance - fee) processAddress fundingAddress
             (fst (asset_transfer (balance - fee) processAddress fundingAddress w1))]
        else []
      | (inl _, _) => []
      end /\
    (forall w1,
        sdk_getPublicBalance 0 processAddress w = (inr (1000 * 10 ^ 12), w1) ->
        filter is_transfer (trace (refund fundingAddress processAddress w))
        = [EvTransfer (580 * 10 ^ 12) processAddress fundingAddress
             (fst (asset_transfer (580 * 10 ^ 12) processAddress fundingAddress w1))]) /\
    (forall w1,
        sdk_getPublicBalance 0 processAddress w = (inr (300 * 10 ^ 12), w1) ->
        filter is_transfer (trace (refund fundingAddress processAddress w)) = []) /\
    (forall fuel key agentType numAgents numTxsPerAgent numConcurrentTransfers assets
            rollupHost host confs loops (w0 w1 w2 : W) t0 t1,
        setup key rollupHost confs w0 = (t0, w1, Ret (fundingAddress, processAddress)) ->
        runLoop fuel fuel agentType numAgents numTxsPerAgent assets loops
                fundingAddress processAddress 0 w1 = (t1, w2, Ret tt) ->
        exists rest,
          trace (run fuel key agentType numAgents numTxsPerAgent numConcurrentTransfers
                     assets rollupHost host confs loops w0)
          = t0 ++ t1 ++ trace (refund fundingAddress processAddress w2) ++ rest
          /\ filter is_transfer rest = []).
Proof.
  intros W L fA pA w.
  assert (filter is_transfer (trace (refund fA pA w))
          = match sdk_getPublicBalance 0 pA w with
            | (inr balance, w1) =>
              if 0 <? balance - fee then
                [EvTransfer (balance - fee) pA fA
                   (fst (asset_transfer (balance - fee) pA fA w1))]
              else []
            | (inl _, _) => []
            end) as E.
  { rewrite refund_run.
    destruct (sdk_getPublicBalance 0 pA w) as [[e | b] w1]; [reflexivity |].
    destruct (0 <? b - fee); [| reflexivity].
    destruct (asset_transfer (b - fee) pA fA w1) as [[e | tx] w2]; [reflexivity |].
    destruct (sdk_getTransactionReceipt tx w2) as [r w3]. reflexivity. }
  split; [reflexivity |]. split; [exact E |]. split; [| split].
  - intros w1 Eb. rewrite E, Eb. reflexivity.
  - intros w1 Eb. rewrite E, Eb. reflexivity.
  - intros fuel key agentType numAgents numTxs numConc assets rollupHost host confs loops
           w0 w1 w2 t0 t1 Es Ed.
    rewrite run_run, Es, Ed.
    destruct (refund fA pA w2) as [[t2 w3] [[] | e |]]; cbn [trace fst].
    + destruct (sdk_destroy w3) as [r w4]. exists [EvDestroy r]. split; reflexivity.
    + exists []. rewrite app_nil_r. split; reflexivity.
    + exists []. rewrite app_nil_r. split; reflexivity.
Qed.

(** The two balances of the specification. *)
Lemma C5_refund_witness :
  filter is_transfer
    (trace (@refund Script (scripted 0 0 0) (Address 1) (Address 2)
              (script [inr (1000 * 10 ^ 12)] [] [] [])))
  = [EvTransfer (580 * 10 ^ 12) (Address 2) (Address 1) (inr 0%N)] /\
  filter is_transfer
    (trace (@refund Script (scripted 0 0 0) (Address 1) (Address 2)
              (script [inr (300 * 10 ^ 12)] [] [] [])))
  = [].
Proof.
  split.
  - apply (proj1 (proj2 (proj2
             (C5_refund Script (scripted 0 0 0) (Address 1) (Address 2)
                (script [inr (1000 * 10 ^ 12)] [] [] []))))
             (script [] [] [] [])).
    reflexivity.
  - apply (proj1 (proj2 (proj2 (proj2
             (C5_refund Script (scripted 0 0 0) (Address 1) (Address 2)
                (script [inr (300 * 10 ^ 12)] [] [] [])))))
             (script [] [] [] [])).
    reflexivity.
Defined.

(** C6, which fails as stated: no iteration, a balance of 1000 * 10^12, and a
    refund transfer that the ledger rejects; [run] throws that error and
    [sdk.destroy()] is never called. *)
Lemma C6_teardown_counterexample :
  let r := @run Script (scripted 0 0 0) 1 [] "payment" (Int 2) (Int 5) (Int 1) [Int 0]
             "rollup" "host" (Int 1) (Some (Int 0))
             (script [inr (1000 * 10 ^ 12)] [inl "insufficient funds for gas"] [] []) in
  outcome r = Thrown "insufficient funds for gas" /\
  filter is_transfer (trace r)
  = [EvTransfer (580 * 10 ^ 12) (Address 32) (Address 7)
       (inl "insufficient funds for gas")] /\
  ~ (existsb is_destroy (trace r) = true).
Proof. repeat split. vm_compute. discriminate. Qed.

(** C6, amended: [sdk.destroy()] is called at most once and only as the last
    call of [run]; it is called whenever the loop has returned and the refund
    has returned, whatever the number of iterations; and the refund returns
    whenever its three calls resolve, whatever the status of the receipt.  A
    run that returns has ended with the teardown. *)
Theorem C6_teardown :
  forall (W : Type) (L : Ledger W) (fuel : nat) (fundingPrivateKey : Buffer)
         (agentType : string) (numAgents numTxsPerAgent numConcurrentTransfers : number)
         (assets : list number) (rollupHost host : string) (confs : number)
         (loops : option number) (w : W),
    let r := run fuel fundingPrivateKey agentType numAgents numTxsPerAgent
                 numConcurrentTransfers assets rollupHost host confs loops w in
    (outcome r = Ret tt ->
     exists pre, trace r = pre ++ [EvDestroy (inr tt)] /\ filter is_destroy pre = []) /\
    (forall t0 w0 fA pA t1 w1 t2 w2,
        setup fundingPrivateKey rollupHost confs w = (t0, w0, Ret (fA, pA)) ->
        runLoop fuel fuel agentType numAgents numTxsPerAgent assets loops fA pA 0 w0
        = (t1, w1, Ret tt) ->
        refund fA pA w1 = (t2, w2, Ret tt) ->
        trace r = t0 ++ t1 ++ t2 ++ [EvDestroy (fst (sdk_destroy w2))] /\
        filter is_destroy (t0 ++ t1 ++ t2) = []) /\
    (forall fA pA (w0 w1 w2 w3 : W) b tx rc,
        sdk_getPublicBalance 0 pA w0 = (inr b, w1) ->
        asset_transfer (b - fee) pA fA w1 = (inr tx, w2) ->
        sdk_getTransactionReceipt tx w2 = (inr rc, w3) ->
        outcome (refund fA pA w0) = Ret tt).
Proof.
  intros W L fuel key agentType numAgents numTxs numConc assets rollupHost host confs
         loops w r.
  assert (forall t0 w0 fA pA t1 w1 t2 w2,
             setup key rollupHost confs w = (t0, w0, Ret (fA, pA)) ->
             runLoop fuel fuel agentType numAgents numTxs assets loops fA pA 0 w0
             = (t1, w1, Ret tt) ->
             refund fA pA w1 = (t2, w2, Ret tt) ->
             trace r = t0 ++ t1 ++ t2 ++ [EvDestroy (fst (sdk_destroy w2))] /\
             filter is_destroy (t0 ++ t1 ++ t2) = []) as A.
  { intros t0 w0 fA pA t1 w1 t2 w2 Es Ed Er. unfold r.
    rewrite run_run, Es, Ed, Er. split.
    - destruct (sdk_destroy w2) as [[e | []] w3]; reflexivity.
    - pose proof (setup_quiet key rollupHost confs w) as Q0. rewrite Es in Q0.
      pose proof (refund_quiet fA pA w1) as Q2. rewrite Er in Q2.
      destruct (runLoop_observed fuel agentType numAgents numTxs assets loops
                  fA pA fuel 0 w0) as (m & _ & _ & _ & I3 & _).
      rewrite Ed in I3. cbn [trace fst] in *.
      rewrite !filter_app, (destroy_quiet t0 Q0), (destroy_quiet t2 Q2), I3.
      reflexivity. }
  split; [| split; [exact A |]].
  - unfold r. rewrite run_run. intros Ho.
    destruct (setup key rollupHost confs w) as [[t0 w0] [[fA pA] | e |]] eqn:Es;
      try discriminate.
    destruct (runLoop fuel fuel agentType numAgents numTxs assets loops fA pA 0 w0)
      as [[t1 w1] [[] | e |]] eqn:Ed; try discriminate.
    destruct (refund fA pA w1) as [[t2 w2] [[] | e |]] eqn:Er; try discriminate.
    destruct (A _ _ _ _ _ _ _ _ eq_refl Ed Er) as [_ A2].
    destruct (sdk_destroy w2) as [[e | []] w3]; try discriminate.
    exists (t0 ++ t1 ++ t2). split; [| exact A2].
    cbn [trace fst]. rewrite <- !app_assoc. reflexivity.
  - intros fA pA w0 w1 w2 w3 b tx rc Eb Et Er. rewrite refund_run, Eb.
    destruct (0 <? b - fee); [| reflexivity]. rewrite Et, Er. reflexivity.
Qed.

(** A refund whose receipt reports failure: the session is torn down all the
    same. *)
Lemma C6_teardown_witness :
  exists pre,
    trace (@run Script (scripted 0 0 0) 1 [] "payment" (Int 2) (Int 5) (Int 1) [Int 0]
             "rollup" "host" (Int 1) (Some (Int 0))
             (script [inr (1000 * 10 ^ 12)] [] [inr {| status := false |}] []))
    = pre ++ [EvDestroy (inr tt)] /\ filter is_destroy pre = [].
Proof.
  apply (C6_teardown Script (scripted 0 0 0) 1 [] "payment" (Int 2) (Int 5) (Int 1) [Int 0]
           "rollup" "host" (Int 1) (Some (Int 0))
           (script [inr (1000 * 10 ^ 12)] [] [inr {| status := false |}] [])).
  reflexivity.
Defined.

(** C10: the driver loop returns only if [loops] is a non-negative integer,
    and then after exactly [loops] iterations.  With a negative [loops], [run]
    never returns and makes no call beyond those of the setup and the loop: no
    refund, no [sdk.destroy()]; and in a reliable world the loop is still
    running after any number of turns, one more iteration completed each
    turn. *)
Theorem C10_negative_loops :
  forall (W : Type) (L : Ledger W) (fundingPrivateKey : Buffer)
         (agentType : string) (numAgents numTxsPerAgent numConcurrentTransfers : number)
         (assets : list number) (rollupHost host : string) (confs : number),
    (forall gas fuel loops fA pA (w : W),
        let d := runLoop gas fuel agentType numAgents numTxsPerAgent assets loops
                         fA pA 0 w in
        outcome d = Ret tt ->
        exists n : nat,
          loops = Some (Int (Z.of_nat n)) /\
          completed_runs (trace d) = indices n /\
          List.length (filter is_batch (trace d)) = n) /\
    (forall (n : Z) fuel (w : W),
        n < 0 ->
        let r := run fuel fundingPrivateKey agentType numAgents numTxsPerAgent
                     numConcurrentTransfers assets rollupHost host confs
                     (Some (Int n)) w in
        outcome r <> Ret tt /\
        filter is_destroy (trace r) = [] /\
        trace r
        = trace (runBeforeRefund fuel fundingPrivateKey agentType numAgents numTxsPerAgent
                   numConcurrentTransfers assets rollupHost host confs
                   (Some (Int n)) w)) /\
    (forall (n : Z) gas fuel kind a fA pA (w : W),
        n < 0 -> Reliable W -> agentType = agentTypeOf kind -> numAgents = Int a ->
        let d := runLoop (S gas) fuel agentType numAgents numTxsPerAgent assets
                         (Some (Int n)) fA pA 0 w in
        outcome d = Pending /\ completed_runs (trace d) = indices fuel).
Proof.
  intros W L key agentType numAgents numTxs numConc assets rollupHost host confs.
  assert (forall gas fuel loops fA pA (w : W),
             outcome (runLoop gas fuel agentType numAgents numTxs assets loops fA pA 0 w)
             = Ret tt ->
             exists n : nat,
               loops = Some (Int (Z.of_nat n)) /\
               completed_runs
                 (trace (runLoop gas fuel agentType numAgents numTxs assets loops
                                 fA pA 0 w)) = indices n /\
               List.length
                 (filter is_batch
                    (trace (runLoop gas fuel agentType numAgents numTxs assets loops
                                    fA pA 0 w))) = n) as A.
  { intros gas fuel loops fA pA w Ho.
    destruct (runLoop_observed gas agentType numAgents numTxs assets loops fA pA fuel 0 w)
      as (m & _ & I1 & _ & _ & _ & I5).
    destruct (I5 Ho) as [I6 I7]. rewrite Z.add_0_l in I6.
    exists m. auto. }
  split; [exact A | split].
  - intros n fuel w Hn r. unfold r.
    rewrite run_run, runBeforeRefund_run.
    pose proof (setup_quiet key rollupHost confs w) as Q0.
    destruct (setup key rollupHost confs w) as [[t0 w0] [[fA pA] | e |]];
      cbn [trace world outcome fst snd] in *.
    2, 3: repeat split; [discriminate | apply destroy_quiet; assumption].
    pose proof (A fuel fuel (Some (Int n)) fA pA w0) as A0.
    destruct (runLoop_observed fuel agentType numAgents numTxs assets (Some (Int n))
                fA pA fuel 0 w0) as (_ & _ & _ & _ & I3 & _).
    destruct (runLoop fuel fuel agentType numAgents numTxs assets (Some (Int n))
                      fA pA 0 w0) as [[t1 w1] [[] | e |]];
      cbn [trace world outcome fst snd] in *.
    + destruct (A0 eq_refl) as (m & Em & _). injection Em as Em.
      exfalso. clear - Hn Em. lia.
    + repeat split; [discriminate |].
      rewrite filter_app, (destroy_quiet t0 Q0), I3. reflexivity.
    + repeat split; [discriminate |].
      rewrite filter_app, (destroy_quiet t0 Q0), I3. reflexivity.
  - intros n gas fuel kind a fA pA w Hn reliable -> -> d.
    apply (runLoop_diverges reliable gas kind a numTxs assets n fA pA Hn fuel 0 w).
    reflexivity.
Qed.

(** Loop count -2, all going well: after five turns five iterations have run
    and the loop is still pending; [run] has not torn the session down. *)
Lemma C10_negative_loops_witness :
  (outcome (@runLoop unit (steady 0 0 0 0) 1 5 "payment" (Int 2) (Int 5) [Int 0]
              (Some (Int (-2))) (Address 7) (Address 32) 0 tt) = Pending /\
   completed_runs
     (trace (@runLoop unit (steady 0 0 0 0) 1 5 "payment" (Int 2) (Int 5) [Int 0]
               (Some (Int (-2))) (Address 7) (Address 32) 0 tt))
   = [0; 1; 2; 3; 4]) /\
  filter is_destroy
    (trace (@run unit (steady 0 0 0 0) 5 [] "payment" (Int 2) (Int 5) (Int 1) [Int 0]
              "rollup" "host" (Int 1) (Some (Int (-2))) tt)) = [] /\
  exists n : nat,
    Some (Int 2) = Some (Int (Z.of_nat n)) /\
    completed_runs
      (trace (@runLoop unit (steady 0 0 0 0) 1 5 "payment" (Int 2) (Int 5) [Int 0]
                (Some (Int 2)) (Address 7) (Address 32) 0 tt)) = indices n /\
    List.length
      (filter is_batch
         (trace (@runLoop unit (steady 0 0 0 0) 1 5 "payment" (Int 2) (Int 5) [Int 0]
                   (Some (Int 2)) (Address 7) (Address 32) 0 tt))) = n.
Proof.
  pose proof (C10_negative_loops unit (steady 0 0 0 0) [] "payment" (Int 2) (Int 5) (Int 1)
                [Int 0] "rollup" "host" (Int 1)) as (A & B & C).
  split; [| split].
  - apply (C (-2) 0%nat 5%nat payment 2 (Address 7) (Address 32) tt);
      [reflexivity | apply steady_reliable | reflexivity | reflexivity].
  - apply (B (-2) 5%nat tt). reflexivity.
  - apply (A 1%nat 5%nat (Some (Int 2)) (Address 7) (Address 32) tt). reflexivity.
Defined.

(** * Further properties of the program *)

(** ** More on the estimate *)

Section EstimateMore.
Context {W : Type} `{Ledger W}.

Lemma agentTypeOf_inj (k1 k2 : WorkloadKind) : agentTypeOf k1 = agentTypeOf k2 -> k1 = k2.
Proof. destruct k1, k2; cbn; intros E; try reflexivity; discriminate. Qed.

(** The estimate always settles, and calls nothing but an agent's cost
    estimate, once at most. *)
Lemma estimate_footprint agentType numAgents numTransfers assetIds loops (w : W) :
  let r := getAgentRequiredFunding agentType numAgents numTransfers assetIds loops w in
  outcome r <> Pending /\
  forallb is_cost (trace r) = true /\
  (List.length (trace r) <= 1)%nat.
Proof.
  unfold getAgentRequiredFunding, requiredValue.
  destruct (String.eqb agentType "uniswap");
    [| destruct (String.eqb agentType "element");
       [| destruct (String.eqb agentType "payment")]];
    unfold bind, call, BigInt, ret, throw;
    repeat match goal with
           | |- context [UniswapAgent_getRequiredFunding ?n ?w] =>
             destruct (UniswapAgent_getRequiredFunding n w) as [[? | ?] ?]
           | |- context [PaymentAgent_getRequiredFunding ?a ?n ?w] =>
             destruct (PaymentAgent_getRequiredFunding a n w) as [[? | ?] ?]
           end;
    destruct numAgents; destruct loops as [[] |];
    cbn [trace outcome fst snd app List.length forallb is_cost andb];
    repeat split; try discriminate; auto.
Qed.

End EstimateMore.

Section EstimateByKind.
Context {W : Type} `{Ledger W}.
Variables (numAgents numTransfers : number) (assetIds : list number) (loops : option number).

Local Abbreviation loopCount := (match loops with Some l => l | None => Int 10 end).

(** What the estimate settles to once the switch has its two summands: the
    agent count is converted first, the loop count second. *)
Local Abbreviation settled value :=
  (match numAgents with
   | NonInt a => Thrown (notAnInteger a)
   | Int n =>
     match loopCount with
     | NonInt b => Thrown (notAnInteger b)
     | Int l => Ret {| fundingThreshold := value n;
                       toFund := Z.quot (value n * (100 + 5 * l)) 100 |}
     end
   end).

Lemma estimate_element (w : W) :
  getAgentRequiredFunding "element" numAgents numTransfers assetIds loops w
  = ([], w,
     settled (fun n => (ethTransferEstimate + ElementAgent_getRequiredFunding) * n
                       + ManualPaymentAgent_getRequiredFunding)).
Proof.
  unfold getAgentRequiredFunding, requiredValue.
  cbn [String.eqb Ascii.eqb Bool.eqb andb].
  unfold bind, BigInt, ret, throw.
  destruct numAgents; [| reflexivity]. destruct loopCount; reflexivity.
Qed.

Lemma estimate_payment (w : W) :
  getAgentRequiredFunding "payment" numAgents numTransfers assetIds loops w
  = ([EvPaymentRequiredFunding (hd_error assetIds) numTransfers
        (fst (PaymentAgent_getRequiredFunding (hd_error assetIds) numTransfers w))],
     snd (PaymentAgent_getRequiredFunding (hd_error assetIds) numTransfers w),
     match fst (PaymentAgent_getRequiredFunding (hd_error assetIds) numTransfers w) with
     | inl e => Thrown e
     | inr c => settled (fun n => (ethTransferEstimate + c) * n)
     end).
Proof.
  unfold getAgentRequiredFunding, requiredValue.
  cbn [String.eqb Ascii.eqb Bool.eqb andb].
  unfold bind, call, BigInt, ret, throw.
  destruct (PaymentAgent_getRequiredFunding (hd_error assetIds) numTransfers w)
    as [[e | c] w1]; [reflexivity |].
  cbn [fst snd]. destruct numAgents; [| reflexivity]. destruct loopCount; reflexivity.
Qed.

Lemma estimate_uniswap (w : W) :
  getAgentRequiredFunding "uniswap" numAgents numTransfers assetIds loops w
  = ([EvUniswapRequiredFunding numTransfers
        (fst (UniswapAgent_getRequiredFunding numTransfers w))],
     snd (UniswapAgent_getRequiredFunding numTransfers w),
     match fst (UniswapAgent_getRequiredFunding numTransfers w) with
     | inl e => Thrown e
     | inr c => settled (fun n => (ethTransferEstimate + c) * n)
     end).
Proof.
  unfold getAgentRequiredFunding, requiredValue.
  cbn [String.eqb Ascii.eqb Bool.eqb andb].
  unfold bind, call, BigInt, ret, throw.
  destruct (UniswapAgent_getRequiredFunding numTransfers w) as [[e | c] w1];
    [reflexivity |].
  cbn [fst snd]. destruct numAgents; [| reflexivity]. destruct loopCount; reflexivity.
Qed.

End EstimateByKind.

(** X1: two estimates made in the same world with loop counts [l1 <= l2] have
    the same threshold, and the amount to fund grows with the loop count when
    the threshold is not negative (and shrinks when it is not positive). *)
Theorem X1_buffer_monotone :
  forall (W : Type) (L : Ledger W) (agentType : string) (numAgents numTransfers : number)
         (assetIds : list number) (l1 l2 : Z) (w : W) (s1 s2 : FundingSpec),
    l1 <= l2 ->
    outcome (getAgentRequiredFunding agentType numAgents numTransfers assetIds
                                     (Some (Int l1)) w) = Ret s1 ->
    outcome (getAgentRequiredFunding agentType numAgents numTransfers assetIds
                                     (Some (Int l2)) w) = Ret s2 ->
    fundingThreshold s1 = fundingThreshold s2 /\
    (0 <= fundingThreshold s1 -> toFund s1 <= toFund s2) /\
    (fundingThreshold s1 <= 0 -> toFund s2 <= toFund s1).
Proof.
  intros W L agentType numAgents numTransfers assetIds l1 l2 w s1 s2 Hl E1 E2.
  destruct (getAgentRequiredFunding_inv _ _ _ _ _ _ _ E1)
    as (k1 & n1 & c1 & x1 & Ek1 & En1 & Ec1 & El1 & ->).
  destruct (getAgentRequiredFunding_inv _ _ _ _ _ _ _ E2)
    as (k2 & n2 & c2 & x2 & Ek2 & En2 & Ec2 & El2 & ->).
  rewrite Ek1 in Ek2. apply agentTypeOf_inj in Ek2. subst k2.
  rewrite En1 in En2. injection En2 as <-.
  rewrite Ec1 in Ec2. injection Ec2 as <-.
  injection El1 as <-. injection El2 as <-.
  cbn [fundingThreshold toFund].
  set (v := spec_rawValue k1 c1 ManualPaymentAgent_getRequiredFunding n1).
  clearbody v. clear - Hl.
  split; [reflexivity |]. split; intros Hv; apply Z.quot_le_mono; nia.
Qed.

(** One loop against three, for two payment agents. *)
Lemma X1_buffer_monotone_witness :
  176400000000000 <= 193200000000000.
Proof.
  apply (proj1 (proj2
           (X1_buffer_monotone Script (scripted 0 0 0) "payment" (Int 2) (Int 5) [Int 0]
              1 3 (script [] [] [] [])
              {| fundingThreshold := 168000000000000; toFund := 176400000000000 |}
              {| fundingThreshold := 168000000000000; toFund := 193200000000000 |}
              ltac:(discriminate) eq_refl eq_refl))).
  discriminate.
Defined.

(** X3: for the payment kind the estimate asks the payment agent once, for the
    first asset id only ([undefined] when there is none), and a rejection of
    that call is what the estimate throws; for the uniswap kind it asks the
    uniswap agent once and does not look at the asset ids at all. *)
Theorem X3_estimate_one_cost_call :
  forall (W : Type) (L : Ledger W) (numAgents numTransfers : number)
         (assetIds : list number) (loops : option number) (w : W),
    (trace (getAgentRequiredFunding "payment" numAgents numTransfers assetIds loops w)
     = [EvPaymentRequiredFunding (hd_error assetIds) numTransfers
          (fst (PaymentAgent_getRequiredFunding (hd_error assetIds) numTransfers w))]) /\
    (forall e,
        fst (PaymentAgent_getRequiredFunding (hd_error assetIds) numTransfers w) = inl e ->
        outcome (getAgentRequiredFunding "payment" numAgents numTransfers assetIds loops w)
        = Thrown e) /\
    (forall assetIds',
        hd_error assetIds' = hd_error assetIds ->
        getAgentRequiredFunding "payment" numAgents numTransfers assetIds' loops w
        = getAgentRequiredFunding "payment" numAgents numTransfers assetIds loops w) /\
    (trace (getAgentRequiredFunding "uniswap" numAgents numTransfers assetIds loops w)
     = [EvUniswapRequiredFunding numTransfers
          (fst (UniswapAgent_getRequiredFunding numTransfers w))]) /\
    (forall e,
        fst (UniswapAgent_getRequiredFunding numTransfers w) = inl e ->
        outcome (getAgentRequiredFunding "uniswap" numAgents numTransfers assetIds loops w)
        = Thrown e) /\
    (forall assetIds',
        getAgentRequiredFunding "uniswap" numAgents numTransfers assetIds' loops w
        = getAgentRequiredFunding "uniswap" numAgents numTransfers assetIds loops w).
Proof.
  intros W L numAgents numTransfers assetIds loops w.
  split; [| split; [| split; [| split; [| split]]]].
  - rewrite estimate_payment. reflexivity.
  - intros e Ee. rewrite estimate_payment, Ee. reflexivity.
  - intros assetIds' Eh. rewrite !estimate_payment, Eh. reflexivity.
  - rewrite estimate_uniswap. reflexivity.
  - intros e Ee. rewrite estimate_uniswap, Ee. reflexivity.
  - intros assetIds'. rewrite !estimate_uniswap. reflexivity.
Qed.

(** No asset id at all, and asset ids that differ after the first. *)
Lemma X3_estimate_one_cost_call_witness :
  trace (@getAgentRequiredFunding Script (scripted 7 0 0)
           "payment" (Int 2) (Int 5) [] (Some (Int 1)) (script [] [] [] []))
  = [EvPaymentRequiredFunding None (Int 5) (inr 7)] /\
  @getAgentRequiredFunding Script (scripted 7 0 0)
    "payment" (Int 2) (Int 5) [Int 0; Int 3] (Some (Int 1)) (script [] [] [] [])
  = @getAgentRequiredFunding Script (scripted 7 0 0)
      "payment" (Int 2) (Int 5) [Int 0; Int 1; Int 2] (Some (Int 1)) (script [] [] [] []).
Proof.
  split.
  - apply (X3_estimate_one_cost_call Script (scripted 7 0 0) (Int 2) (Int 5) []
             (Some (Int 1)) (script [] [] [] [])).
  - apply (proj1 (proj2 (proj2
             (X3_estimate_one_cost_call Script (scripted 7 0 0) (Int 2) (Int 5)
                [Int 0; Int 1; Int 2] (Some (Int 1)) (script [] [] [] []))))).
    reflexivity.
Defined.

(** X4: for each of the three kinds, once the agent's cost estimate has
    resolved, an agent count that is not an integer makes the estimate throw
    the [RangeError] that names the agent count, whatever the loop count is,
    also when the loop count is not an integer either: the agent count is
    converted first.  With an integer agent count, a loop count that is not an
    integer makes it throw the [RangeError] that names the loop count.  For
    the payment and uniswap kinds the agent has been asked for its cost by
    then. *)
Theorem X4_estimate_range_error :
  forall (W : Type) (L : Ledger W) (k : WorkloadKind) (numTransfers : number)
         (assetIds : list number) (w : W) (cost : Z),
    reportedCost k numTransfers assetIds w = inr cost ->
    (forall a loops,
        outcome (getAgentRequiredFunding (agentTypeOf k) (NonInt a) numTransfers assetIds
                                         loops w)
        = Thrown (String.append "The number "
                    (String.append a
                       " cannot be converted to a BigInt because it is not an integer"))) /\
    (forall n b,
        outcome (getAgentRequiredFunding (agentTypeOf k) (Int n) numTransfers assetIds
                                         (Some (NonInt b)) w)
        = Thrown (String.append "The number "
                    (String.append b
                       " cannot be converted to a BigInt because it is not an integer"))) /\
    (k <> elementVault ->
     forall numAgents loops,
       filter is_cost
         (trace (getAgentRequiredFunding (agentTypeOf k) numAgents numTransfers assetIds
                                         loops w))
       = match k with
         | payment => [EvPaymentRequiredFunding (hd_error assetIds) numTransfers (inr cost)]
         | _ => [EvUniswapRequiredFunding numTransfers (inr cost)]
         end).
Proof.
  intros W L k numTransfers assetIds w cost Ec.
  destruct k; cbn [agentTypeOf reportedCost] in *.
  - repeat split; intros; rewrite estimate_payment, ?Ec; reflexivity.
  - repeat split; intros; rewrite estimate_uniswap, ?Ec; reflexivity.
  - repeat split; intros; try rewrite estimate_element; try reflexivity.
    now elim H.
Qed.

(** Two and a half agents and half a loop: the error names the agents. *)
Lemma X4_estimate_range_error_witness :
  outcome (@getAgentRequiredFunding Script (scripted 7 0 0)
             "payment" (NonInt "2.5") (Int 5) [Int 0] (Some (NonInt "0.5"))
             (script [] [] [] []))
  = Thrown "The number 2.5 cannot be converted to a BigInt because it is not an integer".
Proof.
  apply (proj1 (X4_estimate_range_error Script (scripted 7 0 0) payment (Int 5) [Int 0]
                  (script [] [] [] []) 7 eq_refl)).
Defined.

(** ** More on the funding loop *)


Section FundingMore.
Context {W : Type} `{Ledger W}.
Variables (fundingAddress processAddress : EthAddress) (toFund fundingThreshold : Z).

Local Abbreviation loop fuel :=
  (fundingLoop fuel fundingAddress processAddress toFund fundingThreshold).




End FundingMore.


(** ** More on the iterations and on [run] *)

Section IterationMore.
Context {W : Type} `{Ledger W}.
Variables (gas : nat) (agentType : string) (numAgents numTxsPerAgent : number)
          (assets : list number) (loops : option number)
          (fundingAddress processAddress : EthAddress).

Local Abbreviation estimate :=
  (getAgentRequiredFunding agentType numAgents numTxsPerAgent assets loops).
Local Abbreviation funding spec :=
  (fundingLoop gas fundingAddress processAddress (toFund spec) (fundingThreshold spec)).
Local Abbreviation body :=
  (iteration gas agentType numAgents numTxsPerAgent assets loops
             fundingAddress processAddress).

(** An iteration that has run its batch has had its estimate return and its
    funding loop return before. *)
Lemma iteration_batch (k : Z) (w : W) :
  filter is_batch (trace (body k w)) <> [] ->
  exists spec t1 w1 t2 w2 res,
    estimate w = (t1, w1, Ret spec) /\
    funding spec w1 = (t2, w2, Ret tt) /\
    trace (body k w)
    = EvLog (LogStartingRun k) :: t1 ++ t2
        ++ EvLog (LogStartingRun k) :: EvAgentManagerRun (newAgentManager agentType) res
        :: match res with inl _ => [] | inr _ => [EvLog (LogRunCompleted k)] end.
Proof.
  rewrite iteration_run.
  pose proof (estimate_quiet agentType numAgents numTxsPerAgent assets loops w) as Q1.
  destruct (estimate w) as [[t1 w1] [spec | e |]]; cbn [trace fst] in *.
  2, 3: intros Hb; exfalso; apply Hb; apply (batches_quiet (_ :: _)); exact Q1.
  pose proof (fundingLoop_quiet fundingAddress processAddress (toFund spec)
                (fundingThreshold spec) gas w1) as Q2.
  destruct (funding spec w1) as [[t2 w2] [[] | e |]] eqn:Ef; cbn [trace fst] in *.
  2, 3: intros Hb; exfalso; apply Hb; apply (batches_quiet (_ :: _));
    apply (forallb_quiet_app (_ :: _)); assumption.
  destruct (agentManager_run (newAgentManager agentType) w2) as [res w3].
  intros _. exists spec, t1, w1, t2, w2, res. cbn [trace fst].
  split; [reflexivity |]. split; [exact Ef | reflexivity].
Qed.

End IterationMore.

(** X6: an iteration runs its batch only after its estimate has returned and
    its funding loop has returned for that estimate, that is, right after a
    balance poll that met the estimated threshold or right after a transfer of
    the estimated amount whose receipt reported success; the batch is run by
    the [ElementAgentManager] when the agent type is ['element'] and by the
    [AgentManager] of the agent type otherwise, and nothing follows it but the
    completion log line. *)
Theorem X6_batch_after_funding :
  forall (W : Type) (L : Ledger W) (gas : nat) (agentType : string)
         (numAgents numTxsPerAgent : number) (assets : list number) (loops : option number)
         (fundingAddress processAddress : EthAddress) (k : Z) (w : W),
    let r := iteration gas agentType numAgents numTxsPerAgent assets loops
                       fundingAddress processAddress k w in
    filter is_batch (trace r) <> [] ->
    exists spec t1 t2 manager res,
      outcome (getAgentRequiredFunding agentType numAgents numTxsPerAgent assets loops w)
      = Ret spec /\
      trace r
      = EvLog (LogStartingRun k) :: t1 ++ t2
          ++ EvLog (LogStartingRun k) :: EvAgentManagerRun manager res
          :: match res with inl _ => [] | inr _ => [EvLog (LogRunCompleted k)] end /\
      (agentType = "element" -> manager = ElementAgentManager) /\
      (agentType <> "element" -> manager = AgentManager agentType) /\
      ((exists pre b,
           t2 = pre ++ [EvGetPublicBalance 0 processAddress (inr b)]
           /\ fundingThreshold spec <= b) \/
       (exists pre b tx,
           t2 = pre ++ [EvGetPublicBalance 0 processAddress (inr b);
                        EvLog (LogFundingProcessAddress processAddress (toFund spec));
                        EvTransfer (toFund spec) fundingAddress processAddress (inr tx);
                        EvGetTransactionReceipt tx (inr {| status := true |})]
           /\ b < fundingThreshold spec)).
Proof.
  intros W L gas agentType numAgents numTxs assets loops fA pA k w r Hb.
  destruct (iteration_batch gas agentType numAgents numTxs assets loops fA pA k w Hb)
    as (spec & t1 & w1 & t2 & w2 & res & Ee & Ef & Et).
  exists spec, t1, t2, (newAgentManager agentType), res.
  split; [rewrite Ee; reflexivity |]. split; [exact Et |].
  split; [| split].
  - intros ->. reflexivity.
  - intros Hne. unfold newAgentManager.
    apply String.eqb_neq in Hne. rewrite Hne. reflexivity.
  - pose proof (fundingLoop_exit fA pA (toFund spec) (fundingThreshold spec) gas w1) as Hx.
    rewrite Ef in Hx. apply Hx. reflexivity.
Qed.

(** A balance below the estimate, a top-up, the batch of the payment agents. *)
Lemma X6_batch_after_funding_witness :
  exists spec t1 t2 manager res,
    outcome (@getAgentRequiredFunding Script (scripted 0 0 0) "payment" (Int 2) (Int 5)
               [Int 0] (Some (Int 1)) (script [] [] [] [])) = Ret spec /\
    trace (@iteration Script (scripted 0 0 0) 1 "payment" (Int 2) (Int 5) [Int 0]
             (Some (Int 1)) (Address 7) (Address 32) 0 (script [] [] [] []))
    = EvLog (LogStartingRun 0) :: t1 ++ t2
        ++ EvLog (LogStartingRun 0) :: EvAgentManagerRun manager res
        :: match res with inl _ => [] | inr _ => [EvLog (LogRunCompleted 0)] end /\
    ("payment" = "element" -> manager = ElementAgentManager) /\
    ("payment" <> "element" -> manager = AgentManager "payment") /\
    ((exists pre b,
         t2 = pre ++ [EvGetPublicBalance 0 (Address 32) (inr b)]
         /\ fundingThreshold spec <= b) \/
     (exists pre b tx,
         t2 = pre ++ [EvGetPublicBalance 0 (Address 32) (inr b);
                      EvLog (LogFundingProcessAddress (Address 32) (toFund spec));
                      EvTransfer (toFund spec) (Address 7) (Address 32) (inr tx);
                      EvGetTransactionReceipt tx (inr {| status := true |})]
         /\ b < fundingThreshold spec)).
Proof.
  apply (X6_batch_after_funding Script (scripted 0 0 0) 1 "payment" (Int 2) (Int 5)
           [Int 0] (Some (Int 1)) (Address 7) (Address 32) 0 (script [] [] [] [])).
  discriminate.
Defined.

Lemma cost_not_setup (t : list Event) :
  forallb is_cost t = true -> forallb (fun e => negb (is_setup e)) t = true.
Proof.
  induction t as [| e t IH]; [reflexivity |].
  destruct e as [[] | | | | | | | | | | | | | | |]; cbn; try discriminate; exact IH.
Qed.

Lemma setup_inert (t : list Event) :
  forallb is_setup t = true ->
  filter is_poll t = [] /\ filter is_transfer t = [] /\ filter is_batch t = [] /\
  filter is_destroy t = [] /\ filter is_cost t = [].
Proof.
  induction t as [| e t IH]; [repeat split |].
  destruct e as [[] | | | | | | | | | | | | | | |]; cbn; try discriminate; exact IH.
Qed.

Lemma cost_inert (t : list Event) :
  forallb is_cost t = true ->
  filter is_poll t = [] /\ filter is_transfer t = [] /\ filter is_batch t = [] /\
  filter is_destroy t = [].
Proof.
  induction t as [| e t IH]; [repeat split |].
  destruct e as [[] | | | | | | | | | | | | | | |]; cbn; try discriminate; exact IH.
Qed.

Section SetupMore.
Context {W : Type} `{Ledger W}.
Variables (fundingPrivateKey : Buffer) (rollupHost : string) (confs : number).

Local Abbreviation prepare := (setup fundingPrivateKey rollupHost confs).

(** [initSdk] stops at the first of its three calls that rejects. *)
Lemma initSdk_run (w : W) :
  initSdk rollupHost confs w =
  let '(r1, w1) := createAztecSdk rollupHost confs w in
  match r1 with
  | inl e => ([EvCreateAztecSdk rollupHost confs (inl e)], w1, Thrown e)
  | inr _ =>
    let '(r2, w2) := sdk_run w1 in
    match r2 with
    | inl e =>
      ([EvCreateAztecSdk rollupHost confs (inr tt); EvSdkRun (inl e)], w2, Thrown e)
    | inr _ =>
      let '(r3, w3) := sdk_awaitSynchronised w2 in
      ([EvCreateAztecSdk rollupHost confs (inr tt); EvSdkRun (inr tt);
        EvAwaitSynchronised r3], w3,
       match r3 with inl e => Thrown e | inr _ => Ret tt end)
    end
  end.
Proof.
  unfold initSdk, bind, call.
  destruct (createAztecSdk rollupHost confs w) as [[e | []] w1]; [reflexivity |].
  destruct (sdk_run w1) as [[e | []] w2]; [reflexivity |].
  destruct (sdk_awaitSynchronised w2) as [[e | []] w3]; reflexivity.
Qed.

(** When [initSdk] throws, [setup] stops there. *)
Lemma setup_initSdk_thrown (w : W) e :
  outcome (initSdk rollupHost confs w) = Thrown e ->
  prepare w
  = (trace (initSdk rollupHost confs w), world (initSdk rollupHost confs w), Thrown e).
Proof.
  intros Ho. unfold setup. unfold bind at 1.
  destruct (initSdk rollupHost confs w) as [[t w1] [[] | e' |]]; try discriminate.
  cbn in Ho. injection Ho as ->. reflexivity.
Qed.

Lemma setup_only (w : W) :
  forallb is_setup (trace (prepare w)) = true /\ outcome (prepare w) <> Pending.
Proof.
  unfold setup, initSdk, bind, call, console_log, emit, ret.
  destruct (createAztecSdk rollupHost confs w) as [[? | ?] w1];
    [split; [reflexivity | discriminate] |].
  destruct (sdk_run w1) as [[? | ?] w2]; [split; [reflexivity | discriminate] |].
  destruct (sdk_awaitSynchronised w2) as [[? | ?] w3];
    [split; [reflexivity | discriminate] |].
  destruct (negb (Nat.eqb (List.length fundingPrivateKey) 0)).
  - destruct (provider_addAccount fundingPrivateKey w3) as [[? | fA] w4];
      [split; [reflexivity | discriminate] |].
    destruct (sdk_getPublicBalanceAv 0 fA w4) as [[? | ?] w5];
      [split; [reflexivity | discriminate] |].
    destruct (randomBytes 32 w5) as [[? | key] w6];
      [split; [reflexivity | discriminate] |].
    destruct (provider_addAccount key w6) as [[? | ?] w7];
      split; first [reflexivity | discriminate].
  - destruct (ethereumRpc_getAccounts w3) as [[? | l] w4];
      [split; [reflexivity | discriminate] |].
    destruct (sdk_getPublicBalanceAv 0 (hd AddressUndefined l) w4) as [[? | ?] w5];
      [split; [reflexivity | discriminate] |].
    destruct (randomBytes 32 w5) as [[? | key] w6];
      [split; [reflexivity | discriminate] |].
    destruct (provider_addAccount key w6) as [[? | ?] w7];
      split; first [reflexivity | discriminate].
Qed.

(** The two addresses [setup] returns, by the calls that gave them. *)
Lemma setup_addresses (w w' : W) t fA pA :
  prepare w = (t, w', Ret (fA, pA)) ->
  (fundingPrivateKey <> [] ->
   In (EvAddAccount fundingPrivateKey (inr fA)) t /\ filter is_getAccounts t = []) /\
  (fundingPrivateKey = [] ->
   exists accounts,
     In (EvGetAccounts (inr accounts)) t /\ fA = hd AddressUndefined accounts) /\
  (exists b, In (EvGetPublicBalanceAv 0 fA (inr b)) t) /\
  (exists pk, In (EvRandomBytes 32 (inr pk)) t /\ In (EvAddAccount pk (inr pA)) t).
Proof.
  unfold setup, initSdk, bind, call, console_log, emit, ret.
  destruct (createAztecSdk rollupHost confs w) as [[? | ?] w1]; [discriminate |].
  destruct (sdk_run w1) as [[? | ?] w2]; [discriminate |].
  destruct (sdk_awaitSynchronised w2) as [[? | ?] w3]; [discriminate |].
  destruct fundingPrivateKey as [| c key0] eqn:Ek; cbn [List.length Nat.eqb negb].
  - destruct (ethereumRpc_getAccounts w3) as [[? | l] w4]; [discriminate |].
    destruct (sdk_getPublicBalanceAv 0 (hd AddressUndefined l) w4) as [[? | b] w5];
      [discriminate |].
    destruct (randomBytes 32 w5) as [[? | pk] w6]; [discriminate |].
    destruct (provider_addAccount pk w6) as [[? | a] w7]; [discriminate |].
    intros E. injection E as <- <- <- <-. cbn [app].
    split; [intros Hk; now elim Hk |].
    split; [intros _; exists l; cbn [In]; auto 12 |].
    split; [exists b | exists pk]; cbn [In]; auto 12.
  - destruct (provider_addAccount (c :: key0) w3) as [[? | a0] w4]; [discriminate |].
    destruct (sdk_getPublicBalanceAv 0 a0 w4) as [[? | b] w5]; [discriminate |].
    destruct (randomBytes 32 w5) as [[? | pk] w6]; [discriminate |].
    destruct (provider_addAccount pk w6) as [[? | a] w7]; [discriminate |].
    intros E. injection E as <- <- <- <-. cbn [app].
    split; [intros _; split; [cbn [In]; auto 12 | reflexivity] |].
    split; [discriminate |].
    split; [exists b | exists pk]; cbn [In]; auto 12.
Qed.

Lemma setup_head (w : W) :
  exists rest,
    trace (prepare w)
    = EvCreateAztecSdk rollupHost confs (fst (createAztecSdk rollupHost confs w)) :: rest.
Proof.
  assert (exists rest,
             trace (initSdk rollupHost confs w)
             = EvCreateAztecSdk rollupHost confs (fst (createAztecSdk rollupHost confs w))
                 :: rest /\ outcome (initSdk rollupHost confs w) <> Pending)
    as (rest & Eh & Hp).
  { rewrite initSdk_run.
    destruct (createAztecSdk rollupHost confs w) as [[e | []] w1];
      [eexists; split; [reflexivity | discriminate] |].
    destruct (sdk_run w1) as [[e | []] w2];
      [eexists; split; [reflexivity | discriminate] |].
    destruct (sdk_awaitSynchronised w2) as [[e | []] w3];
      eexists; split; first [reflexivity | discriminate]. }
  destruct (initSdk rollupHost confs w) as [[t1 w1] [[] | e |]] eqn:Ei;
    cbn [trace outcome fst snd] in *.
  - unfold setup. rewrite (bind_Ret _ _ w t1 w1 tt Ei). cbn [trace fst].
    rewrite Eh. eexists; reflexivity.
  - rewrite (setup_initSdk_thrown w e) by (rewrite Ei; reflexivity).
    rewrite Ei. cbn [trace fst]. eauto.
  - now elim Hp.
Qed.

End SetupMore.

Section LaterEvents.
Context {W : Type} `{Ledger W}.

Local Abbreviation later := (fun e : Event => negb (is_setup e)).

Lemma fundingLoop_later fuel fA pA toFund threshold (w : W) :
  forallb later (trace (fundingLoop fuel fA pA toFund threshold w)) = true.
Proof.
  apply (fundingLoop_ind fA pA toFund threshold (fun t o => forallb later t = true));
    try reflexivity.
  - intros b t Hb S. inversion S; subst; reflexivity.
  - intros b t msg rest o Hb S IH. inversion S; subst; cbn; exact IH.
Qed.

Lemma iteration_later gas agentType numAgents numTxsPerAgent assets loops fA pA k (w : W) :
  forallb later (trace (iteration gas agentType numAgents numTxsPerAgent assets loops
                                  fA pA k w)) = true.
Proof.
  rewrite iteration_run.
  destruct (estimate_footprint agentType numAgents numTxsPerAgent assets loops w)
    as (_ & Q1 & _).
  apply cost_not_setup in Q1.
  destruct (getAgentRequiredFunding _ _ _ _ _ w) as [[t1 w1] [spec | e |]];
    cbn [trace fst] in *; try exact Q1.
  pose proof (fundingLoop_later gas fA pA (toFund spec) (fundingThreshold spec) w1) as Q2.
  destruct (fundingLoop _ _ _ _ _ w1) as [[t2 w2] [[] | e |]]; cbn [trace fst] in *.
  - destruct (agentManager_run _ w2) as [[e | []] w3]; cbn [trace fst forallb];
      rewrite !forallb_app, Q1, Q2; reflexivity.
  - cbn [forallb]. rewrite forallb_app, Q1, Q2. reflexivity.
  - cbn [forallb]. rewrite forallb_app, Q1, Q2. reflexivity.
Qed.

Lemma runLoop_later gas agentType numAgents numTxsPerAgent assets loops fA pA fuel :
  forall k (w : W),
    forallb later (trace (runLoop gas fuel agentType numAgents numTxsPerAgent assets loops
                                  fA pA k w)) = true.
Proof.
  induction fuel as [| fuel IH]; intros k w; [reflexivity |].
  rewrite runLoop_step. destruct (strict_neq k loops); [| reflexivity].
  pose proof (iteration_later gas agentType numAgents numTxsPerAgent assets loops
                fA pA k w) as Q.
  destruct (iteration _ _ _ _ _ _ _ _ k w) as [[t1 w1] [[] | e |]];
    cbn [trace fst] in *; try exact Q.
  rewrite forallb_app, Q. apply IH.
Qed.

Lemma refund_later fA pA (w : W) :
  forallb later (trace (refund fA pA w)) = true /\
  filter is_cost (trace (refund fA pA w)) = [].
Proof.
  rewrite refund_run.
  destruct (sdk_getPublicBalance 0 pA w) as [[e | b] w1]; [split; reflexivity |].
  destruct (0 <? b - fee); [| split; reflexivity].
  destruct (asset_transfer _ _ _ w1) as [[e | tx] w2]; [split; reflexivity |].
  destruct (sdk_getTransactionReceipt tx w2) as [[e | rc] w3]; split; reflexivity.
Qed.

Variables (fuel : nat) (fundingPrivateKey : Buffer) (agentType : string)
          (numAgents numTxsPerAgent numConcurrentTransfers : number)
          (assets : list number) (rollupHost host : string) (confs : number)
          (loops : option number).

Local Abbreviation main :=
  (run fuel fundingPrivateKey agentType numAgents numTxsPerAgent numConcurrentTransfers
       assets rollupHost host confs loops).
Local Abbreviation prefix :=
  (runBeforeRefund fuel fundingPrivateKey agentType numAgents numTxsPerAgent
                   numConcurrentTransfers assets rollupHost host confs loops).

(** When the loop does not return, [run] ends there. *)
Lemma run_cut (w : W) : outcome (prefix w) <> Ret tt -> main w = prefix w.
Proof.
  rewrite run_run, runBeforeRefund_run.
  destruct (setup fundingPrivateKey rollupHost confs w) as [[t0 w0] [[fA pA] | e |]];
    try reflexivity.
  destruct (runLoop fuel fuel agentType numAgents numTxsPerAgent assets loops fA pA 0 w0)
    as [[t1 w1] [[] | e |]]; try reflexivity.
  intros Ho. now elim Ho.
Qed.

Lemma prefix_no_destroy (w : W) : filter is_destroy (trace (prefix w)) = [].
Proof.
  rewrite runBeforeRefund_run.
  pose proof (setup_quiet fundingPrivateKey rollupHost confs w) as Q0.
  destruct (setup fundingPrivateKey rollupHost confs w) as [[t0 w0] [[fA pA] | e |]];
    cbn [trace fst] in *; try (apply destroy_quiet; exact Q0).
  destruct (runLoop_observed fuel agentType numAgents numTxsPerAgent assets loops
              fA pA fuel 0 w0) as (_ & _ & _ & _ & I3 & _).
  destruct (runLoop fuel fuel agentType numAgents numTxsPerAgent assets loops fA pA 0 w0)
    as [[t1 w1] o]. cbn [trace fst] in *.
  rewrite filter_app, (destroy_quiet t0 Q0), I3. reflexivity.
Qed.

(** The calls of the setup come first and never again. *)
Lemma run_setup_first (w : W) :
  exists rest,
    trace (main w) = trace (setup fundingPrivateKey rollupHost confs w) ++ rest /\
    forallb later rest = true.
Proof.
  rewrite run_run.
  destruct (setup fundingPrivateKey rollupHost confs w) as [[t0 w0] [[fA pA] | e |]];
    cbn [trace fst].
  2, 3: exists []; rewrite app_nil_r; split; reflexivity.
  pose proof (runLoop_later fuel agentType numAgents numTxsPerAgent assets loops fA pA
                fuel 0 w0) as Q1.
  destruct (runLoop fuel fuel agentType numAgents numTxsPerAgent assets loops fA pA 0 w0)
    as [[t1 w1] [[] | e |]]; cbn [trace fst] in *.
  2, 3: exists t1; split; [reflexivity | exact Q1].
  destruct (refund_later fA pA w1) as [Q2 _].
  destruct (refund fA pA w1) as [[t2 w2] [[] | e |]]; cbn [trace fst] in *.
  - destruct (sdk_destroy w2) as [[e | []] w3]; cbn [trace fst];
      eexists; (split; [reflexivity |]); rewrite !forallb_app, Q1, Q2; reflexivity.
  - eexists; (split; [reflexivity |]); rewrite !forallb_app, Q1, Q2; reflexivity.
  - eexists; (split; [reflexivity |]); rewrite !forallb_app, Q1, Q2; reflexivity.
Qed.

End LaterEvents.

(** The loop returns only for a loop count that is an integer. *)
Lemma prefix_returns_only {W : Type} `{Ledger W} fuel key agentType numAgents numTxsPerAgent
    numConcurrentTransfers assets rollupHost host confs loops (w : W) :
  outcome (runBeforeRefund fuel key agentType numAgents numTxsPerAgent
             numConcurrentTransfers assets rollupHost host confs loops w) = Ret tt ->
  exists n : nat, loops = Some (Int (Z.of_nat n)).
Proof.
  rewrite runBeforeRefund_run.
  destruct (setup key rollupHost confs w) as [[t0 w0] [[fA pA] | e |]]; try discriminate.
  destruct (runLoop_observed fuel agentType numAgents numTxsPerAgent assets loops
              fA pA fuel 0 w0) as (m & _ & _ & _ & _ & _ & I5).
  destruct (runLoop fuel fuel agentType numAgents numTxsPerAgent assets loops fA pA 0 w0)
    as [[t1 w1] o]. cbn [outcome snd] in *.
  intros Ho. destruct (I5 Ho) as [I6 _]. rewrite Z.add_0_l in I6. eauto.
Qed.

(** X7: when the setup or the loop does not return (an estimate, a balance
    poll or a batch has thrown), [run] ends right there with the same error:
    it makes no refund call and does not call [sdk.destroy()]; the session is
    torn down only in runs whose loop has returned. *)
Theorem X7_failure_skips_refund :
  forall (W : Type) (L : Ledger W) (fuel : nat) (fundingPrivateKey : Buffer)
         (agentType : string) (numAgents numTxsPerAgent numConcurrentTransfers : number)
         (assets : list number) (rollupHost host : string) (confs : number)
         (loops : option number) (w : W),
    let r := run fuel fundingPrivateKey agentType numAgents numTxsPerAgent
                 numConcurrentTransfers assets rollupHost host confs loops w in
    let p := runBeforeRefund fuel fundingPrivateKey agentType numAgents numTxsPerAgent
                             numConcurrentTransfers assets rollupHost host confs loops w in
    (outcome p <> Ret tt -> r = p /\ filter is_destroy (trace r) = []) /\
    (forall e, outcome p = Thrown e -> outcome r = Thrown e) /\
    (filter is_destroy (trace r) <> [] -> outcome p = Ret tt).
Proof.
  intros W L fuel key agentType numAgents numTxs numConc assets rollupHost host confs
         loops w r p.
  assert (outcome p <> Ret tt -> r = p /\ filter is_destroy (trace r) = []) as A.
  { intros Ho. assert (r = p) as E by (apply run_cut; exact Ho).
    split; [exact E |]. rewrite E. apply prefix_no_destroy. }
  split; [exact A | split].
  - intros e Ho. destruct A as [-> _]; [rewrite Ho; discriminate | exact Ho].
  - intros Hd. destruct (outcome p) as [[] | e |] eqn:Ho; [reflexivity | |];
      exfalso; apply Hd; apply A; discriminate.
Qed.

(** Three iterations asked for, the batch of the second one fails. *)
Lemma X7_failure_skips_refund_witness :
  outcome (@run Script (scripted 0 0 0) 4 [] "payment" (Int 2) (Int 5) (Int 1) [Int 0]
             "rollup" "host" (Int 1) (Some (Int 3))
             (script [] [] [] [inr tt; inl "agent failed"]))
  = Thrown "agent failed" /\
  filter is_destroy
    (trace (@run Script (scripted 0 0 0) 4 [] "payment" (Int 2) (Int 5) (Int 1) [Int 0]
              "rollup" "host" (Int 1) (Some (Int 3))
              (script [] [] [] [inr tt; inl "agent failed"]))) = [].
Proof.
  pose proof (X7_failure_skips_refund Script (scripted 0 0 0) 4 [] "payment" (Int 2)
                (Int 5) (Int 1) [Int 0] "rollup" "host" (Int 1) (Some (Int 3))
                (script [] [] [] [inr tt; inl "agent failed"])) as (A & B & _).
  split.
  - apply B. reflexivity.
  - apply A. discriminate.
Defined.

(** X8: the funding address [setup] returns is the account added for the
    funding key when the key is not empty, in which case the node's accounts
    are not asked for; with an empty key it is the first account of the node,
    and [undefined] when the node has none.  Its balance is read once.  The
    process address is the account added for 32 fresh random bytes. *)
Theorem X8_setup_addresses :
  forall (W : Type) (L : Ledger W) (fundingPrivateKey : Buffer) (rollupHost : string)
         (confs : number) (w w' : W) (t : list Event) (fA pA : EthAddress),
    setup fundingPrivateKey rollupHost confs w = (t, w', Ret (fA, pA)) ->
    (fundingPrivateKey <> [] ->
     In (EvAddAccount fundingPrivateKey (inr fA)) t /\ filter is_getAccounts t = []) /\
    (fundingPrivateKey = [] ->
     exists accounts,
       In (EvGetAccounts (inr accounts)) t /\ fA = hd AddressUndefined accounts) /\
    (exists b, In (EvGetPublicBalanceAv 0 fA (inr b)) t) /\
    (exists pk, In (EvRandomBytes 32 (inr pk)) t /\ In (EvAddAccount pk (inr pA)) t).
Proof. intros W L key rollupHost confs w w' t fA pA. apply setup_addresses. Qed.

(** No funding key and a node without accounts: the funding address is
    [undefined]. *)
Lemma X8_setup_addresses_witness :
  exists accounts,
    In (EvGetAccounts (inr accounts))
       (trace (@setup Script (configured (inr tt) []) [] "rollup" (Int 1)
                 (script [] [] [] [])))
    /\ AddressUndefined = hd AddressUndefined accounts.
Proof.
  apply (proj1 (proj2
           (X8_setup_addresses Script (configured (inr tt) []) [] "rollup" (Int 1)
              (script [] [] [] []) _ _ AddressUndefined (Address 32) eq_refl))).
  reflexivity.
Defined.

(** X9: the first call of [run] is [createAztecSdk] with the rollup host and
    [confs]; the calls of the setup (SDK, accounts, random bytes, the funding
    balance) come before everything else and are never made again; and when
    the SDK cannot be initialised, [run] throws that error having made no
    other call. *)
Theorem X9_sdk_first :
  forall (W : Type) (L : Ledger W) (fuel : nat) (fundingPrivateKey : Buffer)
         (agentType : string) (numAgents numTxsPerAgent numConcurrentTransfers : number)
         (assets : list number) (rollupHost host : string) (confs : number)
         (loops : option number) (w : W),
    let r := run fuel fundingPrivateKey agentType numAgents numTxsPerAgent
                 numConcurrentTransfers assets rollupHost host confs loops w in
    (exists rest,
        trace r = EvCreateAztecSdk rollupHost confs
                    (fst (createAztecSdk rollupHost confs w)) :: rest) /\
    (exists rest,
        trace r = trace (setup fundingPrivateKey rollupHost confs w) ++ rest /\
        forallb is_setup (trace (setup fundingPrivateKey rollupHost confs w)) = true /\
        forallb (fun e => negb (is_setup e)) rest = true) /\
    (forall e,
        outcome (initSdk rollupHost confs w) = Thrown e ->
        r = (trace (initSdk rollupHost confs w), world (initSdk rollupHost confs w),
             Thrown e)) /\
    (forall e w1,
        createAztecSdk rollupHost confs w = (inl e, w1) ->
        r = ([EvCreateAztecSdk rollupHost confs (inl e)], w1, Thrown e)).
Proof.
  intros W L fuel key agentType numAgents numTxs numConc assets rollupHost host confs
         loops w r.
  assert (forall e,
             outcome (initSdk rollupHost confs w) = Thrown e ->
             r = (trace (initSdk rollupHost confs w), world (initSdk rollupHost confs w),
                  Thrown e)) as A.
  { intros e Ho. unfold r. rewrite run_run, (setup_initSdk_thrown key _ _ w e Ho).
    reflexivity. }
  destruct (run_setup_first fuel key agentType numAgents numTxs numConc assets rollupHost
              host confs loops w) as (rest & Et & Hr).
  split; [| split; [| split; [exact A |]]].
  - fold r in Et. rewrite Et.
    destruct (setup_head key rollupHost confs w) as [rest' ->]. eexists; reflexivity.
  - exists rest. split; [exact Et |]. split; [| exact Hr].
    apply setup_only.
  - intros e w1 Ec. rewrite (A e).
    + rewrite initSdk_run, Ec. reflexivity.
    + rewrite initSdk_run, Ec. reflexivity.
Qed.

(** A rollup provider that refuses the connection. *)
Lemma X9_sdk_first_witness :
  @run Script (configured (inl "connection refused") []) 4 [] "payment" (Int 2) (Int 5)
    (Int 1) [Int 0] "rollup" "host" (Int 1) (Some (Int 3)) (script [] [] [] [])
  = ([EvCreateAztecSdk "rollup" (Int 1) (inl "connection refused")],
     script [] [] [] [], Thrown "connection refused").
Proof.
  apply (proj2 (proj2 (proj2
           (X9_sdk_first Script (configured (inl "connection refused") []) 4 []
              "payment" (Int 2) (Int 5) (Int 1) [Int 0] "rollup" "host" (Int 1)
              (Some (Int 3)) (script [] [] [] []))))).
  reflexivity.
Defined.

(** In a reliable world without a loop count, the loop is still going after
    any number of turns, each turn one more completed iteration. *)
Lemma runLoop_unbounded {W : Type} `{Ledger W} (reliable : Reliable W)
    gas (kind : WorkloadKind) (a : Z) numTransfers assetIds fA pA :
  forall (fuel : nat) (k : Z) (w : W),
    outcome (runLoop (S gas) fuel (agentTypeOf kind) (Int a) numTransfers assetIds
                     None fA pA k w) = Pending /\
    completed_runs (trace (runLoop (S gas) fuel (agentTypeOf kind) (Int a) numTransfers
                                   assetIds None fA pA k w))
    = count_from k fuel.
Proof.
  induction fuel as [| fuel IH]; intros k w; [split; reflexivity |].
  rewrite runLoop_step. cbn [strict_neq].
  pose proof (iteration_returns reliable gas kind a numTransfers assetIds None
                fA pA k w (ex_intro _ _ eq_refl)) as Ei.
  pose proof (iteration_complete (S gas) (agentTypeOf kind) (Int a) numTransfers assetIds
                None fA pA k w Ei) as (C1 & _).
  destruct (iteration _ _ _ _ _ _ _ _ k w) as [[t1 w1] o].
  cbn [trace world outcome fst snd] in *. subst o.
  destruct (IH (k + 1) w1) as [IH1 IH2].
  cbn [trace world outcome fst snd]. split; [exact IH1 |].
  rewrite completed_runs_app, C1, IH2. reflexivity.
Qed.

(** X10: without a loop count [run] never returns and never gets to the
    refund or to [sdk.destroy()]; in a reliable world its loop is still running
    after any number of turns, one more iteration completed each turn; and
    every estimate is made with the default of 10 loops. *)
Theorem X10_loops_omitted :
  forall (W : Type) (L : Ledger W) (fundingPrivateKey : Buffer)
         (agentType : string) (numAgents numTxsPerAgent numConcurrentTransfers : number)
         (assets : list number) (rollupHost host : string) (confs : number),
    (forall fuel (w : W),
        let r := run fuel fundingPrivateKey agentType numAgents numTxsPerAgent
                     numConcurrentTransfers assets rollupHost host confs None w in
        outcome r <> Ret tt /\
        filter is_destroy (trace r) = [] /\
        r = runBeforeRefund fuel fundingPrivateKey agentType numAgents numTxsPerAgent
                            numConcurrentTransfers assets rollupHost host confs None w) /\
    (forall gas fuel kind a fA pA (w : W),
        Reliable W -> agentType = agentTypeOf kind -> numAgents = Int a ->
        let d := runLoop (S gas) fuel agentType numAgents numTxsPerAgent assets
                         None fA pA 0 w in
        outcome d = Pending /\ completed_runs (trace d) = indices fuel) /\
    (forall (w : W),
        getAgentRequiredFunding agentType numAgents numTxsPerAgent assets None w
        = getAgentRequiredFunding agentType numAgents numTxsPerAgent assets
                                  (Some (Int 10)) w).
Proof.
  intros W L key agentType numAgents numTxs numConc assets rollupHost host confs.
  split; [| split].
  - intros fuel w r.
    assert (outcome (runBeforeRefund fuel key agentType numAgents numTxs numConc assets
                       rollupHost host confs None w) <> Ret tt) as Hp.
    { intros Ho. apply prefix_returns_only in Ho. destruct Ho as [n Hn]. discriminate. }
    assert (r = runBeforeRefund fuel key agentType numAgents numTxs numConc assets
                  rollupHost host confs None w) as E by (apply run_cut; exact Hp).
    rewrite E. split; [exact Hp |]. split; [apply prefix_no_destroy | reflexivity].
  - intros gas fuel kind a fA pA w reliable -> -> d.
    apply (runLoop_unbounded reliable gas kind a numTxs assets fA pA fuel 0 w).
  - intros w. reflexivity.
Qed.

(** All going well: after four turns four iterations have run and the loop is
    still pending. *)
Lemma X10_loops_omitted_witness :
  outcome (@runLoop unit (steady 0 0 0 0) 1 4 "uniswap" (Int 2) (Int 5) [Int 0]
             None (Address 7) (Address 32) 0 tt) = Pending /\
  completed_runs
    (trace (@runLoop unit (steady 0 0 0 0) 1 4 "uniswap" (Int 2) (Int 5) [Int 0]
              None (Address 7) (Address 32) 0 tt))
  = [0; 1; 2; 3].
Proof.
  apply (proj1 (proj2
           (X10_loops_omitted unit (steady 0 0 0 0) [] "uniswap" (Int 2) (Int 5) (Int 1)
              [Int 0] "rollup" "host" (Int 1)))
           0%nat 4%nat uniswapSwap 2 (Address 7) (Address 32) tt);
    [apply steady_reliable | reflexivity | reflexivity].
Defined.

(** X11: with a loop count that is not an integer, [run] throws in its first
    iteration at the latest: it never polls the balance of the process
    account, makes no transfer, runs no batch and does not call
    [sdk.destroy()].  For one of the three kinds with an integer agent count,
    once the setup has returned and the agent's cost estimate resolves, the
    error is the [RangeError] that names the loop count. *)
Theorem X11_loops_not_integer :
  forall (W : Type) (L : Ledger W) (fuel : nat) (fundingPrivateKey : Buffer)
         (agentType : string) (numAgents numTxsPerAgent numConcurrentTransfers : number)
         (assets : list number) (rollupHost host : string) (confs : number)
         (text : string) (w : W),
    let r := run (S fuel) fundingPrivateKey agentType numAgents numTxsPerAgent
                 numConcurrentTransfers assets rollupHost host confs
                 (Some (NonInt text)) w in
    (exists e, outcome r = Thrown e) /\
    filter is_poll (trace r) = [] /\
    filter is_transfer (trace r) = [] /\
    filter is_batch (trace r) = [] /\
    filter is_destroy (trace r) = [] /\
    (forall kind n cost t0 w0 addrs,
        agentType = agentTypeOf kind -> numAgents = Int n ->
        setup fundingPrivateKey rollupHost confs w = (t0, w0, Ret addrs) ->
        reportedCost kind numTxsPerAgent assets w0 = inr cost ->
        outcome r
        = Thrown (String.append "The number "
                    (String.append text
                       " cannot be converted to a BigInt because it is not an integer"))).
Proof.
  intros W L fuel key agentType numAgents numTxs numConc assets rollupHost host confs
         text w r.
  unfold r. rewrite run_run.
  destruct (setup_only key rollupHost confs w) as [Q0 P0].
  destruct (setup key rollupHost confs w) as [[t0 w0] [[fA pA] | e |]] eqn:Es;
    cbn [trace world outcome fst snd] in *.
  3: now elim P0.
  2: { destruct (setup_inert t0 Q0) as (I1 & I2 & I3 & I4 & _).
       repeat split; eauto. intros; discriminate. }
  rewrite runLoop_step. cbn [strict_neq]. rewrite iteration_run.
  destruct (estimate_footprint agentType numAgents numTxs assets (Some (NonInt text)) w0)
    as (P1 & Q1 & _).
  pose proof (getAgentRequiredFunding_inv agentType numAgents numTxs assets
                (Some (NonInt text)) w0) as Inv.
  destruct (getAgentRequiredFunding agentType numAgents numTxs assets
                                    (Some (NonInt text)) w0)
    as [[t1 w1] [spec | e |]] eqn:Ee; cbn [trace world outcome fst snd] in *.
  - destruct (Inv spec eq_refl) as (_ & _ & _ & l & _ & _ & _ & El & _). discriminate.
  - destruct (setup_inert t0 Q0) as (I1 & I2 & I3 & I4 & _).
    destruct (cost_inert t1 Q1) as (J1 & J2 & J3 & J4).
    split; [eauto |].
    repeat split;
      try (rewrite filter_app; cbn [filter is_poll is_transfer is_batch is_destroy];
           rewrite ?I1, ?I2, ?I3, ?I4, ?J1, ?J2, ?J3, ?J4; reflexivity).
    intros kind n cost t0' w0' addrs -> -> [= <- <- <-] Ec.
    destruct kind; cbn [agentTypeOf reportedCost] in *.
    + rewrite estimate_payment, Ec in Ee. injection Ee as _ _ <-. reflexivity.
    + rewrite estimate_uniswap, Ec in Ee. injection Ee as _ _ <-. reflexivity.
    + rewrite estimate_element in Ee. injection Ee as _ _ <-. reflexivity.
  - now elim P1.
Qed.

(** Two and a half loops. *)
Lemma X11_loops_not_integer_witness :
  outcome (@run Script (scripted 0 0 0) 1 [] "payment" (Int 2) (Int 5) (Int 1) [Int 0]
             "rollup" "host" (Int 1) (Some (NonInt "2.5")) (script [] [] [] []))
  = Thrown "The number 2.5 cannot be converted to a BigInt because it is not an integer".
Proof.
  apply (proj2 (proj2 (proj2 (proj2 (proj2
           (X11_loops_not_integer Script (scripted 0 0 0) 0 [] "payment" (Int 2) (Int 5)
              (Int 1) [Int 0] "rollup" "host" (Int 1) "2.5" (script [] [] [] []))))))
           payment 2 0 _ _ _ eq_refl eq_refl eq_refl eq_refl).
Defined.

(** X12: with loop count 0 the loop ends before its first iteration: [run]
    goes from the setup straight to the refund and the teardown, asks for no
    cost estimate and runs no batch, and what it does is the same for every
    agent type, known or not, and every agent count and asset list. *)
Theorem X12_zero_loops :
  forall (W : Type) (L : Ledger W) (fuel : nat) (fundingPrivateKey : Buffer)
         (agentType : string) (numAgents numTxsPerAgent numConcurrentTransfers : number)
         (assets : list number) (rollupHost host : string) (confs : number) (w : W),
    let r := run (S fuel) fundingPrivateKey agentType numAgents numTxsPerAgent
                 numConcurrentTransfers assets rollupHost host confs (Some (Int 0)) w in
    (forall fuel' agentType' numAgents' numTxsPerAgent' numConcurrentTransfers' assets' host',
        run (S fuel') fundingPrivateKey agentType' numAgents' numTxsPerAgent'
            numConcurrentTransfers' assets' rollupHost host' confs (Some (Int 0)) w = r) /\
    filter is_cost (trace r) = [] /\
    filter is_batch (trace r) = [] /\
    (forall t0 w0 fA pA,
        setup fundingPrivateKey rollupHost confs w = (t0, w0, Ret (fA, pA)) ->
        exists rest,
          trace r = t0 ++ trace (refund fA pA w0) ++ rest /\
          (rest = [] \/ exists res, rest = [EvDestroy res])).
Proof.
  intros W L fuel key agentType numAgents numTxs numConc assets rollupHost host confs w r.
  assert (forall f a n t c s h,
             run (S f) key a n t c s rollupHost h confs (Some (Int 0)) w
             = match setup key rollupHost confs w with
               | (t0, w0, Ret (fA, pA)) =>
                 match refund fA pA w0 with
                 | (t2, w2, Ret _) =>
                   let '(res, w3) := sdk_destroy w2 in
                   (t0 ++ t2 ++ [EvDestroy res], w3,
                    match res with inl e => Thrown e | inr _ => Ret tt end)
                 | (t2, w2, Thrown e) => (t0 ++ t2, w2, Thrown e)
                 | (t2, w2, Pending) => (t0 ++ t2, w2, Pending)
                 end
               | (t0, w0, Thrown e) => (t0, w0, Thrown e)
               | (t0, w0, Pending) => (t0, w0, Pending)
               end) as A.
  { intros f a n t c s h. rewrite run_run.
    destruct (setup key rollupHost confs w) as [[t0 w0] [[fA pA] | e |]]; reflexivity. }
  split; [| split; [| split]].
  - intros. unfold r. rewrite !A. reflexivity.
  - unfold r. rewrite A.
    destruct (setup_only key rollupHost confs w) as [Q0 _].
    destruct (setup key rollupHost confs w) as [[t0 w0] [[fA pA] | e |]];
      cbn [trace fst] in *; try (apply setup_inert; exact Q0).
    destruct (setup_inert t0 Q0) as (_ & _ & _ & _ & I5).
    destruct (refund_later fA pA w0) as [_ Q2].
    destruct (refund fA pA w0) as [[t2 w2] [[] | e |]]; cbn [trace fst] in *.
    + destruct (sdk_destroy w2) as [res w3]. cbn [trace fst].
      rewrite !filter_app, I5, Q2. reflexivity.
    + rewrite filter_app, I5, Q2. reflexivity.
    + rewrite filter_app, I5, Q2. reflexivity.
  - unfold r. rewrite A.
    pose proof (setup_quiet key rollupHost confs w) as Q0.
    destruct (setup key rollupHost confs w) as [[t0 w0] [[fA pA] | e |]];
      cbn [trace fst] in *; try (apply batches_quiet; exact Q0).
    pose proof (refund_quiet fA pA w0) as Q2.
    destruct (refund fA pA w0) as [[t2 w2] [[] | e |]]; cbn [trace fst] in *.
    + destruct (sdk_destroy w2) as [res w3]. cbn [trace fst].
      rewrite !filter_app, (batches_quiet t0 Q0), (batches_quiet t2 Q2). reflexivity.
    + rewrite filter_app, (batches_quiet t0 Q0), (batches_quiet t2 Q2). reflexivity.
    + rewrite filter_app, (batches_quiet t0 Q0), (batches_quiet t2 Q2). reflexivity.
  - intros t0 w0 fA pA Es. unfold r. rewrite A, Es.
    destruct (refund fA pA w0) as [[t2 w2] [[] | e |]]; cbn [trace fst].
    + destruct (sdk_destroy w2) as [res w3]. cbn [trace fst]. eauto.
    + exists []. rewrite app_nil_r. auto.
    + exists []. rewrite app_nil_r. auto.
Qed.

(** An agent type the program does not know goes unnoticed. *)
Lemma X12_zero_loops_witness :
  exists rest,
    trace (@run Script (scripted 0 0 0) 1 [] "no such agent" (NonInt "2.5") (Int 5) (Int 1) []
             "rollup" "host" (Int 1) (Some (Int 0)) (script [inr 5] [] [] []))
    = trace (@setup Script (scripted 0 0 0) [] "rollup" (Int 1) (script [inr 5] [] [] []))
        ++ trace (@refund Script (scripted 0 0 0) (Address 7) (Address 32)
                    (script [inr 5] [] [] [])) ++ rest
    /\ (rest = [] \/ exists res, rest = [EvDestroy res]).
Proof.
  apply (proj2 (proj2 (proj2
           (X12_zero_loops Script (scripted 0 0 0) 0 [] "no such agent" (NonInt "2.5") (Int 5)
              (Int 1) [] "rollup" "host" (Int 1) (script [inr 5] [] [] []))))
           _ (script [inr 5] [] [] [])).
  reflexivity.
Defined.

(** X13: the refund is a single shot: it sets no timeout, makes one transfer
    at most, asks for a receipt only for the hash that transfer returned, and
    when its balance poll rejects it throws that error without any transfer. *)
Theorem X13_refund_single_shot :
  forall (W : Type) (L : Ledger W) (fundingAddress processAddress : EthAddress) (w : W),
    let r := refund fundingAddress processAddress w in
    filter is_backoff (trace r) = [] /\
    (List.length (filter is_transfer (trace r)) <= 1)%nat /\
    (List.length (filter is_poll (trace r)) = 1)%nat /\
    receipts_follow None (trace r) = true /\
    (forall e w1,
        sdk_getPublicBalance 0 processAddress w = (inl e, w1) ->
        r = ([EvGetPublicBalance 0 processAddress (inl e)], w1, Thrown e)).
Proof.
  intros W L fA pA w r. unfold r. rewrite refund_run.
  destruct (sdk_getPublicBalance 0 pA w) as [[e | b] w1].
  - repeat split; auto. intros e' w1' [= <- <-]. reflexivity.
  - destruct (0 <? b - fee).
    + destruct (asset_transfer (b - fee) pA fA w1) as [[e | tx] w2].
      * repeat split; auto; discriminate.
      * destruct (sdk_getTransactionReceipt tx w2) as [r3 w3].
        cbn [trace fst receipts_follow]. rewrite N.eqb_refl.
        repeat split; auto; discriminate.
    + repeat split; auto; discriminate.
Qed.

(** A node that cannot be reached for the balance. *)
Lemma X13_refund_single_shot_witness :
  @refund Script (scripted 0 0 0) (Address 7) (Address 32)
    (script [inl "timeout"] [] [] [])
  = ([EvGetPublicBalance 0 (Address 32) (inl "timeout")], script [] [] [] [],
     Thrown "timeout").
Proof.
  apply (proj2 (proj2 (proj2 (proj2
           (X13_refund_single_shot Script (scripted 0 0 0) (Address 7) (Address 32)
              (script [inl "timeout"] [] [] [])))))).
  reflexivity.
Defined.

(** ** The estimate is made anew in every iteration *)

Section CostCalls.
Context {W : Type} `{Ledger W}.

Lemma fundingLoop_no_cost fuel fA pA toFund threshold (w : W) :
  filter is_cost (trace (fundingLoop fuel fA pA toFund threshold w)) = [].
Proof.
  apply (fundingLoop_ind fA pA toFund threshold (fun t o => filter is_cost t = []));
    try reflexivity.
  - intros b t Hb S. inversion S; subst; reflexivity.
  - intros b t msg rest o Hb S IH. inversion S; subst; cbn; exact IH.
Qed.

Lemma all_cost (t : list Event) : forallb is_cost t = true -> filter is_cost t = t.
Proof.
  induction t as [| e t IH]; [reflexivity |]. cbn.
  destruct (is_cost e); [| discriminate]. intros Ht. rewrite (IH Ht). reflexivity.
Qed.

(** The cost calls of an iteration that ran to its end are those of its
    estimate. *)
Lemma iteration_cost gas agentType numAgents numTxsPerAgent assets loops fA pA k (w : W) :
  outcome (iteration gas agentType numAgents numTxsPerAgent assets loops fA pA k w)
  = Ret tt ->
  filter is_cost (trace (iteration gas agentType numAgents numTxsPerAgent assets loops
                                   fA pA k w))
  = trace (getAgentRequiredFunding agentType numAgents numTxsPerAgent assets loops w).
Proof.
  rewrite iteration_run.
  destruct (estimate_footprint agentType numAgents numTxsPerAgent assets loops w)
    as (_ & Q1 & _).
  destruct (getAgentRequiredFunding _ _ _ _ _ w) as [[t1 w1] [spec | e |]];
    cbn [trace outcome fst snd] in *; try discriminate.
  pose proof (fundingLoop_no_cost gas fA pA (toFund spec) (fundingThreshold spec) w1) as Q2.
  destruct (fundingLoop _ _ _ _ _ w1) as [[t2 w2] [[] | e |]];
    cbn [trace outcome fst snd] in *; try discriminate.
  destruct (agentManager_run _ w2) as [[e | []] w3]; cbn [trace outcome fst snd];
    [discriminate |].
  intros _. cbn [filter is_cost]. rewrite !filter_app, Q2, (all_cost t1 Q1).
  cbn. apply app_nil_r.
Qed.

(** How many cost calls an estimate of this kind makes. *)
Local Abbreviation calls kind :=
  (match kind with elementVault => 0%nat | _ => 1%nat end).

Lemma estimate_calls (kind : WorkloadKind) numAgents numTxsPerAgent assets loops (w : W) :
  List.length (trace (getAgentRequiredFunding (agentTypeOf kind) numAgents numTxsPerAgent
                        assets loops w)) = calls kind.
Proof.
  destruct kind; cbn [agentTypeOf].
  - rewrite estimate_payment. reflexivity.
  - rewrite estimate_uniswap. reflexivity.
  - rewrite estimate_element. reflexivity.
Qed.

Lemma runLoop_cost gas (kind : WorkloadKind) numAgents numTxsPerAgent assets loops fA pA
    fuel :
  forall k (w : W),
    let d := runLoop gas fuel (agentTypeOf kind) numAgents numTxsPerAgent assets loops
                     fA pA k w in
    outcome d = Ret tt ->
    List.length (filter is_cost (trace d))
    = (calls kind * List.length (completed_runs (trace d)))%nat.
Proof.
  induction fuel as [| fuel IH]; intros k w d; [discriminate |].
  unfold d. rewrite runLoop_step.
  destruct (strict_neq k loops); [| intros _; cbn; rewrite Nat.mul_0_r; reflexivity].
  pose proof (iteration_cost gas (agentTypeOf kind) numAgents numTxsPerAgent assets loops
                fA pA k w) as Ci.
  pose proof (iteration_complete gas (agentTypeOf kind) numAgents numTxsPerAgent assets
                loops fA pA k w) as Cc.
  pose proof (estimate_calls kind numAgents numTxsPerAgent assets loops w) as Ce.
  destruct (iteration _ _ _ _ _ _ _ _ k w) as [[t1 w1] [[] | e |]];
    cbn [trace world outcome fst snd] in *; try discriminate.
  intros Ho. destruct (Cc eq_refl) as (C1 & _).
  rewrite filter_app, length_app, (Ci eq_refl), Ce.
  rewrite completed_runs_app, length_app, C1, (IH (k + 1) w1 Ho).
  cbn [List.length]. rewrite Nat.mul_add_distr_l, Nat.mul_1_r. reflexivity.
Qed.

End CostCalls.

(** X14: the estimate is made anew in every iteration: for the payment and
    uniswap kinds, a run that returns after [N] iterations has asked the agent
    for its cost exactly [N] times. *)
Theorem X14_estimate_every_iteration :
  forall (W : Type) (L : Ledger W) (fuel : nat) (fundingPrivateKey : Buffer)
         (agentType : string) (numAgents numTxsPerAgent numConcurrentTransfers : number)
         (assets : list number) (rollupHost host : string) (confs : number)
         (N : nat) (w : W),
    let r := run fuel fundingPrivateKey agentType numAgents numTxsPerAgent
                 numConcurrentTransfers assets rollupHost host confs
                 (Some (Int (Z.of_nat N))) w in
    agentType = "payment" \/ agentType = "uniswap" ->
    outcome r = Ret tt ->
    List.length (filter is_cost (trace r)) = N.
Proof.
  intros W L fuel key agentType numAgents numTxs numConc assets rollupHost host confs N w r
         Hk.
  assert (exists kind, agentType = agentTypeOf kind /\ kind <> elementVault)
    as (kind & -> & Hne).
  { destruct Hk as [-> | ->]; [exists payment | exists uniswapSwap];
      split; [reflexivity | discriminate | reflexivity | discriminate]. }
  unfold r. rewrite run_run.
  destruct (setup_only key rollupHost confs w) as [Q0 _].
  destruct (setup key rollupHost confs w) as [[t0 w0] [[fA pA] | e |]];
    cbn [trace outcome fst snd] in *; try discriminate.
  destruct (setup_inert t0 Q0) as (_ & _ & _ & _ & I5).
  pose proof (runLoop_cost fuel kind numAgents numTxs assets (Some (Int (Z.of_nat N)))
                fA pA fuel 0 w0) as Cd.
  destruct (runLoop_observed fuel (agentTypeOf kind) numAgents numTxs assets
              (Some (Int (Z.of_nat N))) fA pA fuel 0 w0) as (m & _ & I1 & _ & _ & _ & I6).
  destruct (runLoop fuel fuel (agentTypeOf kind) numAgents numTxs assets
                    (Some (Int (Z.of_nat N))) fA pA 0 w0) as [[t1 w1] [[] | e |]];
    cbn [trace outcome fst snd] in *; try discriminate.
  destruct (I6 eq_refl) as [EN _]. rewrite Z.add_0_l in EN.
  injection EN as EN. apply Nat2Z.inj in EN. subst m.
  assert (List.length (completed_runs t1) = N) as El.
  { rewrite I1. clear. generalize 0. induction N as [| n IHn]; intros z; [reflexivity |].
    cbn. rewrite IHn. reflexivity. }
  destruct (refund_later fA pA w1) as [_ Q2].
  destruct (refund fA pA w1) as [[t2 w2] [[] | e |]];
    cbn [trace outcome fst snd] in *; try discriminate.
  destruct (sdk_destroy w2) as [[e | []] w3]; cbn [trace outcome fst snd];
    [discriminate |].
  intros _. rewrite !filter_app, !length_app, I5, Q2, (Cd eq_refl), El.
  cbn [filter is_cost List.length].
  destruct kind; [| | now elim Hne]; cbn; rewrite ?Nat.add_0_r; reflexivity.
Qed.

(** Three iterations of the uniswap workload, three cost estimates. *)
Lemma X14_estimate_every_iteration_witness :
  List.length
    (filter is_cost
       (trace (@run unit (steady 0 0 0 0) 4 [] "uniswap" (Int 2) (Int 5) (Int 1) [Int 0]
                 "rollup" "host" (Int 1) (Some (Int (Z.of_nat 3))) tt))) = 3%nat.
Proof.
  apply (X14_estimate_every_iteration unit (steady 0 0 0 0) 4 [] "uniswap" (Int 2)
           (Int 5) (Int 1) [Int 0] "rollup" "host" (Int 1) 3 tt).
  - right. reflexivity.
  - reflexivity.
Defined.
